(** * Transfer orchestrator (src/lib/orchestrator.ts): a shallow embedding

    The orchestrator coordinates three provider legs (Pay.tech, Bridge,
    Tempo).  Numbers are IEEE binary64 values, as JavaScript's [Number];
    strings are held in UTF-8 and measured in UTF-16 code units; the
    in-memory [Map<string, Transfer>] is a finite map keyed by strings; the
    clock, the uuid generator and the provider adapters are oracles that
    the orchestrator consults through an explicit world state.  The provider
    clients of src/process are embedded over an oracle for the network, the
    quote route (POST /api/quote) over a model of JSON values. *)

Set Warnings "-inexact-float,-register-all".
From Stdlib Require Import ZArith Floats Ascii String Sorted.
From stdpp Require Import gmap strings list pretty.

Open Scope string_scope.

(** ** JavaScript numbers *)

Module Js.

(** The Number value nearest to the quotient [n / d] (ties to even): what
    [parseFloat] yields for a decimal literal with numerator [n] and a
    power of ten [d] as denominator. *)
Definition nearest_quotient (n d : positive) : float :=
  SF2Prim (SFdiv prec emax (S754_finite false n 0) (S754_finite false d 0)).

(** [parseFloat(x.toFixed(digits))].  [Number.prototype.toFixed] prints the
    integer [n] for which [n / 10^digits - |x|] is closest to zero (the
    larger one on a tie) with a decimal point inserted, the sign in front;
    at or above 1e21 it prints the shortest round-trip form of [x], which
    parses back to [x]; NaN and the infinities print as their names. *)
Definition parseFloat_toFixed (digits : nat) (x : float) : float :=
  match Prim2SF x with
  | S754_finite s m e =>
      if (1e21 <=? abs x)%float then x
      else
        let scale := (10 ^ Z.of_nat digits)%Z in
        let num := (Z.pos m * scale)%Z in
        let n := if (0 <=? e)%Z then (num * 2 ^ e)%Z
                 else ((2 * num + 2 ^ (- e)) / (2 * 2 ^ (- e)))%Z in
        let r := match n, scale with
                 | Z.pos p, Z.pos q => nearest_quotient p q
                 | _, _ => 0%float
                 end in
        if s then (- r)%float else r
  | S754_zero _ => 0%float
  | _ => x
  end.

(** [Math.max(a, b)]: NaN when either argument is NaN. *)
Definition Math_max (a b : float) : float :=
  if is_nan a || is_nan b then nan
  else if (a <? b)%float then b else a.

(** [a || b] on strings: the empty string is falsy, [undefined] too. *)
Definition string_or (a : option string) (b : string) : string :=
  match a with
  | Some s => if String.eqb s "" then b else s
  | None => b
  end.

(** *** Strings

    A JavaScript string is a sequence of UTF-16 code units.  It is held
    here as its UTF-8 encoding, which is what a string literal of this file
    is (a lone surrogate as the three bytes of its code point).  Lengths
    and positions are counted in code units: a character outside the basic
    plane, four bytes here, is two units; any other character is one. *)

(** A byte [10xxxxxx], which continues a character. *)
Definition continuation (c : ascii) : bool :=
  ((128 <=? nat_of_ascii c) && (nat_of_ascii c <? 192))%nat.

(** A byte [11110xxx], which leads a character outside the basic plane. *)
Definition astral_lead (c : ascii) : bool := (240 <=? nat_of_ascii c)%nat.

(** [s.length] *)
Fixpoint length (s : string) : nat :=
  match s with
  | EmptyString => 0
  | String c rest =>
      (if continuation c then 0 else if astral_lead c then 2 else 1) + length rest
  end.

(** The high surrogate of the character led by [c] and continued by
    [b1 b2 b3], as three bytes. *)
Definition high_surrogate (c b1 b2 b3 : ascii) : string :=
  let cp :=
    ((N_of_ascii c - 240) * 262144 + (N_of_ascii b1 - 128) * 4096
     + (N_of_ascii b2 - 128) * 64 + (N_of_ascii b3 - 128))%N in
  let hs := (55296 + (cp - 65536) / 1024)%N in
  String (ascii_of_N 237)
    (String (ascii_of_N (128 + (hs / 64) mod 64))
       (String (ascii_of_N (128 + hs mod 64)) EmptyString)).

(** [s.slice(0, n)]: the first [n] code units; cutting a character outside
    the basic plane in two leaves its high surrogate. *)
Fixpoint slice0 (n : nat) (s : string) : string :=
  match s with
  | EmptyString => EmptyString
  | String c rest =>
      if continuation c then String c (slice0 n rest)
      else
        match n with
        | 0 => EmptyString
        | 1 =>
            if astral_lead c then
              match rest with
              | String b1 (String b2 (String b3 _)) => high_surrogate c b1 b2 b3
              | _ => EmptyString
              end
            else String c (slice0 0 rest)
        | S (S n' as m) =>
            if astral_lead c then String c (slice0 n' rest)
            else String c (slice0 m rest)
        end
  end.

(** The names every object inherits from [Object.prototype]: [o[name]] is
    a function for these (an object for [__proto__]), not [undefined],
    also when the literal [o] does not list them. *)
Definition Object_prototype : list string :=
  [ "constructor"; "__defineGetter__"; "__defineSetter__"; "hasOwnProperty";
    "__lookupGetter__"; "__lookupSetter__"; "isPrototypeOf";
    "propertyIsEnumerable"; "toString"; "valueOf"; "__proto__";
    "toLocaleString" ].

End Js.

(** ** Domain types (src/types/index.ts) *)

Inductive Currency :=
  USD | EUR | GBP | MXN | BRL | NGN | KES | INR | PHP | CUR_USDC | CUR_USDT.
Inductive StableCoin := USDC | USDT | PHPC.
Inductive Network := ethereum | polygon | solana | base | arbitrum.

Inductive TransferStatus :=
  | pending | kyc_required | processing | bridging | converting | settling
  | completed | failed | cancelled.

Inductive Provider := paytech | bridge | tempo.

(** [LegStatus['status']]: 'pending' | 'processing' | 'completed' | 'failed'. *)
Inductive LegState := leg_pending | leg_processing | leg_completed | leg_failed.

Inductive CollectionMethod := bank_transfer | card | mobile_money.
Inductive PaymentRail := sepa | swift | local_rails.
Inductive TransferPurpose :=
  family_support | business_payment | education | medical | investment | other.

Definition currency_name (c : Currency) : string :=
  match c with
  | USD => "USD" | EUR => "EUR" | GBP => "GBP" | MXN => "MXN" | BRL => "BRL"
  | NGN => "NGN" | KES => "KES" | INR => "INR" | PHP => "PHP"
  | CUR_USDC => "USDC" | CUR_USDT => "USDT"
  end.

Definition stablecoin_name (s : StableCoin) : string :=
  match s with USDC => "USDC" | USDT => "USDT" | PHPC => "PHPC" end.

Definition network_name (n : Network) : string :=
  match n with
  | ethereum => "ethereum" | polygon => "polygon" | solana => "solana"
  | base => "base" | arbitrum => "arbitrum"
  end.

(** Timestamps are the millisecond counts behind [Date#toISOString()]. *)
Definition Timestamp := Z.

Module BankAccount.
Record t := mk {
  accountName : string;
  accountNumber : option string;
  routingNumber : option string;
  iban : option string;
  swiftCode : option string;
  sortCode : option string;
  bankName : string;
  bankCountry : string }.
End BankAccount.

Module MobileWallet.
Record t := mk { provider : string; phoneNumber : string; country : string }.
End MobileWallet.

Module Address.
Record t := mk {
  line1 : string; line2 : option string; city : string;
  state : option string; postalCode : string; country : string }.
End Address.

Module Leg1Route.
Record t := mk {
  provider : Provider; method : CollectionMethod;
  estimatedTime : float; fee : float }.
End Leg1Route.

Module Leg2Route.
Record t := mk {
  provider : Provider; stablecoin : StableCoin; network : Network;
  estimatedTime : float; fee : float; fxRate : float }.
End Leg2Route.

Module Leg3Route.
Record t := mk {
  provider : Provider; method : PaymentRail;
  estimatedTime : float; fee : float; fxRate : float }.
End Leg3Route.

Module TransferRoute.
Record t := mk {
  id : string;
  sourceCurrency : Currency;
  destinationCurrency : Currency;
  sourceCountry : string;
  destinationCountry : string;
  leg1 : Leg1Route.t;
  leg2 : Leg2Route.t;
  leg3 : Leg3Route.t;
  totalFee : float;
  effectiveRate : float;
  estimatedTotalTime : float }.
End TransferRoute.

Module Fees.
Record t := mk {
  paytech : float; bridge : float; tempo : float;
  platform : float; total : float }.
End Fees.

Module TransferQuote.
Record t := mk {
  quoteId : string;
  route : TransferRoute.t;
  sendAmount : float;
  receiveAmount : float;
  exchangeRate : float;
  fees : Fees.t;
  expiresAt : Timestamp;
  createdAt : Timestamp }.
End TransferQuote.

Module Sender.
Record t := mk {
  name : string; email : string; phone : option string;
  address : option Address.t; bankAccount : option BankAccount.t;
  walletAddress : option string }.
End Sender.

Module Recipient.
Record t := mk {
  name : string; email : option string; phone : option string;
  bankAccount : option BankAccount.t; mobileWallet : option MobileWallet.t }.
End Recipient.

Module TransferRequest.
Record t := mk {
  quoteId : string;
  sender : Sender.t;
  recipient : Recipient.t;
  purpose : TransferPurpose;
  reference : option string }.
End TransferRequest.

Module LegStatus.
Record t := mk {
  provider : Provider;
  externalId : string;
  status : LegState;
  startedAt : option Timestamp;
  completedAt : option Timestamp;
  txHash : option string;
  errorMessage : option string }.

Definition set_status (s : LegState) (l : t) : t :=
  mk (provider l) (externalId l) s (startedAt l) (completedAt l)
     (txHash l) (errorMessage l).
Definition set_completedAt (d : Timestamp) (l : t) : t :=
  mk (provider l) (externalId l) (status l) (startedAt l) (Some d)
     (txHash l) (errorMessage l).
Definition set_startedAt (d : Timestamp) (l : t) : t :=
  mk (provider l) (externalId l) (status l) (Some d) (completedAt l)
     (txHash l) (errorMessage l).
Definition set_txHash (h : option string) (l : t) : t :=
  mk (provider l) (externalId l) (status l) (startedAt l) (completedAt l)
     h (errorMessage l).
Definition set_externalId (x : string) (l : t) : t :=
  mk (provider l) x (status l) (startedAt l) (completedAt l)
     (txHash l) (errorMessage l).
End LegStatus.

Module TimelineEvent.
Record t := mk {
  id : string;
  timestamp : Timestamp;
  status : TransferStatus;
  message : string;
  provider : option Provider;
  metadata : option (list (string * option string)) }.
End TimelineEvent.

Module Legs.
Record t := mk {
  leg1 : option LegStatus.t;
  leg2 : option LegStatus.t;
  leg3 : option LegStatus.t }.

Definition set_leg1 (l : LegStatus.t) (g : t) : t := mk (Some l) (leg2 g) (leg3 g).
Definition set_leg2 (l : LegStatus.t) (g : t) : t := mk (leg1 g) (Some l) (leg3 g).
Definition set_leg3 (l : LegStatus.t) (g : t) : t := mk (leg1 g) (leg2 g) (Some l).
End Legs.

Module Transfer.
Record t := mk {
  id : string;
  status : TransferStatus;
  quote : TransferQuote.t;
  request : TransferRequest.t;
  legs : Legs.t;
  timeline : list TimelineEvent.t;
  createdAt : Timestamp;
  updatedAt : Timestamp;
  completedAt : option Timestamp }.

Definition set_status (s : TransferStatus) (x : t) : t :=
  mk (id x) s (quote x) (request x) (legs x) (timeline x)
     (createdAt x) (updatedAt x) (completedAt x).
Definition set_legs (g : Legs.t) (x : t) : t :=
  mk (id x) (status x) (quote x) (request x) g (timeline x)
     (createdAt x) (updatedAt x) (completedAt x).
Definition set_timeline (l : list TimelineEvent.t) (x : t) : t :=
  mk (id x) (status x) (quote x) (request x) (legs x) l
     (createdAt x) (updatedAt x) (completedAt x).
Definition set_updatedAt (d : Timestamp) (x : t) : t :=
  mk (id x) (status x) (quote x) (request x) (legs x) (timeline x)
     (createdAt x) d (completedAt x).
Definition set_completedAt (d : Timestamp) (x : t) : t :=
  mk (id x) (status x) (quote x) (request x) (legs x) (timeline x)
     (createdAt x) (updatedAt x) (Some d).
End Transfer.

Module QuoteRequest.
Record t := mk {
  sendAmount : float;
  sendCurrency : Currency;
  receiveCurrency : Currency;
  sendCountry : string;
  receiveCountry : string;
  paymentMethod : option CollectionMethod }.
End QuoteRequest.

(** ** Provider types (src/types/index.ts, src/process/*.ts) *)

Module PaymentMethodOffer.
Record t := mk { type : CollectionMethod; available : bool; additionalFee : float }.
End PaymentMethodOffer.

Module PaytechFeeQuote.
Record t := mk {
  fee : float;
  feeCurrency : Currency;
  estimatedSettlementSeconds : float;
  paymentMethods : list PaymentMethodOffer.t }.
End PaytechFeeQuote.

Module BridgeFxQuote.
Record t := mk {
  sourceAmount : float;
  sourceCurrency : Currency;
  destinationAmount : float;
  destinationCurrency : StableCoin;
  exchangeRate : float;
  fee : float;
  network : Network;
  estimatedSettlementSeconds : float }.
End BridgeFxQuote.

Module TempoQuote.
Record t := mk {
  quoteId : string;
  sourceAmount : float;
  sourceCurrency : StableCoin;
  destinationAmount : float;
  destinationCurrency : Currency;
  exchangeRate : float;
  fee : float;
  feeCurrency : StableCoin;
  paymentRail : PaymentRail;
  estimatedSettlementSeconds : float;
  expiresAt : Timestamp }.
End TempoQuote.

Module TempoDepositAddress.
Record t := mk {
  address : string; chain : string; currency : string; memo : option string }.
End TempoDepositAddress.

Module BridgeLiquidationAddress.
Record t := mk {
  id : string; chain : string; currency : string; address : string;
  externalAccountId : string; destinationPaymentRail : string;
  destinationCurrency : string; destinationAddress : string }.
End BridgeLiquidationAddress.

Module PaytechTransferResponse.
Record t := mk {
  transferId : string; status : string; amount : float; currency : string;
  fee : float; estimatedSettlement : string; webhookUrl : option string }.
End PaytechTransferResponse.

Module TempoRecipient.
Record t := mk {
  name : string; iban : option string;
  accountNumber : option string; bankCode : option string }.
End TempoRecipient.

Module TempoPayment.
Record t := mk {
  id : string; status : string; amount : float; currency : string;
  recipient : TempoRecipient.t; reference : string;
  estimatedArrival : string; fee : float }.
End TempoPayment.

(** Arguments of the three initiation calls. *)

Module LiquidationAddressParams.
Record t := mk {
  transferId : string;
  sourceCurrency : Currency;
  stablecoin : StableCoin;
  network : Network;
  tempoDepositAddress : string;
  destinationCurrency : Currency;
  webhookUrl : string }.
End LiquidationAddressParams.

Module CardToken.
Record t := mk { token : string }.
End CardToken.

Module PaytechTransferParams.
Record t := mk {
  transferId : string;
  amount : float;
  currency : Currency;
  senderAccount : BankAccount.t + CardToken.t;
  bridgeLiquidationAddress : string;
  webhookUrl : string }.
End PaytechTransferParams.

Module TempoPaymentParams.
Record t := mk {
  transferId : string;
  tempoQuoteId : string;
  (** [bankAccount || mobileWallet!]: undefined when the recipient has neither. *)
  recipientAccount : option (BankAccount.t + MobileWallet.t);
  recipientName : string;
  reference : string;
  webhookUrl : string }.
End TempoPaymentParams.

(** ** Exceptions and results *)

(** A thrown value: an [Error] with its message, or anything else. *)
Inductive Thrown := JsError (message : string) | JsOther (value : string).

Inductive Result (A : Type) := Ok (a : A) | Throw (e : Thrown).
Arguments Ok {A} a.
Arguments Throw {A} e.

Definition is_ok {A} (r : Result A) : bool :=
  match r with Ok _ => true | Throw _ => false end.

(** [error instanceof Error ? error.message : fallback]. *)
Definition error_message (fallback : string) (e : Thrown) : string :=
  match e with JsError m => m | JsOther _ => fallback end.

(** ** The provider adapters as the orchestrator sees them

    Every adapter is an [async] function: a call settles to a value or
    rejects.  The first argument is the number of adapter calls made so far,
    so that a provider may answer the same request differently over time. *)

Module Adapters.
Record t := mk {
  getPaytechQuote : nat -> float -> Currency -> string -> Result PaytechFeeQuote.t;
  getBridgeQuote :
    nat -> float -> Currency -> StableCoin -> Network -> Result BridgeFxQuote.t;
  getTempoQuote : nat -> float -> Currency -> string -> Result TempoQuote.t;
  getTempoDepositAddress : nat -> string -> string -> Result TempoDepositAddress.t;
  createBridgeLiquidationAddress :
    nat -> LiquidationAddressParams.t -> Result BridgeLiquidationAddress.t;
  initiatePaytechTransfer :
    nat -> PaytechTransferParams.t -> Result PaytechTransferResponse.t;
  createTempoPayment : nat -> TempoPaymentParams.t -> Result TempoPayment.t }.
End Adapters.

(** ** The simulated quotes of src/process *)

Module Paytech.

(** [countryMultipliers[sourceCountry]]: the listed multiplier; for a name
    inherited from [Object.prototype] a function, which the product that
    follows turns into NaN; [None] for [undefined]. *)
Definition countryMultipliers (sourceCountry : string) : option float :=
  if String.eqb sourceCountry "US" then Some 1.0%float
  else if String.eqb sourceCountry "GB" then Some 1.1%float
  else if String.eqb sourceCountry "EU" then Some 1.0%float
  else if String.eqb sourceCountry "MX" then Some 1.3%float
  else if String.eqb sourceCountry "NG" then Some 1.8%float
  else if String.eqb sourceCountry "KE" then Some 1.6%float
  else if String.eqb sourceCountry "PH" then Some 1.4%float
  else if String.eqb sourceCountry "BR" then Some 1.5%float
  else if String.eqb sourceCountry "IN" then Some 1.2%float
  else if bool_decide (sourceCountry ∈ Js.Object_prototype) then Some nan
  else None.

Definition getPaytechQuote (amount : float) (currency : Currency)
    (sourceCountry : string) : PaytechFeeQuote.t :=
  let baseFeePercent := 0.005%float in
  let mult := default 1.5%float (countryMultipliers sourceCountry) in
  let fee := Js.Math_max 2.5 (amount * baseFeePercent * mult)%float in
  PaytechFeeQuote.mk
    (Js.parseFloat_toFixed 2 fee)
    currency
    (60 * 15)%float
    [ PaymentMethodOffer.mk bank_transfer true 0%float;
      PaymentMethodOffer.mk card true (amount * 0.015)%float;
      PaymentMethodOffer.mk mobile_money
        (bool_decide (sourceCountry ∈ ["NG"; "KE"; "GH"])) 0.5%float ].

End Paytech.

Module Bridge.

Definition usdRates (c : Currency) : option float :=
  match c with
  | USD => Some 1.0%float | EUR => Some 1.085%float | GBP => Some 1.27%float
  | MXN => Some 0.059%float | BRL => Some 0.195%float
  | NGN => Some 0.00065%float | KES => Some 0.0077%float
  | INR => Some 0.012%float | PHP => Some 0.0172%float
  | CUR_USDC | CUR_USDT => None
  end.

Definition getBridgeQuote (amount : float) (sourceCurrency : Currency)
    (destinationCurrency : StableCoin) (network : Network) : BridgeFxQuote.t :=
  let rate := default 1.0%float (usdRates sourceCurrency) in
  let usdcAmount := (amount * rate)%float in
  let bridgeFeePercent := 0.001%float in
  let fee := (usdcAmount * bridgeFeePercent)%float in
  BridgeFxQuote.mk
    amount sourceCurrency
    (Js.parseFloat_toFixed 6 (usdcAmount - fee)%float)
    destinationCurrency
    rate
    (Js.parseFloat_toFixed 4 fee)
    network
    30%float.

End Bridge.

Module Tempo.

Definition usdToDestRates (c : Currency) : option float :=
  match c with
  | USD => Some 1.0%float | EUR => Some 0.921%float | GBP => Some 0.787%float
  | MXN => Some 17.05%float | BRL => Some 5.13%float | NGN => Some 1538%float
  | KES => Some 129.5%float | INR => Some 83.2%float | PHP => Some 58.1%float
  | CUR_USDC | CUR_USDT => None
  end.

Definition settlementTimes (r : PaymentRail) : float :=
  match r with
  | sepa => 86400%float | swift => 259200%float | local_rails => 3600%float
  end.

(** [now] is the reading of [new Date()], [stamp] the later one of
    [Date.now()] that names the quote. *)
Definition getTempoQuote (now stamp : Timestamp) (amount : float)
    (destinationCurrency : Currency) (destinationCountry : string) : TempoQuote.t :=
  let rate := default 1.0%float (usdToDestRates destinationCurrency) in
  let localRails := ["MX"; "NG"; "KE"; "IN"; "PH"; "BR"] in
  let paymentRail :=
    if String.eqb destinationCountry "US" then local_rails
    else if bool_decide
              (destinationCountry ∈ ["DE"; "FR"; "IT"; "ES"; "NL"; "AT"; "BE"; "PT"])
         then sepa
    else if bool_decide (destinationCountry ∈ localRails) then local_rails
    else swift in
  let feePercent :=
    match paymentRail with swift => 0.015%float | _ => 0.008%float end in
  let fee := Js.Math_max 0.5 (amount * feePercent)%float in
  let expires := (now + 5 * 60 * 1000)%Z in
  TempoQuote.mk
    ("tempo_q_" ++ pretty stamp)
    amount USDC
    (Js.parseFloat_toFixed 2 ((amount - fee) * rate)%float)
    destinationCurrency
    rate
    (Js.parseFloat_toFixed 4 fee)
    USDC
    paymentRail
    (settlementTimes paymentRail)
    expires.

End Tempo.

(** ** The runtime the module runs in *)

Module Runtime.
Record t := mk {
  (** the n-th value drawn from [uuidv4()] *)
  uuidv4 : nat -> string;
  (** the n-th reading of the clock ([new Date()], [Date.now()]) *)
  clock : nat -> Timestamp;
  (** [String(x)] for a Number inside a template literal *)
  numberToString : float -> string;
  (** [parseFloat(s)] *)
  parseFloat : string -> float;
  (** [process.env.NEXT_PUBLIC_APP_URL || 'http://localhost:3000'] *)
  APP_URL : string;
  (** [parseInt(process.env.PLATFORM_FEE_BPS || '50')] *)
  PLATFORM_FEE_BPS : float }.
End Runtime.

(** The adapter calls the orchestrator can make. *)
Inductive Call :=
  | CallGetPaytechQuote | CallGetBridgeQuote | CallGetTempoQuote
  | CallGetTempoDepositAddress | CallCreateBridgeLiquidationAddress
  | CallInitiatePaytechTransfer | CallCreateTempoPayment.

Global Instance Call_eq_dec : EqDecision Call.
Proof. solve_decision. Defined.

(** The module state: the [transfers] map, how many clock readings and uuids
    have been consumed, and the adapter calls made so far, each with whether
    it resolved. *)
Module World.
Record t := mk {
  transfers : gmap string Transfer.t;
  clockReads : nat;
  uuidsDrawn : nat;
  calls : list (Call * bool) }.

Definition init : t := mk ∅ 0 0 [].
End World.

(** ** Computations that mutate a state and may throw

    A throw keeps every mutation made before it, as in JavaScript. *)

Definition M (S A : Type) : Type := S -> Result A * S.

Definition ret {S A} (a : A) : M S A := fun s => (Ok a, s).

Definition throw {S A} (e : Thrown) : M S A := fun s => (Throw e, s).

Definition bind {S A B} (m : M S A) (k : A -> M S B) : M S B :=
  fun s =>
    match m s with
    | (Ok a, s') => k a s'
    | (Throw e, s') => (Throw e, s')
    end.

(** [try { m } catch (error) { h error }] *)
Definition try_catch {S A} (m : M S A) (h : Thrown -> M S A) : M S A :=
  fun s =>
    match m s with
    | (Ok a, s') => (Ok a, s')
    | (Throw e, s') => h e s'
    end.

Declare Scope js_scope.
Delimit Scope js_scope with js.
Notation "'let*' x ':=' m 'in' k" := (bind m (fun x => k))
  (at level 10, x name, m at level 100, k at level 200) : js_scope.
Notation "m ';;' k" := (bind m (fun _ => k))
  (at level 100, k at level 200, right associativity) : js_scope.

(** A function body that works on one [transfer] object: the state is the
    object together with the module state.  [transfers.get] hands out the
    stored object itself and the body mutates it in place; a body runs to its
    end without interleaving and every body ends in [transfers.set], so the
    map it leaves is the one the in-place mutation leaves. *)
Definition Body (A : Type) : Type := M (Transfer.t * World.t) A.

Definition lift {A} (m : M World.t A) : Body A :=
  fun '(x, w) => let '(r, w') := m w in (r, (x, w')).

Definition with_object {A} (x : Transfer.t) (m : Body A) : M World.t A :=
  fun w => let '(r, (_, w')) := m (x, w) in (r, w').

Definition this : Body Transfer.t := fun '(x, w) => (Ok x, (x, w)).

Definition mutate (f : Transfer.t -> Transfer.t) : Body unit :=
  fun '(x, w) => (Ok tt, (f x, w)).

Definition mutate_leg1 (f : LegStatus.t -> LegStatus.t) : Body unit :=
  mutate (fun x =>
    match Legs.leg1 (Transfer.legs x) with
    | Some l => Transfer.set_legs (Legs.set_leg1 (f l) (Transfer.legs x)) x
    | None => x
    end).

Definition mutate_leg2 (f : LegStatus.t -> LegStatus.t) : Body unit :=
  mutate (fun x =>
    match Legs.leg2 (Transfer.legs x) with
    | Some l => Transfer.set_legs (Legs.set_leg2 (f l) (Transfer.legs x)) x
    | None => x
    end).

Definition mutate_leg3 (f : LegStatus.t -> LegStatus.t) : Body unit :=
  mutate (fun x =>
    match Legs.leg3 (Transfer.legs x) with
    | Some l => Transfer.set_legs (Legs.set_leg3 (f l) (Transfer.legs x)) x
    | None => x
    end).

(** [transfers.set(transferId, transfer)] *)
Definition transfers_set (transferId : string) : Body unit :=
  fun '(x, w) =>
    (Ok tt,
     (x, World.mk (<[transferId := x]> (World.transfers w))
           (World.clockReads w) (World.uuidsDrawn w) (World.calls w))).

(** An [await]ed adapter call: it is recorded, and it resolves or rejects. *)
Definition call {A} (c : Call) (f : nat -> Result A) : M World.t A :=
  fun w =>
    let r := f (length (World.calls w)) in
    (r, World.mk (World.transfers w) (World.clockReads w) (World.uuidsDrawn w)
          (World.calls w ++ [(c, is_ok r)])).

(** [Promise.all] over three calls: all three are started, in order; the
    result rejects as soon as one of them does. *)
Definition promise_all3 {A B C} (a : M World.t A) (b : M World.t B) (c : M World.t C)
    : M World.t (A * B * C) :=
  fun w =>
    let '(ra, w1) := a w in
    let '(rb, w2) := b w1 in
    let '(rc, w3) := c w2 in
    match ra, rb, rc with
    | Ok x, Ok y, Ok z => (Ok (x, y, z), w3)
    | Throw e, _, _ => (Throw e, w3)
    | _, Throw e, _ => (Throw e, w3)
    | _, _, Throw e => (Throw e, w3)
    end.

(** ** Webhook payloads *)

Module PaytechEvent.
Record t := mk { status : string; transferId : string }.
End PaytechEvent.

Module BridgeEvent.
Record t := mk {
  state : string; transferId : string;
  txHash : option string; amount : string }.
End BridgeEvent.

Module TempoEvent.
Record t := mk { status : string; paymentId : string }.
End TempoEvent.

(** ** src/lib/orchestrator.ts *)

Section Orchestrator.

Context (rt : Runtime.t) (ad : Adapters.t).

Local Open Scope js_scope.

Definition uuidv4 : M World.t string :=
  fun w =>
    (Ok (Runtime.uuidv4 rt (World.uuidsDrawn w)),
     World.mk (World.transfers w) (World.clockReads w)
       (S (World.uuidsDrawn w)) (World.calls w)).

(** [new Date().toISOString()] and [Date.now()] *)
Definition newDate : M World.t Timestamp :=
  fun w =>
    (Ok (Runtime.clock rt (World.clockReads w)),
     World.mk (World.transfers w) (S (World.clockReads w))
       (World.uuidsDrawn w) (World.calls w)).

Definition selectNetwork (sourceCurrency destCurrency : Currency) : Network :=
  if bool_decide (currency_name sourceCurrency ∈ ["USD"; "EUR"; "GBP"]) then base
  else if bool_decide (currency_name sourceCurrency ∈ ["MXN"; "BRL"; "NGN"])
  then polygon
  else base.

Definition selectStablecoin (_sourceCurrency : Currency) : StableCoin := USDC.

Definition getTransferQuote (request : QuoteRequest.t) : M World.t TransferQuote.t :=
  let sendAmount := QuoteRequest.sendAmount request in
  let sendCurrency := QuoteRequest.sendCurrency request in
  let receiveCurrency := QuoteRequest.receiveCurrency request in
  let sendCountry := QuoteRequest.sendCountry request in
  let receiveCountry := QuoteRequest.receiveCountry request in
  let stablecoin := selectStablecoin sendCurrency in
  let network := selectNetwork sendCurrency receiveCurrency in
  let* quotes :=
    promise_all3
      (call CallGetPaytechQuote (fun n =>
         Adapters.getPaytechQuote ad n sendAmount sendCurrency sendCountry))
      (call CallGetBridgeQuote (fun n =>
         Adapters.getBridgeQuote ad n sendAmount sendCurrency stablecoin network))
      (call CallGetTempoQuote (fun n =>
         Adapters.getTempoQuote ad n (sendAmount * 1.0)%float
           receiveCurrency receiveCountry)) in
  let '(paytechQuote, bridgeQuote, tempoQuote) := quotes in
  let afterPaytech := (sendAmount - PaytechFeeQuote.fee paytechQuote)%float in
  let usdcAmount :=
    (afterPaytech * BridgeFxQuote.exchangeRate bridgeQuote
     - BridgeFxQuote.fee bridgeQuote)%float in
  let receiveAmount :=
    ((usdcAmount - TempoQuote.fee tempoQuote)
     * TempoQuote.exchangeRate tempoQuote)%float in
  let platformFee := (sendAmount * Runtime.PLATFORM_FEE_BPS rt / 10000)%float in
  let totalFeeInSendCurrency :=
    (PaytechFeeQuote.fee paytechQuote
     + BridgeFxQuote.fee bridgeQuote / BridgeFxQuote.exchangeRate bridgeQuote
     + TempoQuote.fee tempoQuote / BridgeFxQuote.exchangeRate bridgeQuote
     + platformFee)%float in
  let effectiveRate := (receiveAmount / sendAmount)%float in
  let totalTimeSeconds :=
    (PaytechFeeQuote.estimatedSettlementSeconds paytechQuote
     + BridgeFxQuote.estimatedSettlementSeconds bridgeQuote
     + TempoQuote.estimatedSettlementSeconds tempoQuote)%float in
  let* routeId := uuidv4 in
  let route :=
    TransferRoute.mk routeId sendCurrency receiveCurrency sendCountry receiveCountry
      (Leg1Route.mk paytech bank_transfer
         (PaytechFeeQuote.estimatedSettlementSeconds paytechQuote)
         (PaytechFeeQuote.fee paytechQuote))
      (Leg2Route.mk bridge stablecoin network
         (BridgeFxQuote.estimatedSettlementSeconds bridgeQuote)
         (BridgeFxQuote.fee bridgeQuote)
         (BridgeFxQuote.exchangeRate bridgeQuote))
      (Leg3Route.mk tempo (TempoQuote.paymentRail tempoQuote)
         (TempoQuote.estimatedSettlementSeconds tempoQuote)
         (TempoQuote.fee tempoQuote)
         (TempoQuote.exchangeRate tempoQuote))
      (Js.parseFloat_toFixed 2 totalFeeInSendCurrency)
      (Js.parseFloat_toFixed 6 effectiveRate)
      totalTimeSeconds in
  let* quoteId := uuidv4 in
  let* now := newDate in
  let* created := newDate in
  ret (TransferQuote.mk quoteId route sendAmount
         (Js.parseFloat_toFixed 2 receiveAmount)
         (Js.parseFloat_toFixed 6 effectiveRate)
         (Fees.mk
            (PaytechFeeQuote.fee paytechQuote)
            (Js.parseFloat_toFixed 2
               (BridgeFxQuote.fee bridgeQuote
                / BridgeFxQuote.exchangeRate bridgeQuote)%float)
            (Js.parseFloat_toFixed 2
               (TempoQuote.fee tempoQuote
                / BridgeFxQuote.exchangeRate bridgeQuote)%float)
            platformFee
            (Js.parseFloat_toFixed 2 totalFeeInSendCurrency))
         (now + 5 * 60 * 1000)%Z
         created).

Definition addEvent (status : TransferStatus) (message : string)
    (metadata : option (list (string * option string))) : Body unit :=
  let* id := lift uuidv4 in
  let* timestamp := lift newDate in
  let event := TimelineEvent.mk id timestamp status message None metadata in
  mutate (fun x => Transfer.set_timeline (Transfer.timeline x ++ [event]) x) ;;
  mutate (Transfer.set_status status) ;;
  let* updated := lift newDate in
  mutate (Transfer.set_updatedAt updated).

(** The argument object of [createBridgeLiquidationAddress]. *)
Definition liquidationAddressParams (transferId : string) (route : TransferRoute.t)
    (tempoAddress : TempoDepositAddress.t) : LiquidationAddressParams.t :=
  LiquidationAddressParams.mk transferId
    (TransferRoute.sourceCurrency route)
    (Leg2Route.stablecoin (TransferRoute.leg2 route))
    (Leg2Route.network (TransferRoute.leg2 route))
    (TempoDepositAddress.address tempoAddress)
    (TransferRoute.destinationCurrency route)
    (Runtime.APP_URL rt ++ "/api/webhooks/bridge?transferId=" ++ transferId).

(** The argument object of [initiatePaytechTransfer], with the simulated
    bank account that stands in when the sender gave none. *)
Definition paytechTransferParams (transferId : string) (request : TransferRequest.t)
    (quote : TransferQuote.t) (bridgeLiqAddress : BridgeLiquidationAddress.t)
    : PaytechTransferParams.t :=
  let route := TransferQuote.route quote in
  let senderAccount :=
    match Sender.bankAccount (TransferRequest.sender request) with
    | Some account => account
    | None =>
        BankAccount.mk (Sender.name (TransferRequest.sender request))
          (Some "000000000") (Some "021000021") None None None
          "Demo Bank" (TransferRoute.sourceCountry route)
    end in
  PaytechTransferParams.mk transferId
    (TransferQuote.sendAmount quote)
    (TransferRoute.sourceCurrency route)
    (inl senderAccount)
    (BridgeLiquidationAddress.address bridgeLiqAddress)
    (Runtime.APP_URL rt ++ "/api/webhooks/paytech?transferId=" ++ transferId).

Definition createTransfer (request : TransferRequest.t) (quote : TransferQuote.t)
    : M World.t Transfer.t :=
  let* transferId := uuidv4 in
  let route := TransferQuote.route quote in
  let* createdAt := newDate in
  let* updatedAt := newDate in
  let transfer :=
    Transfer.mk transferId pending quote request (Legs.mk None None None) []
      createdAt updatedAt None in
  with_object transfer (
    addEvent processing "Transfer initiated. Setting up payment infrastructure." None ;;
    transfers_set transferId ;;
    try_catch (
      (* Step 2a: Tempo deposit address (leg 3 receiving end) *)
      addEvent processing
        "Generating Tempo settlement address for USDC receipt..." None ;;
      let* tempoAddress :=
        lift (call CallGetTempoDepositAddress (fun n =>
          Adapters.getTempoDepositAddress ad n transferId
            (network_name (Leg2Route.network (TransferRoute.leg2 route))))) in
      (* Step 2b: Bridge liquidation address (leg 2) *)
      addEvent processing "Creating Bridge stablecoin routing address..." None ;;
      let* bridgeLiqAddress :=
        lift (call CallCreateBridgeLiquidationAddress (fun n =>
          Adapters.createBridgeLiquidationAddress ad n
            (liquidationAddressParams transferId route tempoAddress))) in
      mutate (fun x =>
        Transfer.set_legs
          (Legs.set_leg2
             (LegStatus.mk bridge (BridgeLiquidationAddress.id bridgeLiqAddress)
                leg_pending None None None None)
             (Transfer.legs x)) x) ;;
      (* Step 2c: Pay.tech fiat collection (leg 1) *)
      addEvent processing "Initiating fiat collection via Pay.tech..." None ;;
      let* paytechTransfer :=
        lift (call CallInitiatePaytechTransfer (fun n =>
          Adapters.initiatePaytechTransfer ad n
            (paytechTransferParams transferId request quote bridgeLiqAddress))) in
      let* startedAt := lift newDate in
      mutate (fun x =>
        Transfer.set_legs
          (Legs.set_leg1
             (LegStatus.mk paytech
                (PaytechTransferResponse.transferId paytechTransfer)
                leg_processing (Some startedAt) None None None)
             (Transfer.legs x)) x) ;;
      addEvent processing
        ("Pay.tech collecting "
         ++ Runtime.numberToString rt (TransferQuote.sendAmount quote) ++ " "
         ++ currency_name (TransferRoute.sourceCurrency route)
         ++ " from sender bank.")
        (Some [("paytechTransferId",
                Some (PaytechTransferResponse.transferId paytechTransfer))]) ;;
      (* Step 2d: pre-create the Tempo payment (triggered by the webhook) *)
      mutate (fun x =>
        Transfer.set_legs
          (Legs.set_leg3
             (LegStatus.mk tempo ("tempo_pending_" ++ transferId)
                leg_pending None None None None)
             (Transfer.legs x)) x) ;;
      transfers_set transferId ;;
      this)
    (fun error =>
      addEvent failed
        ("Transfer failed: " ++ error_message "Unknown error" error) None ;;
      transfers_set transferId ;;
      throw error)).

Definition not_found {A} (transferId : string) : M World.t A :=
  throw (JsError ("Transfer " ++ transferId ++ " not found")).

Definition handlePaytechWebhook (transferId : string) (paytechEvent : PaytechEvent.t)
    : M World.t unit :=
  fun w =>
    match World.transfers w !! transferId with
    | None => not_found transferId w
    | Some transfer =>
        with_object transfer (
          (if String.eqb (PaytechEvent.status paytechEvent) "settled" then
             (let* x := this in
              match Legs.leg1 (Transfer.legs x) with
              | Some _ =>
                  mutate_leg1 (LegStatus.set_status leg_completed) ;;
                  let* d := lift newDate in
                  mutate_leg1 (LegStatus.set_completedAt d)
              | None => ret tt
              end) ;;
             let* x := this in
             let route := TransferQuote.route (Transfer.quote x) in
             addEvent bridging
               ("✓ Fiat received by Pay.tech. Bridge now converting "
                ++ currency_name (TransferRoute.sourceCurrency route) ++ " → "
                ++ stablecoin_name (Leg2Route.stablecoin (TransferRoute.leg2 route))
                ++ " on "
                ++ network_name (Leg2Route.network (TransferRoute.leg2 route))
                ++ "...")
               None
           else if String.eqb (PaytechEvent.status paytechEvent) "failed" then
             mutate_leg1 (LegStatus.set_status leg_failed) ;;
             addEvent failed
               "Pay.tech fiat collection failed. Transfer cancelled." None
           else ret tt) ;;
          transfers_set transferId) w
    end.

(** [bridgeEvent.txHash?.slice(0, 12)] inside a template literal *)
Definition txHash_prefix (txHash : option string) : string :=
  match txHash with
  | Some h => Js.slice0 12 h
  | None => "undefined"
  end.

(** The argument object of [createTempoPayment], with
    [recipientAccount = recipient.bankAccount || recipient.mobileWallet!]. *)
Definition tempoPaymentParams (transferId : string) (request : TransferRequest.t)
    (tempoQuote : TempoQuote.t) : TempoPaymentParams.t :=
  let recipientAccount :=
    match Recipient.bankAccount (TransferRequest.recipient request) with
    | Some account => Some (inl account)
    | None => inr <$> Recipient.mobileWallet (TransferRequest.recipient request)
    end in
  TempoPaymentParams.mk transferId
    (TempoQuote.quoteId tempoQuote)
    recipientAccount
    (Recipient.name (TransferRequest.recipient request))
    (Js.string_or (TransferRequest.reference request)
       ("Remittance from " ++ Sender.name (TransferRequest.sender request)))
    (Runtime.APP_URL rt ++ "/api/webhooks/tempo?transferId=" ++ transferId).

Definition handleBridgeWebhook (transferId : string) (bridgeEvent : BridgeEvent.t)
    : M World.t unit :=
  fun w =>
    match World.transfers w !! transferId with
    | None => not_found transferId w
    | Some transfer =>
        with_object transfer (
          (if String.eqb (BridgeEvent.state bridgeEvent) "payment_processed" then
             (let* x := this in
              match Legs.leg2 (Transfer.legs x) with
              | Some _ =>
                  mutate_leg2 (LegStatus.set_status leg_completed) ;;
                  let* d := lift newDate in
                  mutate_leg2 (LegStatus.set_completedAt d) ;;
                  mutate_leg2 (LegStatus.set_txHash (BridgeEvent.txHash bridgeEvent))
              | None => ret tt
              end) ;;
             let* x := this in
             let route := TransferQuote.route (Transfer.quote x) in
             let request := Transfer.request x in
             addEvent converting
               ("✓ Bridge converted to " ++ BridgeEvent.amount bridgeEvent
                ++ " USDC on "
                ++ network_name (Leg2Route.network (TransferRoute.leg2 route))
                ++ ". Tx: " ++ txHash_prefix (BridgeEvent.txHash bridgeEvent)
                ++ "...")
               (Some [("txHash", BridgeEvent.txHash bridgeEvent)]) ;;
             (* Now trigger Tempo final settlement (leg 3) *)
             try_catch (
               addEvent settling
                 ("Tempo initiating "
                  ++ currency_name (TransferRoute.destinationCurrency route)
                  ++ " bank settlement for recipient...") None ;;
               let* tempoQuote :=
                 lift (call CallGetTempoQuote (fun n =>
                   Adapters.getTempoQuote ad n
                     (Runtime.parseFloat rt (BridgeEvent.amount bridgeEvent))
                     (TransferRoute.destinationCurrency route)
                     (TransferRoute.destinationCountry route))) in
               let* tempoPayment :=
                 lift (call CallCreateTempoPayment (fun n =>
                   Adapters.createTempoPayment ad n
                     (tempoPaymentParams transferId request tempoQuote))) in
               let* x' := this in
               match Legs.leg3 (Transfer.legs x') with
               | Some _ =>
                   mutate_leg3 (LegStatus.set_externalId (TempoPayment.id tempoPayment)) ;;
                   mutate_leg3 (LegStatus.set_status leg_processing) ;;
                   let* d := lift newDate in
                   mutate_leg3 (LegStatus.set_startedAt d)
               | None => ret tt
               end)
             (fun error =>
               addEvent failed
                 ("Tempo settlement failed: " ++ error_message "Unknown" error) None)
           else ret tt) ;;
          transfers_set transferId) w
    end.

Definition handleTempoWebhook (transferId : string) (tempoEvent : TempoEvent.t)
    : M World.t unit :=
  fun w =>
    match World.transfers w !! transferId with
    | None => not_found transferId w
    | Some transfer =>
        with_object transfer (
          (if String.eqb (TempoEvent.status tempoEvent) "settled"
              || String.eqb (TempoEvent.status tempoEvent) "completed" then
             (let* x := this in
              match Legs.leg3 (Transfer.legs x) with
              | Some _ =>
                  mutate_leg3 (LegStatus.set_status leg_completed) ;;
                  let* d := lift newDate in
                  mutate_leg3 (LegStatus.set_completedAt d)
              | None => ret tt
              end) ;;
             let* d := lift newDate in
             mutate (Transfer.set_completedAt d) ;;
             let* x := this in
             addEvent completed
               ("✓ Transfer complete! "
                ++ Runtime.numberToString rt
                     (TransferQuote.receiveAmount (Transfer.quote x)) ++ " "
                ++ currency_name
                     (TransferRoute.destinationCurrency
                        (TransferQuote.route (Transfer.quote x)))
                ++ " delivered to "
                ++ Recipient.name (TransferRequest.recipient (Transfer.request x))
                ++ ".")
               None
           else if String.eqb (TempoEvent.status tempoEvent) "failed"
                   || String.eqb (TempoEvent.status tempoEvent) "rejected" then
             mutate_leg3 (LegStatus.set_status leg_failed) ;;
             addEvent failed
               "Tempo bank settlement failed. Support team has been notified." None
           else ret tt) ;;
          transfers_set transferId) w
    end.

Definition getTransfer (transferId : string) (w : World.t) : option Transfer.t :=
  World.transfers w !! transferId.

End Orchestrator.

(** ** Operations and reachable states *)

Inductive Op :=
  | OpGetTransferQuote (request : QuoteRequest.t)
  | OpCreateTransfer (request : TransferRequest.t) (quote : TransferQuote.t)
  | OpPaytechWebhook (transferId : string) (event : PaytechEvent.t)
  | OpBridgeWebhook (transferId : string) (event : BridgeEvent.t)
  | OpTempoWebhook (transferId : string) (event : TempoEvent.t).

(** The module state an operation leaves, whether it returned or threw. *)
Definition exec (rt : Runtime.t) (ad : Adapters.t) (o : Op) (w : World.t) : World.t :=
  match o with
  | OpGetTransferQuote request => snd (getTransferQuote rt ad request w)
  | OpCreateTransfer request quote => snd (createTransfer rt ad request quote w)
  | OpPaytechWebhook transferId event => snd (handlePaytechWebhook rt transferId event w)
  | OpBridgeWebhook transferId event => snd (handleBridgeWebhook rt ad transferId event w)
  | OpTempoWebhook transferId event => snd (handleTempoWebhook rt transferId event w)
  end.

Definition is_webhook (o : Op) : bool :=
  match o with
  | OpPaytechWebhook _ _ | OpBridgeWebhook _ _ | OpTempoWebhook _ _ => true
  | _ => false
  end.

Definition exec_all (rt : Runtime.t) (ad : Adapters.t) (ops : list Op) (w : World.t)
    : World.t :=
  fold_left (fun w o => exec rt ad o w) ops w.

(** The states the module can be in: it starts with an empty map and is only
    changed by its exported operations. *)
Inductive reachable (rt : Runtime.t) (ad : Adapters.t) : World.t -> Prop :=
  | reachable_init : reachable rt ad World.init
  | reachable_step w o : reachable rt ad w -> reachable rt ad (exec rt ad o w).

(** ** Status vocabulary *)


(** Position of a leg status on [pending -> processing -> {completed|failed}]. *)
Definition leg_rank (s : LegState) : nat :=
  match s with
  | leg_pending => 0
  | leg_processing => 1
  | leg_completed | leg_failed => 2
  end.

Definition leg_state_eqb (a b : LegState) : bool :=
  match a, b with
  | leg_pending, leg_pending | leg_processing, leg_processing
  | leg_completed, leg_completed | leg_failed, leg_failed => true
  | _, _ => false
  end.

(** A leg status moves forward (or stays): its rank does not decrease and a
    finished leg keeps its outcome. *)
Definition leg_forward (old new : LegState) : bool :=
  (leg_rank old <=? leg_rank new)%nat
  && (if (leg_rank old =? 2)%nat then leg_state_eqb old new else true).

Definition legs_forward (old new : Legs.t) : bool :=
  let fwd (a b : option LegStatus.t) :=
    match a, b with
    | Some l, Some l' => leg_forward (LegStatus.status l) (LegStatus.status l')
    | Some _, None => false
    | None, _ => true
    end in
  fwd (Legs.leg1 old) (Legs.leg1 new)
  && fwd (Legs.leg2 old) (Legs.leg2 new)
  && fwd (Legs.leg3 old) (Legs.leg3 new).

(** What the handlers act on. *)
Definition paytech_acts (e : PaytechEvent.t) : bool :=
  String.eqb (PaytechEvent.status e) "settled"
  || String.eqb (PaytechEvent.status e) "failed".

Definition bridge_acts (e : BridgeEvent.t) : bool :=
  String.eqb (BridgeEvent.state e) "payment_processed".

Definition tempo_acts (e : TempoEvent.t) : bool :=
  String.eqb (TempoEvent.status e) "settled"
  || String.eqb (TempoEvent.status e) "completed"
  || String.eqb (TempoEvent.status e) "failed"
  || String.eqb (TempoEvent.status e) "rejected".

(** ** The quote formula in the words of the specification *)

Module Spec.
Definition afterLeg1 (send leg1_fee : float) : float := (send - leg1_fee)%float.
Definition stablecoinAmount (send leg1_fee leg2_rate leg2_fee : float) : float :=
  (afterLeg1 send leg1_fee * leg2_rate - leg2_fee)%float.
Definition receiveAmount
    (send leg1_fee leg2_rate leg2_fee leg3_rate leg3_fee : float) : float :=
  ((stablecoinAmount send leg1_fee leg2_rate leg2_fee - leg3_fee) * leg3_rate)%float.
Definition platformFee (send bps : float) : float := (send * bps / 10000)%float.
(** provider fees in the send currency (normalised by the leg-2 rate), with
    the platform fee on top *)
Definition totalFee (send bps leg1_fee leg2_rate leg2_fee leg3_fee : float) : float :=
  (leg1_fee + leg2_fee / leg2_rate + leg3_fee / leg2_rate
   + platformFee send bps)%float.
End Spec.

(** ** A concrete runtime and concrete providers *)

Module Demo.

(** *** [parseFloat(s)] *)

Definition of_bytes (l : list nat) : string :=
  foldr (fun n s => String (ascii_of_nat n) s) EmptyString l.

(** The characters [parseFloat] skips in front ([StrWhiteSpaceChar]): TAB,
    LF, VT, FF, CR, SP, U+00A0, U+1680, U+2000 to U+200A, U+2028, U+2029,
    U+202F, U+205F, U+3000 and U+FEFF. *)
Definition white_space : list string :=
  map of_bytes
    ([ [9]; [10]; [11]; [12]; [13]; [32]; [194; 160]; [225; 154; 128] ]
     ++ map (fun k => [226; 128; 128 + k]) (seq 0 11)
     ++ [ [226; 128; 168]; [226; 128; 169]; [226; 128; 175]; [226; 129; 159];
          [227; 128; 128]; [239; 187; 191] ])%list.

Fixpoint drop_prefix (p s : string) : option string :=
  match p, s with
  | EmptyString, _ => Some s
  | String a p', String b s' => if Ascii.eqb a b then drop_prefix p' s' else None
  | String _ _, EmptyString => None
  end.

Definition skip_one (s : string) : option string :=
  foldr (fun p r => match drop_prefix p s with Some s' => Some s' | None => r end)
    None white_space.

Fixpoint trim_start (fuel : nat) (s : string) : string :=
  match fuel with
  | 0 => s
  | S fuel' =>
      match skip_one s with
      | Some s' => trim_start fuel' s'
      | None => s
      end
  end.

(** The decimal digits [s] starts with: their value on top of [acc], their
    number on top of [count], and what follows them. *)
Fixpoint span_digits (s : string) (acc : Z) (count : nat) : Z * nat * string :=
  match s with
  | EmptyString => (acc, count, s)
  | String c rest =>
      let d := (Z.of_nat (nat_of_ascii c) - 48)%Z in
      if ((0 <=? d) && (d <=? 9))%Z then span_digits rest (10 * acc + d)%Z (S count)
      else (acc, count, s)
  end.

(** [ExponentPart]: [e] or [E], a sign if any, and at least one digit;
    0 when [s] does not start with one. *)
Definition exponent_part (s : string) : Z :=
  match s with
  | String c rest =>
      if Ascii.eqb c "e"%char || Ascii.eqb c "E"%char then
        match rest with
        | String sg rest' =>
            if Ascii.eqb sg "-"%char then
              match span_digits rest' 0 0 with
              | (_, 0, _) => 0%Z
              | (e, _, _) => (- e)%Z
              end
            else if Ascii.eqb sg "+"%char then (span_digits rest' 0 0).1.1
            else (span_digits rest 0 0).1.1
        | EmptyString => 0%Z
        end
      else 0%Z
  | EmptyString => 0%Z
  end.

(** The Number nearest to [n * 10 ^ e], with the sign [neg]. *)
Definition decimal (neg : bool) (n e : Z) : float :=
  let sign (x : float) := if neg then (- x)%float else x in
  match n with
  | Z.pos p =>
      let size := Z.of_nat (String.length (pretty n)) in
      if (309 <? e + size)%Z then sign infinity
      else if (e + size <? -324)%Z then sign 0%float
      else if (0 <=? e)%Z then sign (Js.nearest_quotient (p * Z.to_pos (10 ^ e)) 1)
      else sign (Js.nearest_quotient p (Z.to_pos (10 ^ (- e))))
  | _ => sign 0%float
  end.

(** [StrUnsignedDecimalLiteral]: the value of the longest prefix of [s] that
    is one, NaN when there is none. *)
Definition unsigned_literal (neg : bool) (s : string) : float :=
  match drop_prefix "Infinity" s with
  | Some _ => if neg then neg_infinity else infinity
  | None =>
      let '(int, int_digits, rest) := span_digits s 0 0 in
      match rest with
      | String c rest' =>
          if Ascii.eqb c "."%char then
            let '(all, all_digits, rest'') := span_digits rest' int int_digits in
            match all_digits with
            | 0 => nan
            | _ =>
                decimal neg all
                  (exponent_part rest'' - Z.of_nat (all_digits - int_digits))
            end
          else
            match int_digits with
            | 0 => nan
            | _ => decimal neg int (exponent_part rest)
            end
      | EmptyString =>
          match int_digits with
          | 0 => nan
          | _ => decimal neg int 0
          end
      end
  end.

Definition parseFloat (s : string) : float :=
  match trim_start (String.length s) s with
  | String c rest =>
      if Ascii.eqb c "-"%char then unsigned_literal true rest
      else if Ascii.eqb c "+"%char then unsigned_literal false rest
      else unsigned_literal false (String c rest)
  | EmptyString => nan
  end.

(** *** [String(x)] ([Number::toString], radix 10) *)

(** The Number nearest to [s * 10 ^ p]. *)
Definition scaled (s p : Z) : float := decimal false s p.

(** The least [n], from [n] on, with [num / den < 10 ^ n]. *)
Fixpoint magnitude (fuel : nat) (num den n : Z) : Z :=
  match fuel with
  | 0 => n
  | S fuel' =>
      if (if (0 <=? n)%Z then (num <? den * 10 ^ n)%Z
          else (num * 10 ^ (- n) <? den)%Z)
      then n
      else magnitude fuel' num den (n + 1)%Z
  end.

(** The digits [s] of [x = num / den] at precision [k], if [k] digits are
    enough to read [x] back: of the two [k]-digit decimals around [x] those
    that round to [x], the nearer one, the even one on a tie. *)
Definition digits_at (x : float) (num den n : Z) (k : nat) : option Z :=
  let p := (n - Z.of_nat k)%Z in
  let a := if (0 <=? p)%Z then num else (num * 10 ^ (- p))%Z in
  let b := if (0 <=? p)%Z then (den * 10 ^ p)%Z else den in
  let lo := (a / b)%Z in
  let hi := (lo + 1)%Z in
  let back (s : Z) := (0 <? s)%Z && (scaled s p =? x)%float in
  match back lo, back hi with
  | true, true =>
      let below := (a - lo * b)%Z in
      let above := (hi * b - a)%Z in
      if (below <? above)%Z then Some lo
      else if (above <? below)%Z then Some hi
      else if Z.even lo then Some lo else Some hi
  | true, false => Some lo
  | false, true => Some hi
  | false, false => None
  end.

(** The shortest digits that read back as [x], with their number. *)
Fixpoint shortest (fuel : nat) (x : float) (num den n : Z) (k : nat) : Z * nat :=
  match fuel with
  | 0 => (0%Z, k)
  | S fuel' =>
      match digits_at x num den n k with
      | Some s => (s, k)
      | None => shortest fuel' x num den n (S k)
      end
  end.

Definition zeros (n : nat) : string := String.concat "" (replicate n "0").

(** The text of a positive finite Number given as [num / den]. *)
Definition positive_text (x : float) (num den : Z) : string :=
  let n0 := magnitude 640 num den (-324)%Z in
  let '(s0, k) := shortest 17 x num den n0 1 in
  (* the digits may have been rounded up to a power of ten *)
  let '(s, n) :=
    if (s0 =? 10 ^ Z.of_nat k)%Z then ((10 ^ (Z.of_nat k - 1))%Z, (n0 + 1)%Z)
    else (s0, n0) in
  let text := pretty s in
  let kz := Z.of_nat k in
  if ((kz <=? n) && (n <=? 21))%Z then text ++ zeros (Z.to_nat (n - kz))
  else if ((0 <? n) && (n <=? 21))%Z then
    String.substring 0 (Z.to_nat n) text ++ "."
    ++ String.substring (Z.to_nat n) (k - Z.to_nat n) text
  else if ((-6 <? n) && (n <=? 0))%Z then "0." ++ zeros (Z.to_nat (- n)) ++ text
  else
    let e := (n - 1)%Z in
    (if Nat.eqb k 1 then text
     else String.substring 0 1 text ++ "." ++ String.substring 1 (k - 1) text)
    ++ "e" ++ (if (e <? 0)%Z then "-" else "+") ++ pretty (Z.abs e).

Definition numberToString (x : float) : string :=
  match Prim2SF x with
  | S754_finite s m e =>
      (if s then "-" else "")
      ++ (if (0 <=? e)%Z then positive_text (abs x) (Z.pos m * 2 ^ e) 1
          else positive_text (abs x) (Z.pos m) (2 ^ (- e)))
  | S754_zero _ => "0"
  | S754_infinity s => if s then "-Infinity" else "Infinity"
  | S754_nan => "NaN"
  end.

(** A clock that advances by one millisecond at every reading. *)
Definition ticking : Runtime.t :=
  Runtime.mk (fun n => "uuid-" ++ pretty n)
    (fun n => (1700000000000 + Z.of_nat n)%Z)
    numberToString parseFloat "http://localhost:3000" 50%float.

(** A clock that stands still. *)
Definition frozen : Runtime.t :=
  Runtime.mk (fun n => "uuid-" ++ pretty n) (fun _ => 1700000000000%Z)
    numberToString parseFloat "http://localhost:3000" 50%float.

(** The simulated quotes of src/process with providers that accept every
    initiation. *)
Definition providers : Adapters.t :=
  Adapters.mk
    (fun _ amount currency country =>
       Ok (Paytech.getPaytechQuote amount currency country))
    (fun _ amount currency stablecoin network =>
       Ok (Bridge.getBridgeQuote amount currency stablecoin network))
    (fun n amount currency country =>
       Ok (Tempo.getTempoQuote (1700000000000 + Z.of_nat n)%Z
             (1700000000000 + Z.of_nat n)%Z amount currency country))
    (fun _ _ chain => Ok (TempoDepositAddress.mk "0xfeed" chain "usdc" None))
    (fun _ p =>
       Ok (BridgeLiquidationAddress.mk "liq_1" "base" "usdc" "0xbeef"
             (LiquidationAddressParams.transferId p) "sepa" "php"
             (LiquidationAddressParams.tempoDepositAddress p)))
    (fun _ p =>
       Ok (PaytechTransferResponse.mk "pt_1" "submitted"
             (PaytechTransferParams.amount p) "USD" 0%float "soon" None))
    (fun _ p =>
       Ok (TempoPayment.mk "tp_1" "pending" 0%float "PHP"
             (TempoRecipient.mk (TempoPaymentParams.recipientName p) None None None)
             (TempoPaymentParams.reference p) "soon" 0%float)).

(** The same providers, except that Tempo rejects every payment. *)
Definition tempo_down : Adapters.t :=
  Adapters.mk
    (Adapters.getPaytechQuote providers) (Adapters.getBridgeQuote providers)
    (Adapters.getTempoQuote providers) (Adapters.getTempoDepositAddress providers)
    (Adapters.createBridgeLiquidationAddress providers)
    (Adapters.initiatePaytechTransfer providers)
    (fun _ _ => Throw (JsError "Tempo error: unavailable")).

(** Providers whose Bridge quote call rejects. *)
Definition bridge_quote_down : Adapters.t :=
  Adapters.mk
    (Adapters.getPaytechQuote providers)
    (fun _ _ _ _ _ => Throw (JsError "timeout of 30000ms exceeded"))
    (Adapters.getTempoQuote providers) (Adapters.getTempoDepositAddress providers)
    (Adapters.createBridgeLiquidationAddress providers)
    (Adapters.initiatePaytechTransfer providers)
    (Adapters.createTempoPayment providers).

Definition quoteRequest : QuoteRequest.t :=
  QuoteRequest.mk 1000%float USD PHP "US" "PH" None.

Definition request : TransferRequest.t :=
  TransferRequest.mk "uuid-1"
    (Sender.mk "Ana Cruz" "ana@example.com" None None None None)
    (Recipient.mk "Ben Cruz" None None None
       (Some (MobileWallet.mk "gcash" "639170000000" "PH")))
    family_support None.

(** The quote [getTransferQuote] returns for [quoteRequest]. *)
Definition quote : TransferQuote.t :=
  match fst (getTransferQuote ticking providers quoteRequest World.init) with
  | Ok q => q
  | Throw _ =>
      TransferQuote.mk "" (TransferRoute.mk "" USD PHP "US" "PH"
        (Leg1Route.mk paytech bank_transfer 0 0)
        (Leg2Route.mk bridge USDC base 0 0 0)
        (Leg3Route.mk tempo local_rails 0 0 0) 0 0 0) 0 0 0
        (Fees.mk 0 0 0 0 0) 0%Z 0%Z
  end.

End Demo.

(** ** Properties of operations and of stored transfers *)

Global Instance TransferStatus_eq_dec : EqDecision TransferStatus.
Proof. solve_decision. Defined.

Global Instance LegState_eq_dec : EqDecision LegState.
Proof. solve_decision. Defined.

(** The transfer a webhook delivery addresses. *)
Definition op_target (o : Op) : option string :=
  match o with
  | OpPaytechWebhook transferId _ | OpBridgeWebhook transferId _
  | OpTempoWebhook transferId _ => Some transferId
  | _ => None
  end.

(** Whether the handler acts on the delivered status token. *)
Definition op_acts (o : Op) : bool :=
  match o with
  | OpPaytechWebhook _ e => paytech_acts e
  | OpBridgeWebhook _ e => bridge_acts e
  | OpTempoWebhook _ e => tempo_acts e
  | _ => false
  end.

(** A leg-3 completion ('settled' or 'completed') delivered for [transferId]. *)
Definition completes (o : Op) (transferId : string) : bool :=
  match o with
  | OpTempoWebhook target e =>
      String.eqb target transferId
      && (String.eqb (TempoEvent.status e) "settled"
          || String.eqb (TempoEvent.status e) "completed")
  | _ => false
  end.

(** The timeline invariant as the specification words it: the timeline is
    not empty, [status] is the status of its last event and [updatedAt] is
    that event's timestamp. *)
Definition timeline_agrees (x : Transfer.t) : bool :=
  match last (Transfer.timeline x) with
  | Some e =>
      bool_decide (Transfer.status x = TimelineEvent.status e)
      && bool_decide (Transfer.updatedAt x = TimelineEvent.timestamp e)
  | None => false
  end.

(** The timeline invariant the code keeps: [updatedAt] is the clock reading
    that follows the one stamped on the last event. *)
Definition timeline_consistent (rt : Runtime.t) (x : Transfer.t) : Prop :=
  exists e k,
    last (Transfer.timeline x) = Some e
    /\ Transfer.status x = TimelineEvent.status e
    /\ TimelineEvent.timestamp e = Runtime.clock rt k
    /\ Transfer.updatedAt x = Runtime.clock rt (S k).

(** Every leg record is backed by a resolved initiation call (the wording of
    the specification). *)
Definition initiated (w : World.t) (x : Transfer.t) : bool :=
  let backed (l : option LegStatus.t) (c : Call) :=
    match l with
    | Some _ => bool_decide ((c, true) ∈ World.calls w)
    | None => true
    end in
  backed (Legs.leg1 (Transfer.legs x)) CallInitiatePaytechTransfer
  && backed (Legs.leg2 (Transfer.legs x)) CallCreateBridgeLiquidationAddress
  && backed (Legs.leg3 (Transfer.legs x)) CallCreateTempoPayment.

(** Every leg id is backed by the log: legs 1 and 2 carry an id the adapter
    answers at a position where an initiation call of their kind resolved;
    leg 3 carries the placeholder written by [createTransfer] or such an id
    of [createTempoPayment].  (Which call it was, and with what arguments,
    is what [externalId_written] below says.) *)
Definition externalId_backed (ad : Adapters.t) (w : World.t) (x : Transfer.t)
    : Prop :=
  (forall l, Legs.leg1 (Transfer.legs x) = Some l ->
     exists n p r,
       World.calls w !! n = Some (CallInitiatePaytechTransfer, true)
       /\ Adapters.initiatePaytechTransfer ad n p = Ok r
       /\ LegStatus.externalId l = PaytechTransferResponse.transferId r)
  /\ (forall l, Legs.leg2 (Transfer.legs x) = Some l ->
     exists n p r,
       World.calls w !! n = Some (CallCreateBridgeLiquidationAddress, true)
       /\ Adapters.createBridgeLiquidationAddress ad n p = Ok r
       /\ LegStatus.externalId l = BridgeLiquidationAddress.id r)
  /\ (forall l, Legs.leg3 (Transfer.legs x) = Some l ->
     LegStatus.externalId l = "tempo_pending_" ++ Transfer.id x
     \/ exists n p r,
       World.calls w !! n = Some (CallCreateTempoPayment, true)
       /\ Adapters.createTempoPayment ad n p = Ok r
       /\ LegStatus.externalId l = TempoPayment.id r).

(** [completedAt] is only present on a transfer whose timeline records the
    entry into [completed]. *)
Definition completion_recorded (x : Transfer.t) : Prop :=
  Transfer.completedAt x <> None ->
  exists e, e ∈ Transfer.timeline x /\ TimelineEvent.status e = completed.

(** What a webhook delivery [o] does to [completedAt] of the transfer stored
    under [transferId]: a leg-3 completion stamps it with the clock reading
    taken just before the [completed] event is appended; anything else
    leaves it alone. *)
Definition completedAt_step (rt : Runtime.t) (o : Op) (transferId : string)
    (w : World.t) (x x' : Transfer.t) : Prop :=
  if completes o transferId then
    Transfer.status x' = completed
    /\ exists e k,
         last (Transfer.timeline x') = Some e
         /\ TimelineEvent.status e = completed
         /\ TimelineEvent.timestamp e = Runtime.clock rt (S k)
         /\ World.clockReads w <= k
         /\ Transfer.completedAt x' = Some (Runtime.clock rt k)
  else Transfer.completedAt x' = Transfer.completedAt x.

(** A leg that is pending or processing does not move backwards, and no leg
    returns to pending. *)
Definition leg_advances (old new : LegState) : bool :=
  (if (leg_rank old <? 2)%nat then (leg_rank old <=? leg_rank new)%nat else true)
  && (negb (leg_state_eqb new leg_pending) || leg_state_eqb old leg_pending).

Definition legs_advance (old new : Legs.t) : bool :=
  let adv (a b : option LegStatus.t) :=
    match a, b with
    | Some l, Some l' => leg_advances (LegStatus.status l) (LegStatus.status l')
    | None, None => true
    | _, _ => false
    end in
  adv (Legs.leg1 old) (Legs.leg1 new)
  && adv (Legs.leg2 old) (Legs.leg2 new)
  && adv (Legs.leg3 old) (Legs.leg3 new).

(** What a webhook delivery does to the transfer it addresses. *)
Definition webhook_step (rt : Runtime.t) (o : Op) (w : World.t)
    (x x' : Transfer.t) : Prop :=
  Transfer.id x' = Transfer.id x
  /\ legs_advance (Transfer.legs x) (Transfer.legs x') = true
  /\ Transfer.timeline x `prefix_of` Transfer.timeline x'
  /\ (if op_acts o then
        length (Transfer.timeline x) < length (Transfer.timeline x')
        /\ timeline_consistent rt x'
      else x' = x)
  /\ (match op_target o with
      | Some target =>
          if completes o target then
            Transfer.status x' = completed
            /\ exists e k,
                 last (Transfer.timeline x') = Some e
                 /\ TimelineEvent.status e = completed
                 /\ TimelineEvent.timestamp e = Runtime.clock rt (S k)
                 /\ World.clockReads w <= k
                 /\ Transfer.completedAt x' = Some (Runtime.clock rt k)
          else Transfer.completedAt x' = Transfer.completedAt x
      | None => True
      end).

(** Each leg record of [new] was already in [old], with the same
    [externalId]. *)
Definition keeps_externalId (old new : option LegStatus.t) : Prop :=
  match new with
  | Some l' =>
      exists l, old = Some l /\ LegStatus.externalId l' = LegStatus.externalId l
  | None => True
  end.

(** The three leg-quote calls [getTransferQuote] makes in state [w]. *)
Definition paytechQuoteCall (ad : Adapters.t) (request : QuoteRequest.t) (w : World.t)
    : Result PaytechFeeQuote.t :=
  Adapters.getPaytechQuote ad (length (World.calls w))
    (QuoteRequest.sendAmount request) (QuoteRequest.sendCurrency request)
    (QuoteRequest.sendCountry request).

Definition bridgeQuoteCall (ad : Adapters.t) (request : QuoteRequest.t) (w : World.t)
    : Result BridgeFxQuote.t :=
  Adapters.getBridgeQuote ad (S (length (World.calls w)))
    (QuoteRequest.sendAmount request) (QuoteRequest.sendCurrency request)
    (selectStablecoin (QuoteRequest.sendCurrency request))
    (selectNetwork (QuoteRequest.sendCurrency request)
       (QuoteRequest.receiveCurrency request)).

Definition tempoQuoteCall (ad : Adapters.t) (request : QuoteRequest.t) (w : World.t)
    : Result TempoQuote.t :=
  Adapters.getTempoQuote ad (S (S (length (World.calls w))))
    (QuoteRequest.sendAmount request * 1.0)%float
    (QuoteRequest.receiveCurrency request) (QuoteRequest.receiveCountry request).

(** The quote [q] carries the chained amounts of section 4.1: the formula is
    evaluated on unrounded intermediates and only the reported fields are
    rounded (2 decimals for amounts, 6 for rates). *)
Definition quote_follows_formula (rt : Runtime.t) (request : QuoteRequest.t)
    (pq : PaytechFeeQuote.t) (bq : BridgeFxQuote.t) (tq : TempoQuote.t)
    (q : TransferQuote.t) : Prop :=
  let send := QuoteRequest.sendAmount request in
  let bps := Runtime.PLATFORM_FEE_BPS rt in
  let received :=
    Spec.receiveAmount send (PaytechFeeQuote.fee pq)
      (BridgeFxQuote.exchangeRate bq) (BridgeFxQuote.fee bq)
      (TempoQuote.exchangeRate tq) (TempoQuote.fee tq) in
  let total :=
    Spec.totalFee send bps (PaytechFeeQuote.fee pq)
      (BridgeFxQuote.exchangeRate bq) (BridgeFxQuote.fee bq) (TempoQuote.fee tq) in
  TransferQuote.sendAmount q = send
  /\ TransferQuote.receiveAmount q = Js.parseFloat_toFixed 2 received
  /\ TransferQuote.exchangeRate q = Js.parseFloat_toFixed 6 (received / send)%float
  /\ TransferRoute.effectiveRate (TransferQuote.route q)
     = Js.parseFloat_toFixed 6 (received / send)%float
  /\ Fees.paytech (TransferQuote.fees q) = PaytechFeeQuote.fee pq
  /\ Fees.bridge (TransferQuote.fees q)
     = Js.parseFloat_toFixed 2
         (BridgeFxQuote.fee bq / BridgeFxQuote.exchangeRate bq)%float
  /\ Fees.tempo (TransferQuote.fees q)
     = Js.parseFloat_toFixed 2
         (TempoQuote.fee tq / BridgeFxQuote.exchangeRate bq)%float
  /\ Fees.platform (TransferQuote.fees q) = Spec.platformFee send bps
  /\ Fees.total (TransferQuote.fees q) = Js.parseFloat_toFixed 2 total
  /\ TransferRoute.totalFee (TransferQuote.route q) = Js.parseFloat_toFixed 2 total.

(** The two Tempo calls the leg-2 handler makes for transfer [x] in state [w]:
    the quote, then the payment that initiates leg 3. *)
Definition leg3QuoteCall (rt : Runtime.t) (ad : Adapters.t) (ev : BridgeEvent.t)
    (w : World.t) (x : Transfer.t) : Result TempoQuote.t :=
  Adapters.getTempoQuote ad (length (World.calls w))
    (Runtime.parseFloat rt (BridgeEvent.amount ev))
    (TransferRoute.destinationCurrency (TransferQuote.route (Transfer.quote x)))
    (TransferRoute.destinationCountry (TransferQuote.route (Transfer.quote x))).

Definition leg3PaymentCall (rt : Runtime.t) (ad : Adapters.t) (transferId : string)
    (w : World.t) (x : Transfer.t) (q : TempoQuote.t) : Result TempoPayment.t :=
  Adapters.createTempoPayment ad (S (length (World.calls w)))
    (tempoPaymentParams rt transferId (Transfer.request x) q).

(** Whether leg-3 initiation goes through, or throws at one of the calls. *)
Definition leg3_initiation_ok (rt : Runtime.t) (ad : Adapters.t) (transferId : string)
    (ev : BridgeEvent.t) (w : World.t) (x : Transfer.t) : bool :=
  match leg3QuoteCall rt ad ev w x with
  | Ok q => is_ok (leg3PaymentCall rt ad transferId w x q)
  | Throw _ => false
  end.

(** What the leg-2 handler leaves when leg-3 initiation throws. *)
Definition leg3_failure_outcome (rt : Runtime.t) (w : World.t) (ev : BridgeEvent.t)
    (x x' : Transfer.t) : Prop :=
  Transfer.status x' = failed
  /\ (exists e, last (Transfer.timeline x') = Some e
                /\ TimelineEvent.status e = failed)
  /\ Legs.leg3 (Transfer.legs x') = Legs.leg3 (Transfer.legs x)
  /\ Legs.leg1 (Transfer.legs x') = Legs.leg1 (Transfer.legs x)
  /\ Legs.leg2 (Transfer.legs x')
     = (fun l =>
          LegStatus.mk (LegStatus.provider l) (LegStatus.externalId l) leg_completed
            (LegStatus.startedAt l) (Some (Runtime.clock rt (World.clockReads w)))
            (BridgeEvent.txHash ev) (LegStatus.errorMessage l))
       <$> Legs.leg2 (Transfer.legs x).

(** What a leg-1 webhook leaves on a transfer without a leg-1 record. *)
Definition moved_without_leg1 (ev : PaytechEvent.t) (x x' : Transfer.t) : Prop :=
  let target :=
    if String.eqb (PaytechEvent.status ev) "settled" then bridging else failed in
  Transfer.status x' = target
  /\ Transfer.legs x' = Transfer.legs x
  /\ exists e,
       Transfer.timeline x' = (Transfer.timeline x ++ [e])%list
       /\ TimelineEvent.status e = target.

(** ** Concrete runs *)

Module Run.

Definition transferId : string := "uuid-0".

(** The transfer stored under [transferId]. *)
Definition stored (w : World.t) : Transfer.t :=
  default
    (Transfer.mk "" pending Demo.quote Demo.request (Legs.mk None None None) []
       0%Z 0%Z None)
    (World.transfers w !! transferId).

(** [createTransfer] with every provider accepting. *)
Definition created : World.t :=
  exec Demo.ticking Demo.providers (OpCreateTransfer Demo.request Demo.quote)
    World.init.

Definition processed : BridgeEvent.t :=
  BridgeEvent.mk "payment_processed" "liq_1" (Some "0xabcdef0123456789") "986".

(** ... then leg 1 settles. *)
Definition collected : World.t :=
  exec Demo.ticking Demo.providers
    (OpPaytechWebhook transferId (PaytechEvent.mk "settled" "pt_1")) created.

(** ... then leg 2 is processed and leg 3 completes. *)
Definition delivered : World.t :=
  exec_all Demo.ticking Demo.providers
    [ OpBridgeWebhook transferId processed;
      OpTempoWebhook transferId (TempoEvent.mk "completed" "tp_1") ]
    collected.

(** Providers whose Bridge liquidation-address call rejects. *)
Definition bridge_down : Adapters.t :=
  Adapters.mk
    (Adapters.getPaytechQuote Demo.providers)
    (Adapters.getBridgeQuote Demo.providers)
    (Adapters.getTempoQuote Demo.providers)
    (Adapters.getTempoDepositAddress Demo.providers)
    (fun _ _ => Throw (JsError "Bridge error creating liquidation address: {}"))
    (Adapters.initiatePaytechTransfer Demo.providers)
    (Adapters.createTempoPayment Demo.providers).

(** [createTransfer] failing at the Bridge step: a stored, failed transfer
    without any leg record. *)
Definition rejected : World.t :=
  exec Demo.ticking bridge_down (OpCreateTransfer Demo.request Demo.quote)
    World.init.

Definition settled : PaytechEvent.t := PaytechEvent.mk "settled" "pt_1".
Definition completion : TempoEvent.t := TempoEvent.mk "completed" "tp_1".


(** A leg-1 'failed' webhook after leg 1 has settled. *)
Definition refailed : World.t :=
  exec Demo.ticking Demo.providers
    (OpPaytechWebhook transferId (PaytechEvent.mk "failed" "pt_1")) collected.

(** The leg-3 completion webhook delivered a second time. *)
Definition redelivered : World.t :=
  exec Demo.ticking Demo.providers (OpTempoWebhook transferId completion) delivered.

End Run.

(** ** Creating a transfer: the calls it makes *)

(** The id [createTransfer] draws in state [w]. *)
Definition drawn_id (rt : Runtime.t) (w : World.t) : string :=
  Runtime.uuidv4 rt (World.uuidsDrawn w).

(** The three provider calls of [createTransfer], each made only when the
    one before resolved. *)
Definition depositAddressCall (rt : Runtime.t) (ad : Adapters.t)
    (quote : TransferQuote.t) (w : World.t) : Result TempoDepositAddress.t :=
  Adapters.getTempoDepositAddress ad (length (World.calls w)) (drawn_id rt w)
    (network_name (Leg2Route.network (TransferRoute.leg2 (TransferQuote.route quote)))).

Definition liquidationAddressCall (rt : Runtime.t) (ad : Adapters.t)
    (quote : TransferQuote.t) (w : World.t) (tempoAddress : TempoDepositAddress.t)
    : Result BridgeLiquidationAddress.t :=
  Adapters.createBridgeLiquidationAddress ad (S (length (World.calls w)))
    (liquidationAddressParams rt (drawn_id rt w) (TransferQuote.route quote)
       tempoAddress).

Definition collectionCall (rt : Runtime.t) (ad : Adapters.t)
    (request : TransferRequest.t) (quote : TransferQuote.t) (w : World.t)
    (bridgeLiqAddress : BridgeLiquidationAddress.t)
    : Result PaytechTransferResponse.t :=
  Adapters.initiatePaytechTransfer ad (S (S (length (World.calls w))))
    (paytechTransferParams rt (drawn_id rt w) request quote bridgeLiqAddress).

(** What the providers answer to a [createTransfer]: the Bridge address and
    the Pay.tech transfer, or the first rejection. *)
Definition initiation (rt : Runtime.t) (ad : Adapters.t) (request : TransferRequest.t)
    (quote : TransferQuote.t) (w : World.t)
    : Result (BridgeLiquidationAddress.t * PaytechTransferResponse.t) :=
  match depositAddressCall rt ad quote w with
  | Throw e => Throw e
  | Ok a =>
      match liquidationAddressCall rt ad quote w a with
      | Throw e => Throw e
      | Ok b =>
          match collectionCall rt ad request quote w b with
          | Throw e => Throw e
          | Ok p => Ok (b, p)
          end
      end
  end.

(** The calls a [createTransfer] records. *)
Definition initiation_calls (rt : Runtime.t) (ad : Adapters.t)
    (request : TransferRequest.t) (quote : TransferQuote.t) (w : World.t)
    : list (Call * bool) :=
  match depositAddressCall rt ad quote w with
  | Throw _ => [(CallGetTempoDepositAddress, false)]
  | Ok a =>
      (CallGetTempoDepositAddress, true) ::
      match liquidationAddressCall rt ad quote w a with
      | Throw _ => [(CallCreateBridgeLiquidationAddress, false)]
      | Ok b =>
          [(CallCreateBridgeLiquidationAddress, true);
           (CallInitiatePaytechTransfer,
            is_ok (collectionCall rt ad request quote w b))]
      end
  end.

(** The transfer a successful [createTransfer] returns. *)
Definition created_shape (rt : Runtime.t) (request : TransferRequest.t)
    (quote : TransferQuote.t) (w : World.t) (b : BridgeLiquidationAddress.t)
    (p : PaytechTransferResponse.t) (t : Transfer.t) : Prop :=
  Transfer.id t = drawn_id rt w
  /\ Transfer.status t = processing
  /\ Transfer.quote t = quote
  /\ Transfer.request t = request
  /\ Transfer.createdAt t = Runtime.clock rt (World.clockReads w)
  /\ Transfer.completedAt t = None
  /\ map TimelineEvent.status (Transfer.timeline t)
     = [processing; processing; processing; processing; processing]
  /\ Legs.leg1 (Transfer.legs t)
     = Some (LegStatus.mk paytech (PaytechTransferResponse.transferId p)
               leg_processing
               (Some (Runtime.clock rt (10 + World.clockReads w))) None None None)
  /\ Legs.leg2 (Transfer.legs t)
     = Some (LegStatus.mk bridge (BridgeLiquidationAddress.id b) leg_pending
               None None None None)
  /\ Legs.leg3 (Transfer.legs t)
     = Some (LegStatus.mk tempo ("tempo_pending_" ++ drawn_id rt w) leg_pending
               None None None None).

(** The transfer a failed [createTransfer] leaves in the store. *)
Definition failed_shape (rt : Runtime.t) (ad : Adapters.t)
    (request : TransferRequest.t) (quote : TransferQuote.t) (w : World.t)
    (e : Thrown) (x : Transfer.t) : Prop :=
  Transfer.id x = drawn_id rt w
  /\ Transfer.status x = failed
  /\ Transfer.quote x = quote
  /\ Transfer.request x = request
  /\ Transfer.completedAt x = None
  /\ head (map TimelineEvent.status (Transfer.timeline x)) = Some processing
  /\ (exists ev,
        last (Transfer.timeline x) = Some ev
        /\ TimelineEvent.status ev = failed
        /\ TimelineEvent.message ev
           = "Transfer failed: " ++ error_message "Unknown error" e)
  /\ Legs.leg1 (Transfer.legs x) = None
  /\ Legs.leg3 (Transfer.legs x) = None
  /\ Legs.leg2 (Transfer.legs x)
     = match depositAddressCall rt ad quote w with
       | Ok a =>
           match liquidationAddressCall rt ad quote w a with
           | Ok b =>
               Some (LegStatus.mk bridge (BridgeLiquidationAddress.id b)
                       leg_pending None None None None)
           | Throw _ => None
           end
       | Throw _ => None
       end.

(** ** Webhook deliveries: statuses and calls *)

(** The statuses a stored transfer can be found in after an operation. *)
Definition observable_status (s : TransferStatus) : bool :=
  match s with
  | processing | bridging | settling | completed | failed => true
  | pending | kyc_required | converting | cancelled => false
  end.

(** The statuses of the events a webhook delivery appends to the timeline
    of the transfer [x] it addresses, in order. *)
Definition appended_statuses (rt : Runtime.t) (ad : Adapters.t) (o : Op)
    (w : World.t) (x : Transfer.t) : list TransferStatus :=
  match o with
  | OpPaytechWebhook _ e =>
      if String.eqb (PaytechEvent.status e) "settled" then [bridging]
      else if String.eqb (PaytechEvent.status e) "failed" then [failed]
      else []
  | OpBridgeWebhook transferId e =>
      if bridge_acts e then
        converting :: settling ::
        (if leg3_initiation_ok rt ad transferId e w x then [] else [failed])
      else []
  | OpTempoWebhook _ e =>
      if String.eqb (TempoEvent.status e) "settled"
         || String.eqb (TempoEvent.status e) "completed" then [completed]
      else if String.eqb (TempoEvent.status e) "failed"
              || String.eqb (TempoEvent.status e) "rejected" then [failed]
      else []
  | _ => []
  end.

(** The provider calls a webhook delivery makes for the transfer [x] it
    addresses: none, except the Tempo quote and payment of the leg-2
    handler. *)
Definition webhook_calls (rt : Runtime.t) (ad : Adapters.t) (o : Op)
    (w : World.t) (x : Transfer.t) : list (Call * bool) :=
  match o with
  | OpBridgeWebhook transferId e =>
      if bridge_acts e then
        match leg3QuoteCall rt ad e w x with
        | Ok q =>
            [(CallGetTempoQuote, true);
             (CallCreateTempoPayment,
              is_ok (leg3PaymentCall rt ad transferId w x q))]
        | Throw _ => [(CallGetTempoQuote, false)]
        end
      else []
  | _ => []
  end.

(** What a webhook delivery keeps and what it appends. *)
Definition webhook_frame (rt : Runtime.t) (ad : Adapters.t) (o : Op)
    (w w' : World.t) (x x' : Transfer.t) : Prop :=
  Transfer.id x' = Transfer.id x
  /\ Transfer.quote x' = Transfer.quote x
  /\ Transfer.request x' = Transfer.request x
  /\ Transfer.createdAt x' = Transfer.createdAt x
  /\ (exists evs,
        Transfer.timeline x' = (Transfer.timeline x ++ evs)%list
        /\ map TimelineEvent.status evs = appended_statuses rt ad o w x)
  /\ Transfer.status x'
     = List.last (appended_statuses rt ad o w x) (Transfer.status x)
  /\ LegStatus.provider <$> Legs.leg1 (Transfer.legs x')
     = LegStatus.provider <$> Legs.leg1 (Transfer.legs x)
  /\ LegStatus.provider <$> Legs.leg2 (Transfer.legs x')
     = LegStatus.provider <$> Legs.leg2 (Transfer.legs x)
  /\ LegStatus.provider <$> Legs.leg3 (Transfer.legs x')
     = LegStatus.provider <$> Legs.leg3 (Transfer.legs x)
  /\ World.calls w' = (World.calls w ++ webhook_calls rt ad o w x)%list
  /\ World.clockReads w <= World.clockReads w'
  /\ World.uuidsDrawn w <= World.uuidsDrawn w'.

(** A stored transfer as the operations leave it: filed under its own id,
    in an observable status, its first event the [processing] one of
    [createTransfer], each leg record owned by its provider. *)
Definition well_formed (key : string) (x : Transfer.t) : Prop :=
  Transfer.id x = key
  /\ observable_status (Transfer.status x) = true
  /\ head (map TimelineEvent.status (Transfer.timeline x)) = Some processing
  /\ LegStatus.provider <$> Legs.leg1 (Transfer.legs x) ∈ [None; Some paytech]
  /\ LegStatus.provider <$> Legs.leg2 (Transfer.legs x) ∈ [None; Some bridge]
  /\ LegStatus.provider <$> Legs.leg3 (Transfer.legs x) ∈ [None; Some tempo].

(** The keys of the store after an operation. *)
Definition keys_after (rt : Runtime.t) (o : Op) (w : World.t) : gset string :=
  match o with
  | OpCreateTransfer _ _ => {[drawn_id rt w]} ∪ dom (World.transfers w)
  | _ => dom (World.transfers w)
  end.

(** Leg records after the status [s] is written, with the completion time. *)
Definition leg_finished (s : LegState) (at_ : Timestamp) (l : LegStatus.t) : LegStatus.t :=
  LegStatus.mk (LegStatus.provider l) (LegStatus.externalId l) s
    (LegStatus.startedAt l) (Some at_) (LegStatus.txHash l)
    (LegStatus.errorMessage l).

(** What a leg-1 webhook leaves of the legs of [x]. *)
Definition paytech_legs (rt : Runtime.t) (ev : PaytechEvent.t) (w : World.t)
    (x : Transfer.t) : Legs.t :=
  let g := Transfer.legs x in
  if String.eqb (PaytechEvent.status ev) "settled" then
    Legs.mk (leg_finished leg_completed (Runtime.clock rt (World.clockReads w))
               <$> Legs.leg1 g)
      (Legs.leg2 g) (Legs.leg3 g)
  else if String.eqb (PaytechEvent.status ev) "failed" then
    Legs.mk (LegStatus.set_status leg_failed <$> Legs.leg1 g)
      (Legs.leg2 g) (Legs.leg3 g)
  else g.

(** What a leg-3 webhook leaves of the legs of [x]. *)
Definition tempo_legs (rt : Runtime.t) (ev : TempoEvent.t) (w : World.t)
    (x : Transfer.t) : Legs.t :=
  let g := Transfer.legs x in
  if String.eqb (TempoEvent.status ev) "settled"
     || String.eqb (TempoEvent.status ev) "completed" then
    Legs.mk (Legs.leg1 g) (Legs.leg2 g)
      (leg_finished leg_completed (Runtime.clock rt (World.clockReads w))
         <$> Legs.leg3 g)
  else if String.eqb (TempoEvent.status ev) "failed"
          || String.eqb (TempoEvent.status ev) "rejected" then
    Legs.mk (Legs.leg1 g) (Legs.leg2 g)
      (LegStatus.set_status leg_failed <$> Legs.leg3 g)
  else g.

(** What a leg-2 'payment_processed' webhook leaves when leg-3 initiation
    goes through with payment [r]: the status, the events and the legs. *)
Definition leg3_started (rt : Runtime.t) (ev : BridgeEvent.t) (w : World.t)
    (r : TempoPayment.t) (x x' : Transfer.t) : Prop :=
  Transfer.status x' = settling
  /\ Legs.leg1 (Transfer.legs x') = Legs.leg1 (Transfer.legs x)
  /\ Legs.leg2 (Transfer.legs x')
     = (fun l =>
          LegStatus.mk (LegStatus.provider l) (LegStatus.externalId l) leg_completed
            (LegStatus.startedAt l) (Some (Runtime.clock rt (World.clockReads w)))
            (BridgeEvent.txHash ev) (LegStatus.errorMessage l))
       <$> Legs.leg2 (Transfer.legs x)
  /\ (exists started,
        Legs.leg3 (Transfer.legs x')
        = (fun l =>
             LegStatus.mk (LegStatus.provider l) (TempoPayment.id r) leg_processing
               (Some started) (LegStatus.completedAt l) (LegStatus.txHash l)
               (LegStatus.errorMessage l))
          <$> Legs.leg3 (Transfer.legs x)).

(** The entry an operation may write: the drawn id for [createTransfer], the
    addressed id for a webhook. *)
Definition written_key (rt : Runtime.t) (o : Op) (w : World.t) : option string :=
  match o with
  | OpCreateTransfer _ _ => Some (drawn_id rt w)
  | OpGetTransferQuote _ => None
  | _ => op_target o
  end.

(** The happy path: commit, leg 1 settles, leg 2 is processed, leg 3
    completes, all for the transfer about to be created in [w]. *)
Definition happy_path (rt : Runtime.t) (w : World.t) (request : TransferRequest.t)
    (quote : TransferQuote.t) (pev : PaytechEvent.t) (bev : BridgeEvent.t)
    (tev : TempoEvent.t) : list Op :=
  [ OpCreateTransfer request quote;
    OpPaytechWebhook (drawn_id rt w) pev;
    OpBridgeWebhook (drawn_id rt w) bev;
    OpTempoWebhook (drawn_id rt w) tev ].

(** The transfer at the end of the happy path. *)
Definition delivered_shape (request : TransferRequest.t) (quote : TransferQuote.t)
    (bev : BridgeEvent.t) (x : Transfer.t) : Prop :=
  Transfer.status x = completed
  /\ Transfer.quote x = quote
  /\ Transfer.request x = request
  /\ is_Some (Transfer.completedAt x)
  /\ map TimelineEvent.status (Transfer.timeline x)
     = [processing; processing; processing; processing; processing;
        bridging; converting; settling; completed]
  /\ LegStatus.status <$> Legs.leg1 (Transfer.legs x) = Some leg_completed
  /\ LegStatus.status <$> Legs.leg2 (Transfer.legs x) = Some leg_completed
  /\ LegStatus.status <$> Legs.leg3 (Transfer.legs x) = Some leg_completed
  /\ (Legs.leg2 (Transfer.legs x) ≫= LegStatus.txHash) = BridgeEvent.txHash bev.

(** The state after the commit and the leg-1 webhook of the happy path, and
    whether leg-3 initiation goes through from there. *)
Definition after_collection (rt : Runtime.t) (ad : Adapters.t) (w : World.t)
    (request : TransferRequest.t) (quote : TransferQuote.t) (pev : PaytechEvent.t)
    : World.t :=
  exec rt ad (OpPaytechWebhook (drawn_id rt w) pev)
    (exec rt ad (OpCreateTransfer request quote) w).

Definition leg3_goes_through (rt : Runtime.t) (ad : Adapters.t) (w : World.t)
    (request : TransferRequest.t) (quote : TransferQuote.t) (pev : PaytechEvent.t)
    (bev : BridgeEvent.t) : bool :=
  from_option
    (leg3_initiation_ok rt ad (drawn_id rt w) bev
       (after_collection rt ad w request quote pev))
    false
    (getTransfer (drawn_id rt w) (after_collection rt ad w request quote pev)).

(** ** What a webhook writes on the legs *)

(** Leg-3 initiation in the leg-2 handler: the payment Tempo created, or
    the error of the quote call or of the payment call. *)
Definition leg3_initiation (rt : Runtime.t) (ad : Adapters.t) (transferId : string)
    (ev : BridgeEvent.t) (w : World.t) (x : Transfer.t) : Result TempoPayment.t :=
  match leg3QuoteCall rt ad ev w x with
  | Ok q => leg3PaymentCall rt ad transferId w x q
  | Throw e => Throw e
  end.

(** The status a delivery [o] writes on leg 1, on leg 2 and on leg 3 of the
    transfer [x] it addresses; [None] where it writes none. *)
Definition leg1_written (o : Op) : option LegState :=
  match o with
  | OpPaytechWebhook _ e =>
      if String.eqb (PaytechEvent.status e) "settled" then Some leg_completed
      else if String.eqb (PaytechEvent.status e) "failed" then Some leg_failed
      else None
  | _ => None
  end.

Definition leg2_written (o : Op) : option LegState :=
  match o with
  | OpBridgeWebhook _ e =>
      if String.eqb (BridgeEvent.state e) "payment_processed"
      then Some leg_completed else None
  | _ => None
  end.

Definition leg3_written (rt : Runtime.t) (ad : Adapters.t) (o : Op) (w : World.t)
    (x : Transfer.t) : option LegState :=
  match o with
  | OpBridgeWebhook transferId e =>
      if String.eqb (BridgeEvent.state e) "payment_processed" then
        match leg3_initiation rt ad transferId e w x with
        | Ok _ => Some leg_processing
        | Throw _ => None
        end
      else None
  | OpTempoWebhook _ e =>
      if String.eqb (TempoEvent.status e) "settled"
         || String.eqb (TempoEvent.status e) "completed" then Some leg_completed
      else if String.eqb (TempoEvent.status e) "failed"
              || String.eqb (TempoEvent.status e) "rejected" then Some leg_failed
      else None
  | _ => None
  end.

(** The [externalId] a delivery writes on leg 3: the id of the payment its
    own [createTempoPayment] call returned; no delivery writes the id of
    leg 1 or leg 2. *)
Definition leg3_id_written (rt : Runtime.t) (ad : Adapters.t) (o : Op)
    (w : World.t) (x : Transfer.t) : option string :=
  match o with
  | OpBridgeWebhook transferId e =>
      if String.eqb (BridgeEvent.state e) "payment_processed" then
        match leg3_initiation rt ad transferId e w x with
        | Ok r => Some (TempoPayment.id r)
        | Throw _ => None
        end
      else None
  | _ => None
  end.

(** A leg record after [s] is written as its status: there exactly if it was
    there, with status [s], or with its own status when nothing is
    written. *)
Definition status_written (s : option LegState) (old new : option LegStatus.t)
    : Prop :=
  LegStatus.status <$> new = (fun l => default (LegStatus.status l) s) <$> old.

(** The same for the [externalId]. *)
Definition id_written (e : option string) (old new : option LegStatus.t) : Prop :=
  LegStatus.externalId <$> new
  = (fun l => default (LegStatus.externalId l) e) <$> old.

(** What a delivery [o] leaves of the leg statuses of a stored transfer:
    those of the table above on the transfer it addresses, the legs as they
    were on any other. *)
Definition legs_written (rt : Runtime.t) (ad : Adapters.t) (o : Op) (w : World.t)
    (id : string) (x x' : Transfer.t) : Prop :=
  if bool_decide (op_target o = Some id) then
    status_written (leg1_written o)
      (Legs.leg1 (Transfer.legs x)) (Legs.leg1 (Transfer.legs x'))
    /\ status_written (leg2_written o)
         (Legs.leg2 (Transfer.legs x)) (Legs.leg2 (Transfer.legs x'))
    /\ status_written (leg3_written rt ad o w x)
         (Legs.leg3 (Transfer.legs x)) (Legs.leg3 (Transfer.legs x'))
  else Transfer.legs x' = Transfer.legs x.

(** The moves of a leg's status that a delivery can make: the status stays,
    or it becomes [completed] or [failed] on legs 1 and 3, [completed] on
    leg 2, [processing] on leg 3; whatever it was before. *)
Definition leg_moves (p : Provider) (old new : LegState) : bool :=
  leg_state_eqb old new
  || match p with
     | paytech => leg_state_eqb new leg_completed || leg_state_eqb new leg_failed
     | bridge => leg_state_eqb new leg_completed
     | tempo =>
         leg_state_eqb new leg_processing
         || leg_state_eqb new leg_completed || leg_state_eqb new leg_failed
     end.

Definition legs_move (old new : Legs.t) : bool :=
  let move (p : Provider) (a b : option LegStatus.t) :=
    match a, b with
    | Some l, Some l' => leg_moves p (LegStatus.status l) (LegStatus.status l')
    | None, None => true
    | _, _ => false
    end in
  move paytech (Legs.leg1 old) (Legs.leg1 new)
  && move bridge (Legs.leg2 old) (Legs.leg2 new)
  && move tempo (Legs.leg3 old) (Legs.leg3 new).

(** What the leg-2 handler leaves of the legs: nothing changes unless the
    state is 'payment_processed'; then leg 2 is completed, stamped and
    given the delivered txHash, and leg 3 is started with the id of the
    payment if leg-3 initiation went through, and left alone if it threw. *)
Definition bridge_legs (rt : Runtime.t) (ad : Adapters.t) (transferId : string)
    (ev : BridgeEvent.t) (w : World.t) (x : Transfer.t) (g' : Legs.t) : Prop :=
  if String.eqb (BridgeEvent.state ev) "payment_processed" then
    Legs.leg1 g' = Legs.leg1 (Transfer.legs x)
    /\ Legs.leg2 g'
       = (fun l =>
            LegStatus.mk (LegStatus.provider l) (LegStatus.externalId l)
              leg_completed (LegStatus.startedAt l)
              (Some (Runtime.clock rt (World.clockReads w)))
              (BridgeEvent.txHash ev) (LegStatus.errorMessage l))
         <$> Legs.leg2 (Transfer.legs x)
    /\ match leg3_initiation rt ad transferId ev w x with
       | Ok r =>
           exists started,
             Legs.leg3 g'
             = (fun l =>
                  LegStatus.mk (LegStatus.provider l) (TempoPayment.id r)
                    leg_processing (Some started) (LegStatus.completedAt l)
                    (LegStatus.txHash l) (LegStatus.errorMessage l))
               <$> Legs.leg3 (Transfer.legs x)
       | Throw _ => Legs.leg3 g' = Legs.leg3 (Transfer.legs x)
       end
  else g' = Transfer.legs x.

(** ** Where the ids of the legs come from *)

(** The [externalId]s of legs 1, 2 and 3 of a transfer. *)
Definition leg_ids (x : Transfer.t) : option string * option string * option string :=
  (LegStatus.externalId <$> Legs.leg1 (Transfer.legs x),
   LegStatus.externalId <$> Legs.leg2 (Transfer.legs x),
   LegStatus.externalId <$> Legs.leg3 (Transfer.legs x)).

(** The leg ids of the transfer a [createTransfer] stores, by the answers to
    its own three calls: leg 2 has the id of the Bridge address once Bridge
    answered; leg 1 has Pay.tech's id, and leg 3 the placeholder, once
    Pay.tech answered too. *)
Definition created_ids (rt : Runtime.t) (ad : Adapters.t)
    (request : TransferRequest.t) (quote : TransferQuote.t) (w : World.t)
    : option string * option string * option string :=
  match depositAddressCall rt ad quote w with
  | Ok a =>
      match liquidationAddressCall rt ad quote w a with
      | Ok b =>
          match collectionCall rt ad request quote w b with
          | Ok p =>
              (Some (PaytechTransferResponse.transferId p),
               Some (BridgeLiquidationAddress.id b),
               Some ("tempo_pending_" ++ drawn_id rt w))
          | Throw _ => (None, Some (BridgeLiquidationAddress.id b), None)
          end
      | Throw _ => (None, None, None)
      end
  | Throw _ => (None, None, None)
  end.

(** The leg ids an operation [o], run in state [w], leaves on the transfer
    [x'] found under [id] afterwards.  [createTransfer] writes the ids its
    own calls returned; a webhook keeps the ids of legs 1 and 2 and replaces
    that of leg 3 only by the id its own payment call returned; every other
    transfer is as it was. *)
Definition externalId_written (rt : Runtime.t) (ad : Adapters.t) (o : Op)
    (w : World.t) (id : string) (x' : Transfer.t) : Prop :=
  match o with
  | OpGetTransferQuote _ => World.transfers w !! id = Some x'
  | OpCreateTransfer request quote =>
      if bool_decide (id = drawn_id rt w)
      then leg_ids x' = created_ids rt ad request quote w
      else World.transfers w !! id = Some x'
  | _ =>
      exists x,
        World.transfers w !! id = Some x
        /\ if bool_decide (op_target o = Some id) then
             id_written None
               (Legs.leg1 (Transfer.legs x)) (Legs.leg1 (Transfer.legs x'))
             /\ id_written None
                  (Legs.leg2 (Transfer.legs x)) (Legs.leg2 (Transfer.legs x'))
             /\ id_written (leg3_id_written rt ad o w x)
                  (Legs.leg3 (Transfer.legs x)) (Legs.leg3 (Transfer.legs x'))
           else x' = x
  end.

(** ** The provider clients of src/process (axios) *)

(** [String.prototype.toLowerCase] on the ASCII letters of currency codes. *)
Definition lower_char (c : ascii) : ascii :=
  let n := nat_of_ascii c in
  if ((65 <=? n) && (n <=? 90))%nat then ascii_of_nat (n + 32) else c.

Fixpoint toLowerCase (s : string) : string :=
  match s with
  | EmptyString => EmptyString
  | String c rest => String (lower_char c) (toLowerCase rest)
  end.

(** How an axios request ends: a 2xx response with its data; an error that
    carries a response ([axios.isAxiosError(error) && error.response]), of
    which the code reads [response.data?.message] ([None] when missing or
    falsy), [JSON.stringify(response.data)] and [error.message], each as a
    template literal prints it; or any other thrown value. *)
Inductive HttpOutcome (A : Type) :=
  | Responded (data : A)
  | Refused (data_message : option string) (data_json : string) (message : string)
  | Failed (e : Thrown).
Arguments Responded {A} data.
Arguments Refused {A} data_message data_json message.
Arguments Failed {A} e.

Module PaytechPayload.
Record t := mk {
  merchantId : string;
  amount : float;
  currency : Currency;
  (** 'bank' or 'card' *)
  sourceType : string;
  (** [sourceAccount.details]; a value is undefined when the field read is *)
  sourceDetails : list (string * option string);
  destinationWallet : string;
  metadata : list (string * string);
  webhookUrl : string;
  idempotencyKey : string }.
End PaytechPayload.

Module BridgePayload.
Record t := mk {
  chain : Network;
  currency : string;
  external_account_id : string;
  destination_payment_rail : string;
  destination_currency : string;
  destination_address : string;
  conversion_source_currency : string;
  webhook_url : string;
  metadata : list (string * string) }.
End BridgePayload.

Module DepositPayload.
Record t := mk {
  partnerId : string; chain : string; currency : string;
  metadata : list (string * string) }.
End DepositPayload.

Module TempoBankRecipient.
Record t := mk {
  name : string; iban : option string; accountNumber : option string;
  bankCode : option string; swiftCode : option string;
  bankName : string; bankCountry : string }.
End TempoBankRecipient.

Module TempoMobileRecipient.
Record t := mk {
  name : string; mobileNumber : string; mobileProvider : string;
  country : string }.
End TempoMobileRecipient.

Module TempoPaymentPayload.
Record t := mk {
  quoteId : string;
  recipient : TempoBankRecipient.t + TempoMobileRecipient.t;
  reference : string;
  webhookUrl : string;
  metadata : list (string * string) }.
End TempoPaymentPayload.

(** The network and the process environment behind the clients. *)
Module Http.
Record t := mk {
  (** [paytechClient.post('/transfers', body)] *)
  post_transfers : nat -> PaytechPayload.t -> HttpOutcome PaytechTransferResponse.t;
  (** [bridgeClient.post(url, body)] *)
  post_liquidation_addresses :
    nat -> string -> BridgePayload.t -> HttpOutcome BridgeLiquidationAddress.t;
  (** [tempoClient.post('/deposit_addresses', body)] *)
  post_deposit_addresses :
    nat -> DepositPayload.t -> HttpOutcome TempoDepositAddress.t;
  (** [tempoClient.post('/payments', body)] *)
  post_payments : nat -> TempoPaymentPayload.t -> HttpOutcome TempoPayment.t;
  (** the k-th [Math.floor(Math.random() * 16)] of a call *)
  random16 : nat -> nat -> nat;
  (** the readings of [new Date()] and [Date.now()] inside [getTempoQuote] *)
  quoteClock : nat -> Timestamp * Timestamp;
  PAYTECH_MERCHANT_ID : string;
  TEMPO_PARTNER_ID : string;
  (** [process.env.BRIDGE_CUSTOMER_ID], as a template literal prints it *)
  BRIDGE_CUSTOMER_ID : string }.
End Http.

Module PaytechClient.

(** [senderAccount.x || ''] *)
Definition or_empty (x : option string) : string := Js.string_or x "".

(** The request body of [initiatePaytechTransfer].  ['accountNumber' in
    senderAccount] holds when the key is there: an account that came without
    an accountNumber is taken for a card, whose [token] it does not have. *)
Definition payload (h : Http.t) (params : PaytechTransferParams.t)
    : PaytechPayload.t :=
  let transferId := PaytechTransferParams.transferId params in
  let '(sourceType, details) :=
    match PaytechTransferParams.senderAccount params with
    | inl account =>
        match BankAccount.accountNumber account with
        | Some _ =>
            ("bank",
             [ ("accountName", Some (BankAccount.accountName account));
               ("accountNumber", Some (or_empty (BankAccount.accountNumber account)));
               ("routingNumber", Some (or_empty (BankAccount.routingNumber account)));
               ("iban", Some (or_empty (BankAccount.iban account)));
               ("swiftCode", Some (or_empty (BankAccount.swiftCode account)));
               ("bankName", Some (BankAccount.bankName account)) ])
        | None => ("card", [("token", None)])
        end
    | inr token => ("card", [("token", Some (CardToken.token token))])
    end in
  PaytechPayload.mk (Http.PAYTECH_MERCHANT_ID h)
    (PaytechTransferParams.amount params)
    (PaytechTransferParams.currency params)
    sourceType details
    (PaytechTransferParams.bridgeLiquidationAddress params)
    [("transferId", transferId); ("provider", "paytech"); ("leg", "1")]
    (PaytechTransferParams.webhookUrl params)
    transferId.

Definition initiatePaytechTransfer (h : Http.t) (n : nat)
    (params : PaytechTransferParams.t) : Result PaytechTransferResponse.t :=
  match Http.post_transfers h n (payload h params) with
  | Responded data => Ok data
  | Refused data_message _ message =>
      Throw (JsError ("Pay.tech error: " ++ Js.string_or data_message message))
  | Failed e => Throw e
  end.

End PaytechClient.

Module BridgeClient.

Definition payload (params : LiquidationAddressParams.t) : BridgePayload.t :=
  let transferId := LiquidationAddressParams.transferId params in
  BridgePayload.mk
    (LiquidationAddressParams.network params)
    (toLowerCase (stablecoin_name (LiquidationAddressParams.stablecoin params)))
    transferId
    "sepa"
    (toLowerCase
       (currency_name (LiquidationAddressParams.destinationCurrency params)))
    (LiquidationAddressParams.tempoDepositAddress params)
    (toLowerCase (currency_name (LiquidationAddressParams.sourceCurrency params)))
    (LiquidationAddressParams.webhookUrl params)
    [("transferId", transferId); ("leg", "2")].

Definition createBridgeLiquidationAddress (h : Http.t) (n : nat)
    (params : LiquidationAddressParams.t) : Result BridgeLiquidationAddress.t :=
  match Http.post_liquidation_addresses h n
          ("/customers/" ++ Http.BRIDGE_CUSTOMER_ID h ++ "/liquidation_addresses")
          (payload params) with
  | Responded data => Ok data
  | Refused _ data_json _ =>
      Throw (JsError ("Bridge error creating liquidation address: " ++ data_json))
  | Failed e => Throw e
  end.

End BridgeClient.

Module TempoClient.

(** [n.toString(16)] for a digit. *)
Definition hex_digit (n : nat) : string :=
  String.substring n 1 "0123456789abcdef".

(** [Array.from({ length: 40 }, () => ...).join('')] *)
Definition random_hex (h : Http.t) (n : nat) : string :=
  String.concat "" (map (fun k => hex_digit (Http.random16 h n k)) (seq 0 40)).

(** The call never rejects: whatever goes wrong with the request, a random
    address is made up. *)
Definition getTempoDepositAddress (h : Http.t) (n : nat) (transferId chain : string)
    : Result TempoDepositAddress.t :=
  match Http.post_deposit_addresses h n
          (DepositPayload.mk (Http.TEMPO_PARTNER_ID h) chain "usdc"
             [("transferId", transferId); ("leg", "3")]) with
  | Responded data => Ok data
  | _ => Ok (TempoDepositAddress.mk ("0x" ++ random_hex h n) chain "usdc" None)
  end.

(** [a || b] on optional strings. *)
Definition or_else (a b : option string) : option string :=
  match a with
  | Some s => if String.eqb s "" then b else Some s
  | None => b
  end.

(** What ['accountName' in recipientAccount] throws on [undefined] (V8). *)
Definition in_undefined : Thrown :=
  JsError "Cannot use 'in' operator to search for 'accountName' in undefined".

Definition recipientPayload (recipientName : string)
    (recipientAccount : BankAccount.t + MobileWallet.t)
    : TempoBankRecipient.t + TempoMobileRecipient.t :=
  match recipientAccount with
  | inl account =>
      inl (TempoBankRecipient.mk recipientName
             (BankAccount.iban account)
             (BankAccount.accountNumber account)
             (or_else (BankAccount.sortCode account)
                (BankAccount.routingNumber account))
             (BankAccount.swiftCode account)
             (BankAccount.bankName account)
             (BankAccount.bankCountry account))
  | inr wallet =>
      inr (TempoMobileRecipient.mk recipientName
             (MobileWallet.phoneNumber wallet)
             (MobileWallet.provider wallet)
             (MobileWallet.country wallet))
  end.

Definition createTempoPayment (h : Http.t) (n : nat) (params : TempoPaymentParams.t)
    : Result TempoPayment.t :=
  match TempoPaymentParams.recipientAccount params with
  | None => Throw in_undefined
  | Some recipientAccount =>
      match Http.post_payments h n
              (TempoPaymentPayload.mk
                 (TempoPaymentParams.tempoQuoteId params)
                 (recipientPayload (TempoPaymentParams.recipientName params)
                    recipientAccount)
                 (TempoPaymentParams.reference params)
                 (TempoPaymentParams.webhookUrl params)
                 [("transferId", TempoPaymentParams.transferId params);
                  ("leg", "3")]) with
      | Responded data => Ok data
      | Refused _ data_json _ => Throw (JsError ("Tempo error: " ++ data_json))
      | Failed e => Throw e
      end
  end.

End TempoClient.

(** The adapters as src/process defines them, over a network [h]. *)
Definition source_adapters (h : Http.t) : Adapters.t :=
  Adapters.mk
    (fun _ amount currency country =>
       Ok (Paytech.getPaytechQuote amount currency country))
    (fun _ amount currency stablecoin network =>
       Ok (Bridge.getBridgeQuote amount currency stablecoin network))
    (fun n amount currency country =>
       Ok (Tempo.getTempoQuote (Http.quoteClock h n).1 (Http.quoteClock h n).2
             amount currency country))
    (TempoClient.getTempoDepositAddress h)
    (BridgeClient.createBridgeLiquidationAddress h)
    (PaytechClient.initiatePaytechTransfer h)
    (TempoClient.createTempoPayment h).

(** The request [createTransfer] sends to Bridge once Tempo gave the
    deposit address [a]. *)
Definition liquidationRequest (rt : Runtime.t) (h : Http.t) (quote : TransferQuote.t)
    (w : World.t) (a : TempoDepositAddress.t)
    : HttpOutcome BridgeLiquidationAddress.t :=
  Http.post_liquidation_addresses h (S (length (World.calls w)))
    ("/customers/" ++ Http.BRIDGE_CUSTOMER_ID h ++ "/liquidation_addresses")
    (BridgeClient.payload
       (liquidationAddressParams rt (drawn_id rt w) (TransferQuote.route quote) a)).

(** The request [createTransfer] sends to Pay.tech once Bridge gave the
    liquidation address [b]. *)
Definition collectionRequest (rt : Runtime.t) (h : Http.t)
    (request : TransferRequest.t) (quote : TransferQuote.t) (w : World.t)
    (b : BridgeLiquidationAddress.t) : HttpOutcome PaytechTransferResponse.t :=
  Http.post_transfers h (S (S (length (World.calls w))))
    (PaytechClient.payload h
       (paytechTransferParams rt (drawn_id rt w) request quote b)).

(** The error that stops leg-3 initiation, if any. *)
Definition leg3_error (rt : Runtime.t) (ad : Adapters.t) (transferId : string)
    (ev : BridgeEvent.t) (w : World.t) (x : Transfer.t) : option Thrown :=
  match leg3QuoteCall rt ad ev w x with
  | Throw e => Some e
  | Ok q =>
      match leg3PaymentCall rt ad transferId w x q with
      | Throw e => Some e
      | Ok _ => None
      end
  end.

(** The last event of a timeline is a failure with message [m]. *)
Definition ends_failed (m : string) (x : Transfer.t) : Prop :=
  Transfer.status x = failed
  /\ exists ev,
       last (Transfer.timeline x) = Some ev
       /\ TimelineEvent.status ev = failed
       /\ TimelineEvent.message ev = m.

(** ** Concrete networks *)

Module Net.

(** Every provider reachable and accepting. *)
Definition up : Http.t :=
  Http.mk
    (fun _ p =>
       Responded
         (PaytechTransferResponse.mk "pt_1" "submitted" (PaytechPayload.amount p)
            (currency_name (PaytechPayload.currency p)) 0%float "soon"
            (Some (PaytechPayload.webhookUrl p))))
    (fun _ _ p =>
       Responded
         (BridgeLiquidationAddress.mk "liq_1" (network_name (BridgePayload.chain p))
            (BridgePayload.currency p) "0xbeef"
            (BridgePayload.external_account_id p)
            (BridgePayload.destination_payment_rail p)
            (BridgePayload.destination_currency p)
            (BridgePayload.destination_address p)))
    (fun _ p =>
       Responded (TempoDepositAddress.mk "0xfeed" (DepositPayload.chain p) "usdc" None))
    (fun _ p =>
       Responded
         (TempoPayment.mk "tp_1" "pending" 0%float "PHP"
            (TempoRecipient.mk "Ben Cruz" None None None)
            (TempoPaymentPayload.reference p) "soon" 0%float))
    (fun n k => (n + 7 * k) mod 16)
    (fun n => ((1700000000000 + Z.of_nat n)%Z, (1700000000000 + Z.of_nat n)%Z))
    "merchant_1" "partner_1" "cust_1".

(** No provider reachable: every request fails without a response. *)
Definition offline : Http.t :=
  Http.mk
    (fun _ _ => Failed (JsError "connect ECONNREFUSED"))
    (fun _ _ _ => Failed (JsError "connect ECONNREFUSED"))
    (fun _ _ => Failed (JsError "connect ECONNREFUSED"))
    (fun _ _ => Failed (JsError "connect ECONNREFUSED"))
    (Http.random16 up) (Http.quoteClock up)
    "merchant_1" "partner_1" "cust_1".

(** Bridge answers 4xx with an empty object. *)
Definition bridge_refuses : Http.t :=
  Http.mk
    (Http.post_transfers up)
    (fun _ _ _ => Refused None "{}" "Request failed with status code 422")
    (Http.post_deposit_addresses up) (Http.post_payments up)
    (Http.random16 up) (Http.quoteClock up)
    "merchant_1" "partner_1" "cust_1".

(** Pay.tech answers 4xx with a message. *)
Definition paytech_refuses : Http.t :=
  Http.mk
    (fun _ _ =>
       Refused (Some "insufficient funds") "{}" "Request failed with status code 402")
    (Http.post_liquidation_addresses up)
    (Http.post_deposit_addresses up) (Http.post_payments up)
    (Http.random16 up) (Http.quoteClock up)
    "merchant_1" "partner_1" "cust_1".

(** A request whose recipient names neither a bank account nor a wallet;
    the route's schema lets it through. *)
Definition no_instrument : TransferRequest.t :=
  TransferRequest.mk "uuid-1"
    (Sender.mk "Ana Cruz" "ana@example.com" None None None None)
    (Recipient.mk "Ben Cruz" None None None None)
    family_support None.

(** A request whose sender gives a bank account by IBAN only. *)
Definition iban_sender : TransferRequest.t :=
  TransferRequest.mk "uuid-1"
    (Sender.mk "Ana Cruz" "ana@example.com" None None
       (Some (BankAccount.mk "Ana Cruz" None None (Some "DE89370400440532013000")
                (Some "COBADEFF") None "Commerzbank" "DE"))
       None)
    (Recipient.mk "Ben Cruz" None None None
       (Some (MobileWallet.mk "gcash" "639170000000" "PH")))
    family_support None.

(** [no_instrument] committed and collected. *)
Definition collected : World.t :=
  exec_all Demo.ticking (source_adapters up)
    [ OpCreateTransfer no_instrument Demo.quote;
      OpPaytechWebhook Run.transferId Run.settled ]
    World.init.

End Net.

(** ** Quotes: what the route of a quote is made of *)

(** The request with another [paymentMethod]. *)
Definition with_paymentMethod (m : option CollectionMethod) (r : QuoteRequest.t)
    : QuoteRequest.t :=
  QuoteRequest.mk (QuoteRequest.sendAmount r) (QuoteRequest.sendCurrency r)
    (QuoteRequest.receiveCurrency r) (QuoteRequest.sendCountry r)
    (QuoteRequest.receiveCountry r) m.

(** The request with another [sendCurrency]. *)
Definition with_sendCurrency (c : Currency) (r : QuoteRequest.t) : QuoteRequest.t :=
  QuoteRequest.mk (QuoteRequest.sendAmount r) c
    (QuoteRequest.receiveCurrency r) (QuoteRequest.sendCountry r)
    (QuoteRequest.receiveCountry r) (QuoteRequest.paymentMethod r).

(** The identity, the validity window and the routing of the quote that
    [getTransferQuote] returns for [request] in state [w]. *)
Definition quote_shape (rt : Runtime.t) (request : QuoteRequest.t) (w : World.t)
    (q : TransferQuote.t) : Prop :=
  TransferRoute.id (TransferQuote.route q) = Runtime.uuidv4 rt (World.uuidsDrawn w)
  /\ TransferQuote.quoteId q = Runtime.uuidv4 rt (S (World.uuidsDrawn w))
  /\ TransferQuote.expiresAt q
     = (Runtime.clock rt (World.clockReads w) + 300000)%Z
  /\ TransferQuote.createdAt q = Runtime.clock rt (S (World.clockReads w))
  /\ TransferRoute.sourceCurrency (TransferQuote.route q)
     = QuoteRequest.sendCurrency request
  /\ TransferRoute.destinationCurrency (TransferQuote.route q)
     = QuoteRequest.receiveCurrency request
  /\ TransferRoute.sourceCountry (TransferQuote.route q)
     = QuoteRequest.sendCountry request
  /\ TransferRoute.destinationCountry (TransferQuote.route q)
     = QuoteRequest.receiveCountry request
  /\ Leg1Route.method (TransferRoute.leg1 (TransferQuote.route q)) = bank_transfer
  /\ Leg2Route.stablecoin (TransferRoute.leg2 (TransferQuote.route q)) = USDC
  /\ Leg2Route.network (TransferRoute.leg2 (TransferQuote.route q))
     = match QuoteRequest.sendCurrency request with
       | MXN | BRL | NGN => polygon
       | _ => base
       end.

(** [getTempoSupportedCorridors] of src/process/tempo.ts. *)
Definition getTempoSupportedCorridors : list (string * Currency * list PaymentRail) :=
  [ ("US", USD, [local_rails]);
    ("DE", EUR, [sepa]);
    ("FR", EUR, [sepa]);
    ("GB", GBP, [local_rails]);
    ("MX", MXN, [local_rails]);
    ("NG", NGN, [local_rails]);
    ("KE", KES, [local_rails]);
    ("IN", INR, [local_rails]);
    ("PH", PHP, [local_rails]);
    ("BR", BRL, [local_rails]) ].

(** ** Listing the store *)

(** [Array.prototype.sort(cmp)]: a stable sort; an element stays in front
    of a later one unless [cmp] puts it behind ([cmp a b > 0]). *)
Fixpoint Array_insert {A} (cmp : A -> A -> Z) (x : A) (l : list A) : list A :=
  match l with
  | [] => [x]
  | y :: l' =>
      if (cmp x y <=? 0)%Z then x :: l else y :: Array_insert cmp x l'
  end.

Definition Array_sort {A} (cmp : A -> A -> Z) (l : list A) : list A :=
  foldr (Array_insert cmp) [] l.

(** [Array.from(transfers.values())]: the stored transfers in the order in
    which their keys were first set.  The store of the model does not keep
    that order; it is given as [order]. *)
Definition values (order : list string) (w : World.t) : list Transfer.t :=
  omap (fun k => World.transfers w !! k) order.

Definition getAllTransfers (order : list string) (w : World.t) : list Transfer.t :=
  Array_sort (fun a b => (Transfer.createdAt b - Transfer.createdAt a)%Z)
    (values order w).

(** [order] lists the keys of the store, each once. *)
Definition enumerates (order : list string) (w : World.t) : Prop :=
  NoDup order /\ list_to_set order = dom (World.transfers w).

(** The transfer was created at a clock reading taken before state [w]. *)
Definition created_before (rt : Runtime.t) (w : World.t) (x : Transfer.t) : Prop :=
  exists k, k < World.clockReads w /\ Transfer.createdAt x = Runtime.clock rt k.

Definition newest_first (l : list Transfer.t) : Prop :=
  StronglySorted (fun a b => (Transfer.createdAt b <= Transfer.createdAt a)%Z) l.

(** ** The quote route (POST /api/quote) *)

(** A value as [JSON.parse] builds it.  The members of an object are
    listed as the text has them; a string is held as every string here, in
    UTF-8. *)
Inductive Json :=
  | JNull
  | JBool (b : bool)
  | JNumber (x : float)
  | JString (s : string)
  | JArray (items : list Json)
  | JObject (members : list (string * Json)).

(** [body[key]]: undefined when the key is not there; of a key the text
    repeats, [JSON.parse] keeps the last value. *)
Fixpoint property (key : string) (members : list (string * Json)) : option Json :=
  match members with
  | [] => None
  | (k, v) :: rest =>
      match property key rest with
      | Some later => Some later
      | None => if String.eqb k key then Some v else None
      end
  end.

Module Zod.

(** [z.number().positive().max(m)] *)
Definition number_positive_max (m : float) (v : option Json) : option float :=
  match v with
  | Some (JNumber x) =>
      if is_nan x then None
      else if (0 <? x)%float && (x <=? m)%float then Some x
      else None
  | _ => None
  end.

(** [z.enum(['USD', 'EUR', 'GBP', 'MXN', 'BRL', 'NGN', 'KES', 'INR', 'PHP'])] *)
Definition currency (v : option Json) : option Currency :=
  match v with
  | Some (JString s) =>
      if String.eqb s "USD" then Some USD
      else if String.eqb s "EUR" then Some EUR
      else if String.eqb s "GBP" then Some GBP
      else if String.eqb s "MXN" then Some MXN
      else if String.eqb s "BRL" then Some BRL
      else if String.eqb s "NGN" then Some NGN
      else if String.eqb s "KES" then Some KES
      else if String.eqb s "INR" then Some INR
      else if String.eqb s "PHP" then Some PHP
      else None
  | _ => None
  end.

(** [z.string().length(n)]: the length is [s.length], in UTF-16 code
    units. *)
Definition string_length (n : nat) (v : option Json) : option string :=
  match v with
  | Some (JString s) => if Nat.eqb (Js.length s) n then Some s else None
  | _ => None
  end.

(** [z.enum(['bank_transfer', 'card', 'mobile_money']).optional()]: the key
    may be missing; [null] is not accepted. *)
Definition optional_method (v : option Json) : option (option CollectionMethod) :=
  match v with
  | None => Some None
  | Some (JString s) =>
      if String.eqb s "bank_transfer" then Some (Some bank_transfer)
      else if String.eqb s "card" then Some (Some card)
      else if String.eqb s "mobile_money" then Some (Some mobile_money)
      else None
  | Some _ => None
  end.

End Zod.

(** [QuoteSchema.parse(body)]: the validated request, or [None] for a
    [ZodError]. *)
Definition QuoteSchema_parse (body : Json) : option QuoteRequest.t :=
  match body with
  | JObject members =>
      match Zod.number_positive_max 100000 (property "sendAmount" members),
            Zod.currency (property "sendCurrency" members),
            Zod.currency (property "receiveCurrency" members),
            Zod.string_length 2 (property "sendCountry" members),
            Zod.string_length 2 (property "receiveCountry" members),
            Zod.optional_method (property "paymentMethod" members) with
      | Some sendAmount, Some sendCurrency, Some receiveCurrency,
        Some sendCountry, Some receiveCountry, Some paymentMethod =>
          Some (QuoteRequest.mk sendAmount sendCurrency receiveCurrency
                  sendCountry receiveCountry paymentMethod)
      | _, _, _, _, _, _ => None
      end
  | _ => None
  end.

(** The response of the route: the HTTP status and the body, without the
    [details] of a validation error. *)
Module ApiResponse.
Record t := mk {
  status : nat;
  success : bool;
  data : option TransferQuote.t;
  (** [error.code] and [error.message] *)
  error : option (string * string) }.
End ApiResponse.

Module QuoteRoute.

Definition validation_error : ApiResponse.t :=
  ApiResponse.mk 400 false None (Some ("VALIDATION_ERROR", "Invalid request")).

Definition quote_error : ApiResponse.t :=
  ApiResponse.mk 500 false None (Some ("QUOTE_ERROR", "Failed to generate quote")).

(** [POST(req)]; [body] is what [req.json()] resolves to, [None] when it
    rejects (the body is not JSON).  The handler catches everything. *)
Definition POST (rt : Runtime.t) (ad : Adapters.t) (body : option Json)
    (w : World.t) : ApiResponse.t * World.t :=
  match body with
  | None => (quote_error, w)
  | Some json =>
      match QuoteSchema_parse json with
      | None => (validation_error, w)
      | Some validated =>
          match getTransferQuote rt ad validated w with
          | (Ok quote, w') => (ApiResponse.mk 200 true (Some quote) None, w')
          | (Throw _, w') => (quote_error, w')
          end
      end
  end.

End QuoteRoute.

(** The bounds the schema puts on a request. *)
Definition within_schema (r : QuoteRequest.t) : Prop :=
  (0 <? QuoteRequest.sendAmount r)%float = true
  /\ (QuoteRequest.sendAmount r <=? 100000)%float = true
  /\ QuoteRequest.sendCurrency r
     ∈ [USD; EUR; GBP; MXN; BRL; NGN; KES; INR; PHP]
  /\ QuoteRequest.receiveCurrency r
     ∈ [USD; EUR; GBP; MXN; BRL; NGN; KES; INR; PHP]
  /\ Js.length (QuoteRequest.sendCountry r) = 2
  /\ Js.length (QuoteRequest.receiveCountry r) = 2.

(** A JSON body of the demo corridor. *)
Definition demo_body : Json :=
  JObject [ ("sendAmount", JNumber 1000%float);
            ("sendCurrency", JString "USD");
            ("receiveCurrency", JString "PHP");
            ("sendCountry", JString "US");
            ("receiveCountry", JString "PH") ].

(** * Running the bodies *)

Lemma addEvent_run rt st msg md x w :
  addEvent rt st msg md (x, w) =
  (Ok tt,
   (Transfer.mk (Transfer.id x) st (Transfer.quote x) (Transfer.request x)
      (Transfer.legs x)
      (Transfer.timeline x ++
         [TimelineEvent.mk (Runtime.uuidv4 rt (World.uuidsDrawn w))
            (Runtime.clock rt (World.clockReads w)) st msg None md])
      (Transfer.createdAt x) (Runtime.clock rt (S (World.clockReads w)))
      (Transfer.completedAt x),
    World.mk (World.transfers w) (S (S (World.clockReads w)))
      (S (World.uuidsDrawn w)) (World.calls w))).
Proof. reflexivity. Qed.

(** Evaluation of record projections and setters, leaving strings, maps
    and oracle readings alone. *)
Ltac eval_fields :=
  cbn beta iota zeta delta
    [fst snd orb andb negb
     Transfer.legs Transfer.status Transfer.timeline Transfer.id Transfer.quote
     Transfer.request Transfer.createdAt Transfer.updatedAt Transfer.completedAt
     Transfer.set_legs Transfer.set_status Transfer.set_completedAt
     Legs.leg1 Legs.leg2 Legs.leg3 Legs.set_leg1 Legs.set_leg2 Legs.set_leg3
     LegStatus.status LegStatus.externalId LegStatus.set_status
     LegStatus.set_completedAt LegStatus.set_startedAt LegStatus.set_txHash
     LegStatus.set_externalId
     TimelineEvent.status TimelineEvent.timestamp
     World.transfers World.clockReads World.uuidsDrawn World.calls is_ok].

(** Symbolic execution of a body: unfold the monad, evaluate the fields. *)
Ltac run :=
  unfold with_object, bind, try_catch, this, mutate_leg1, mutate_leg2, mutate_leg3,
    mutate, transfers_set, lift, call, ret, throw, not_found, newDate, uuidv4;
  repeat first [ rewrite addEvent_run | progress eval_fields ].

Lemma leg_advances_refl s : leg_advances s s = true.
Proof. destruct s; reflexivity. Qed.

Ltac solve_legs :=
  unfold legs_advance; eval_fields;
  repeat match goal with l : option LegStatus.t |- _ => destruct l end;
  rewrite ?leg_advances_refl;
  repeat match goal with
    | |- context [leg_advances (LegStatus.status ?l) _] =>
        destruct (LegStatus.status l)
    end;
  reflexivity.

Ltac solve_prefix :=
  eval_fields; repeat first [ reflexivity | apply prefix_app_r ].

Ltac solve_grows :=
  eval_fields; rewrite !length_app; cbn [length]; lia.

Ltac solve_consistent :=
  unfold timeline_consistent; eval_fields;
  eexists _, _; split; [ apply last_snoc | repeat split; reflexivity ].

Lemma insert_same_world w id x :
  World.transfers w !! id = Some x ->
  World.mk (<[id := x]> (World.transfers w)) (World.clockReads w)
    (World.uuidsDrawn w) (World.calls w) = w.
Proof. intros H. destruct w; cbn in *. by rewrite insert_id. Qed.

(** [externalId_backed] survives a step that keeps the ids of the legs,
    or that installs on leg 3 the id a resolved payment call returned. *)
Lemma provenance_step ad w w' x x' :
  World.calls w `prefix_of` World.calls w' ->
  Transfer.id x' = Transfer.id x ->
  keeps_externalId (Legs.leg1 (Transfer.legs x)) (Legs.leg1 (Transfer.legs x')) ->
  keeps_externalId (Legs.leg2 (Transfer.legs x)) (Legs.leg2 (Transfer.legs x')) ->
  keeps_externalId (Legs.leg3 (Transfer.legs x)) (Legs.leg3 (Transfer.legs x'))
  \/ (exists l' n p r,
        Legs.leg3 (Transfer.legs x') = Some l'
        /\ World.calls w' !! n = Some (CallCreateTempoPayment, true)
        /\ Adapters.createTempoPayment ad n p = Ok r
        /\ LegStatus.externalId l' = TempoPayment.id r) ->
  externalId_backed ad w x -> externalId_backed ad w' x'.
Proof.
  intros [ext Hext] Hid K1 K2 K3 (H1 & H2 & H3).
  unfold keeps_externalId in *.
  repeat split; intros l' Hl'.
  - rewrite Hl' in K1. destruct K1 as (l & Hl & ->).
    destruct (H1 l Hl) as (n & p & r & Hc & Ha & He).
    exists n, p, r. rewrite Hext. eauto using lookup_app_l_Some.
  - rewrite Hl' in K2. destruct K2 as (l & Hl & ->).
    destruct (H2 l Hl) as (n & p & r & Hc & Ha & He).
    exists n, p, r. rewrite Hext. eauto using lookup_app_l_Some.
  - destruct K3 as [K3 | (l'' & n & p & r & Hl'' & Hc & Ha & He)].
    + rewrite Hl' in K3. destruct K3 as (l & Hl & ->). rewrite Hid.
      destruct (H3 l Hl) as [Hp | (n & p & r & Hc & Ha & He)]; [by left|].
      right. exists n, p, r. rewrite Hext. eauto using lookup_app_l_Some.
    + right. exists n, p, r. rewrite Hl' in Hl''. injection Hl'' as <-. auto.
Qed.

Ltac solve_keeps :=
  unfold keeps_externalId; eval_fields;
  first
    [ exact I
    | eexists; split; reflexivity
    | match goal with
      | |- match ?o with Some _ => _ | None => _ end =>
          destruct o; [eexists; split; reflexivity | exact I]
      end ].

Ltac solve_calls_prefix :=
  eval_fields; repeat first [ reflexivity | apply prefix_app_r ].

Ltac solve_provenance :=
  apply provenance_step;
  [ solve_calls_prefix | reflexivity | solve_keeps | solve_keeps
  | first
      [ left; solve_keeps
      | right; eval_fields; eexists _, _, _, _;
        split; [reflexivity|];
        split; [apply list_lookup_middle; reflexivity|];
        split; [eassumption | reflexivity] ] ].

Ltac solve_webhook_step :=
  split; [reflexivity|]; split; [solve_legs|]; split; [solve_prefix|];
  split;
  [ first [ reflexivity | split; [solve_grows | solve_consistent] ]
  | first
      [ reflexivity
      | eval_fields; split; [reflexivity|];
        eexists _, _; split; [apply last_snoc|];
        split; [reflexivity|]; split; [reflexivity|];
        split; [|reflexivity]; lia ] ].

Ltac solve_spec Hl :=
  eexists _, _; split; [reflexivity|]; eval_fields;
  split; [reflexivity|]; split; [solve_calls_prefix|]; split;
  [ solve_webhook_step
  | split;
    [ solve_provenance
    | first [ discriminate | intros _; apply insert_same_world; exact Hl ] ] ].

(** ** The handlers on a stored transfer

    Each handler returns normally, rewrites the addressed entry only, and
    changes the transfer as [webhook_step] says. *)

Lemma handlePaytechWebhook_spec rt ad id ev w x :
  World.transfers w !! id = Some x ->
  exists x' w',
    handlePaytechWebhook rt id ev w = (Ok tt, w')
    /\ World.transfers w' = <[id := x']> (World.transfers w)
    /\ World.calls w `prefix_of` World.calls w'
    /\ webhook_step rt (OpPaytechWebhook id ev) w x x'
    /\ (externalId_backed ad w x -> externalId_backed ad w' x')
    /\ (paytech_acts ev = false -> w' = w).
Proof.
  intros Hl. unfold handlePaytechWebhook. rewrite Hl.
  unfold webhook_step, op_acts, op_target, completes, paytech_acts.
  destruct x as [xid xst xq xr [l1 l2 l3] xtl xc xu xco].
  destruct (String.eqb (PaytechEvent.status ev) "settled");
    [| destruct (String.eqb (PaytechEvent.status ev) "failed")];
    destruct l1 as [l1|]; run; solve_spec Hl.
Qed.

Lemma handleTempoWebhook_spec rt ad id ev w x :
  World.transfers w !! id = Some x ->
  exists x' w',
    handleTempoWebhook rt id ev w = (Ok tt, w')
    /\ World.transfers w' = <[id := x']> (World.transfers w)
    /\ World.calls w `prefix_of` World.calls w'
    /\ webhook_step rt (OpTempoWebhook id ev) w x x'
    /\ (externalId_backed ad w x -> externalId_backed ad w' x')
    /\ (tempo_acts ev = false -> w' = w).
Proof.
  intros Hl. unfold handleTempoWebhook. rewrite Hl.
  unfold webhook_step, op_acts, op_target, completes, tempo_acts.
  rewrite String.eqb_refl.
  destruct x as [xid xst xq xr [l1 l2 l3] xtl xc xu xco].
  destruct (String.eqb (TempoEvent.status ev) "settled");
    [| destruct (String.eqb (TempoEvent.status ev) "completed");
       [| destruct (String.eqb (TempoEvent.status ev) "failed");
          [| destruct (String.eqb (TempoEvent.status ev) "rejected")]]];
    destruct l3 as [l3|]; run; solve_spec Hl.
Qed.

Lemma handleBridgeWebhook_spec rt ad id ev w x :
  World.transfers w !! id = Some x ->
  exists x' w',
    handleBridgeWebhook rt ad id ev w = (Ok tt, w')
    /\ World.transfers w' = <[id := x']> (World.transfers w)
    /\ World.calls w `prefix_of` World.calls w'
    /\ webhook_step rt (OpBridgeWebhook id ev) w x x'
    /\ (externalId_backed ad w x -> externalId_backed ad w' x')
    /\ (bridge_acts ev = false -> w' = w).
Proof.
  intros Hl. unfold handleBridgeWebhook. rewrite Hl.
  unfold webhook_step, op_acts, op_target, completes, bridge_acts.
  destruct x as [xid xst xq xr [l1 l2 l3] xtl xc xu xco].
  destruct (String.eqb (BridgeEvent.state ev) "payment_processed");
    [| run; solve_spec Hl].
  destruct l2 as [l2|]; destruct l3 as [l3|]; run;
    (destruct (Adapters.getTempoQuote _ _ _ _ _) as [q|e] eqn:Eq; run;
     [ destruct (Adapters.createTempoPayment _ _ _) as [r|e] eqn:Ep; run |]);
    solve_spec Hl.
Qed.

Ltac solve_call_lookup :=
  eval_fields;
  repeat first [ apply list_lookup_middle; reflexivity | apply lookup_app_l_Some ].

Ltac solve_new_provenance :=
  unfold externalId_backed; eval_fields;
  repeat split; intros ? ?;
  first
    [ discriminate
    | match goal with H : Some _ = Some _ |- _ => injection H as <- end;
      eval_fields;
      first
        [ left; reflexivity
        | eexists _, _, _; split; [solve_call_lookup|];
          split; [eassumption | reflexivity] ] ].

(** Whatever the providers answer, [createTransfer] stores one transfer under
    the drawn id; that transfer satisfies the three invariants. *)
Lemma createTransfer_spec rt ad request quote w :
  exists r x' w',
    createTransfer rt ad request quote w = (r, w')
    /\ World.transfers w' =
         <[Runtime.uuidv4 rt (World.uuidsDrawn w) := x']> (World.transfers w)
    /\ World.calls w `prefix_of` World.calls w'
    /\ timeline_consistent rt x'
    /\ externalId_backed ad w' x'
    /\ Transfer.completedAt x' = None.
Proof.
  unfold createTransfer. run.
  destruct (Adapters.getTempoDepositAddress _ _ _ _) as [a|e] eqn:Ea; run;
    [ destruct (Adapters.createBridgeLiquidationAddress _ _ _) as [b|e] eqn:Eb; run;
      [ destruct (Adapters.initiatePaytechTransfer _ _ _) as [p|e] eqn:Ep; run | ] | ];
    (eexists _, _, _; split; [reflexivity|]; eval_fields;
     split; [apply insert_insert_eq|]; split; [solve_calls_prefix|];
     split; [solve_consistent|]; split; [solve_new_provenance | reflexivity]).
Qed.

Lemma keeps_externalId_refl o : keeps_externalId o o.
Proof. destruct o; cbn; eauto. Qed.

Lemma provenance_calls ad w w' x :
  World.calls w `prefix_of` World.calls w' ->
  externalId_backed ad w x -> externalId_backed ad w' x.
Proof.
  intros Hp. apply provenance_step; auto using keeps_externalId_refl.
Qed.

Lemma legs_advance_refl g : legs_advance g g = true.
Proof.
  destruct g as [[l1|] [l2|] [l3|]]; unfold legs_advance; cbn;
    rewrite ?leg_advances_refl; reflexivity.
Qed.

(** ** Unknown transfer ids *)

Lemma handlePaytechWebhook_not_found rt id ev w :
  World.transfers w !! id = None ->
  handlePaytechWebhook rt id ev w
  = (Throw (JsError ("Transfer " ++ id ++ " not found")), w).
Proof. intros H. unfold handlePaytechWebhook. rewrite H. reflexivity. Qed.

Lemma handleBridgeWebhook_not_found rt ad id ev w :
  World.transfers w !! id = None ->
  handleBridgeWebhook rt ad id ev w
  = (Throw (JsError ("Transfer " ++ id ++ " not found")), w).
Proof. intros H. unfold handleBridgeWebhook. rewrite H. reflexivity. Qed.

Lemma handleTempoWebhook_not_found rt id ev w :
  World.transfers w !! id = None ->
  handleTempoWebhook rt id ev w
  = (Throw (JsError ("Transfer " ++ id ++ " not found")), w).
Proof. intros H. unfold handleTempoWebhook. rewrite H. reflexivity. Qed.

(** ** One webhook delivery *)

Lemma webhook_exec rt ad o target w :
  op_target o = Some target ->
  (World.transfers w !! target = None /\ exec rt ad o w = w)
  \/ exists x x',
       World.transfers w !! target = Some x
       /\ World.transfers (exec rt ad o w) = <[target := x']> (World.transfers w)
       /\ World.calls w `prefix_of` World.calls (exec rt ad o w)
       /\ webhook_step rt o w x x'
       /\ (externalId_backed ad w x ->
           externalId_backed ad (exec rt ad o w) x')
       /\ (op_acts o = false -> exec rt ad o w = w).
Proof.
  intros Ht.
  destruct (World.transfers w !! target) as [x|] eqn:Hl; [right | left].
  - destruct o as [| | id ev | id ev | id ev]; try discriminate;
      injection Ht as ->; cbn [exec op_acts].
    + destruct (handlePaytechWebhook_spec rt ad target ev w x Hl)
        as (x' & w' & -> & ?); eauto.
    + destruct (handleBridgeWebhook_spec rt ad target ev w x Hl)
        as (x' & w' & -> & ?); eauto.
    + destruct (handleTempoWebhook_spec rt ad target ev w x Hl)
        as (x' & w' & -> & ?); eauto.
  - split; [reflexivity|].
    destruct o as [| | id ev | id ev | id ev]; try discriminate;
      injection Ht as ->; cbn [exec].
    + by rewrite handlePaytechWebhook_not_found.
    + by rewrite handleBridgeWebhook_not_found.
    + by rewrite handleTempoWebhook_not_found.
Qed.

Lemma is_webhook_target o : is_webhook o = true -> exists target, op_target o = Some target.
Proof. destruct o; try discriminate; cbn; eauto. Qed.

Lemma completes_other o target id :
  op_target o = Some target -> target <> id -> completes o id = false.
Proof.
  destruct o; try discriminate; try reflexivity.
  intros [= ->] Hne. cbn. apply String.eqb_neq in Hne. by rewrite Hne.
Qed.

(** A delivery seen from any stored transfer, addressed or not. *)
Lemma webhook_any rt ad o w id x :
  is_webhook o = true ->
  World.transfers w !! id = Some x ->
  exists x',
    World.transfers (exec rt ad o w) !! id = Some x'
    /\ legs_advance (Transfer.legs x) (Transfer.legs x') = true
    /\ Transfer.timeline x `prefix_of` Transfer.timeline x'
    /\ (if completes o id then
          Transfer.status x' = completed
          /\ exists e k,
               last (Transfer.timeline x') = Some e
               /\ TimelineEvent.status e = completed
               /\ TimelineEvent.timestamp e = Runtime.clock rt (S k)
               /\ World.clockReads w <= k
               /\ Transfer.completedAt x' = Some (Runtime.clock rt k)
        else Transfer.completedAt x' = Transfer.completedAt x).
Proof.
  intros Hw Hl. destruct (is_webhook_target o Hw) as [target Ht].
  destruct (webhook_exec rt ad o target w Ht)
    as [[Hn ->] | (x0 & x' & Hl0 & Hs & _ & Hstep & _)].
  - exists x. split; [done|]. split; [apply legs_advance_refl|]. split; [done|].
    destruct (decide (target = id)) as [-> | Hne]; [congruence|].
    by rewrite (completes_other o target id Ht Hne).
  - destruct (decide (target = id)) as [-> | Hne].
    + assert (x0 = x) as -> by congruence.
      exists x'. rewrite Hs, lookup_insert_eq. split; [done|].
      destruct Hstep as (_ & Hlegs & Hpre & _ & Hc). rewrite Ht in Hc. auto.
    + exists x. rewrite Hs, lookup_insert_ne by done. split; [done|].
      split; [apply legs_advance_refl|]. split; [done|].
      by rewrite (completes_other o target id Ht Hne).
Qed.

(** ** Quotes *)

(** [getTransferQuote] makes the three calls, leaves the store alone, and
    returns the quote of the formula or throws. *)
Lemma getTransferQuote_run rt ad request w :
  exists r k u,
    getTransferQuote rt ad request w
    = (r, World.mk (World.transfers w) k u
            (World.calls w
             ++ [(CallGetPaytechQuote, is_ok (paytechQuoteCall ad request w));
                 (CallGetBridgeQuote, is_ok (bridgeQuoteCall ad request w));
                 (CallGetTempoQuote, is_ok (tempoQuoteCall ad request w))]))
    /\ match paytechQuoteCall ad request w, bridgeQuoteCall ad request w,
             tempoQuoteCall ad request w with
       | Ok pq, Ok bq, Ok tq =>
           exists q, r = Ok q /\ quote_follows_formula rt request pq bq tq q
       | _, _, _ => exists e, r = Throw e
       end.
Proof.
  unfold getTransferQuote, paytechQuoteCall, bridgeQuoteCall, tempoQuoteCall,
    bind, promise_all3, call.
  eval_fields. rewrite !length_app, !Nat.add_1_r. cbn [length].
  rewrite <- !app_assoc. cbn [app].
  destruct (Adapters.getPaytechQuote _ _ _ _ _) as [pq|e1];
    destruct (Adapters.getBridgeQuote _ _ _ _ _ _) as [bq|e2];
    destruct (Adapters.getTempoQuote _ _ _ _ _) as [tq|e3];
    eval_fields;
    try (eexists _, _, _; split; [reflexivity | eexists; reflexivity]).
  unfold uuidv4, newDate, ret. eval_fields.
  eexists _, _, _. split; [reflexivity|].
  eexists. split; [reflexivity|].
  unfold quote_follows_formula. repeat split.
Qed.

(** ** Invariants of the reachable states *)

Lemma completion_recorded_step rt o target w x x' :
  op_target o = Some target ->
  webhook_step rt o w x x' ->
  completion_recorded x -> completion_recorded x'.
Proof.
  intros Ht (_ & _ & Hpre & _ & Hc) Hx Hset. rewrite Ht in Hc.
  destruct (completes o target).
  - destruct Hc as (_ & e & k & Hlast & Hst & _).
    exists e. split; [|done]. apply last_Some in Hlast as [l ->].
    apply elem_of_app. right. by apply list_elem_of_singleton.
  - rewrite Hc in Hset. destruct (Hx Hset) as (e & He & Hst).
    exists e. split; [|done]. destruct Hpre as [ext ->].
    apply elem_of_app. by left.
Qed.

Lemma timeline_consistent_step rt o w x x' :
  webhook_step rt o w x x' ->
  timeline_consistent rt x -> timeline_consistent rt x'.
Proof.
  intros (_ & _ & _ & Ha & _) Hx.
  destruct (op_acts o); [tauto | by subst].
Qed.

Lemma reachable_webhook_inv rt ad w o target :
  op_target o = Some target ->
  (forall id x, World.transfers w !! id = Some x ->
     timeline_consistent rt x /\ externalId_backed ad w x
     /\ completion_recorded x) ->
  forall id x, World.transfers (exec rt ad o w) !! id = Some x ->
    timeline_consistent rt x
    /\ externalId_backed ad (exec rt ad o w) x
    /\ completion_recorded x.
Proof.
  intros Ht IH id x Hl.
  destruct (webhook_exec rt ad o target w Ht)
    as [[Hn E] | (x0 & x' & Hl0 & Hs & Hcalls & Hstep & Hprov & _)].
  - rewrite E in *. exact (IH id x Hl).
  - rewrite Hs in Hl. destruct (IH target x0 Hl0) as (I1 & I2 & I3).
    destruct (decide (target = id)) as [-> | Hne].
    + rewrite lookup_insert_eq in Hl. injection Hl as <-.
      split; [by eapply timeline_consistent_step|].
      split; [auto | by eapply completion_recorded_step].
    + rewrite lookup_insert_ne in Hl by done.
      destruct (IH id x Hl) as (J1 & J2 & J3).
      split; [done|]. split; [|done]. by eapply provenance_calls.
Qed.

Lemma reachable_inv rt ad w :
  reachable rt ad w ->
  forall id x, World.transfers w !! id = Some x ->
    timeline_consistent rt x
    /\ externalId_backed ad w x
    /\ completion_recorded x.
Proof.
  induction 1 as [| w o Hr IH]; intros id x Hl.
  - cbn in Hl. by rewrite lookup_empty in Hl.
  - destruct o as [request | request quote | tid ev | tid ev | tid ev].
    + cbn [exec] in *.
      destruct (getTransferQuote_run rt ad request w) as (r & k & u & E & _).
      rewrite E in *. cbn [snd World.transfers] in Hl.
      destruct (IH id x Hl) as (H1 & H2 & H3).
      split; [done|]. split; [|done].
      eapply provenance_calls; [|exact H2]. cbn. by apply prefix_app_r.
    + cbn [exec] in *.
      destruct (createTransfer_spec rt ad request quote w)
        as (r & x' & w' & E & Hs & Hc & H1 & H2 & H3).
      rewrite E in *. cbn [snd] in *. rewrite Hs in Hl.
      destruct (decide (Runtime.uuidv4 rt (World.uuidsDrawn w) = id)) as [<- | Hne].
      * rewrite lookup_insert_eq in Hl. injection Hl as <-.
        split; [done|]. split; [done|]. intros Hset. by rewrite H3 in Hset.
      * rewrite lookup_insert_ne in Hl by done.
        destruct (IH id x Hl) as (I1 & I2 & I3).
        split; [done|]. split; [|done]. by eapply provenance_calls.
    + exact (reachable_webhook_inv rt ad w (OpPaytechWebhook tid ev) tid eq_refl IH id x Hl).
    + exact (reachable_webhook_inv rt ad w (OpBridgeWebhook tid ev) tid eq_refl IH id x Hl).
    + exact (reachable_webhook_inv rt ad w (OpTempoWebhook tid ev) tid eq_refl IH id x Hl).
Qed.

(** * Sanity checks of the embedding *)

(** [toFixed] rounds the exact binary value: 1.005 is slightly below its
    decimal spelling, 8.345 slightly above, 0.125 is an exact tie. *)
Example toFixed_1_005 : Js.parseFloat_toFixed 2 1.005%float = 1%float.
Proof. reflexivity. Qed.

Example toFixed_8_345 : Js.parseFloat_toFixed 2 8.345%float = 8.35%float.
Proof. reflexivity. Qed.

Example toFixed_tie : Js.parseFloat_toFixed 2 0.125%float = 0.13%float.
Proof. reflexivity. Qed.

Example toFixed_small_negative : Js.parseFloat_toFixed 2 (-0.001)%float = (-0)%float.
Proof. reflexivity. Qed.

(** Lengths and positions of strings are counted in UTF-16 code units, not
    in the bytes of the encoding. *)
Example length_in_code_units :
  Js.length "US" = 2 /\ Js.length "é" = 1 /\ Js.length "éa" = 2
  /\ Js.length "😀" = 2 /\ String.length "éa" = 3.
Proof. repeat split. Qed.

Example slice_in_code_units :
  Js.slice0 12 "0xabcdef0123456789" = "0xabcdef0123" /\ Js.slice0 2 "éab" = "éa".
Proof. split; reflexivity. Qed.

(** A country name that [Object.prototype] has turns the fee into NaN; an
    unknown one falls back to the multiplier 1.5. *)
Example inherited_multiplier :
  is_nan (PaytechFeeQuote.fee (Paytech.getPaytechQuote 1000 USD "constructor"))
  = true
  /\ PaytechFeeQuote.fee (Paytech.getPaytechQuote 1000 USD "ZZ") = 7.5%float.
Proof. vm_compute. split; reflexivity. Qed.

(** [String(x)] prints the shortest digits that read back as [x];
    [parseFloat] reads the longest numeric prefix. *)
Example number_text :
  map Demo.numberToString
    [1000; 57286.6; 0.1 + 0.2; 1e21; 0.000001; 1e-7; -2.5; 5e-324]%float
  = ["1000"; "57286.6"; "0.30000000000000004"; "1e+21"; "0.000001"; "1e-7";
     "-2.5"; "5e-324"].
Proof. vm_compute. reflexivity. Qed.

Example parseFloat_prefix :
  map Demo.parseFloat ["986"; "986.50 USDC"; "  -.5e1"; "1e3"; "5."]
  = [986; 986.5; -5; 1000; 5]%float
  /\ map (fun s => is_nan (Demo.parseFloat s)) [""; "abc"; "."; "e5"]
     = [true; true; true; true].
Proof. vm_compute. split; reflexivity. Qed.

(** 1000 USD to PHP with the simulated providers: fees 5 + 1 + 8 and the
    platform's 5, and (1000 - 5 - 1 - 8) * 58.1 pesos delivered. *)
Example demo_quote_amounts :
  TransferQuote.receiveAmount Demo.quote = 57286.6%float
  /\ TransferQuote.exchangeRate Demo.quote = 57.2866%float
  /\ Fees.total (TransferQuote.fees Demo.quote) = 19%float.
Proof. vm_compute. repeat split. Qed.

(** The happy path of the specification: the statuses the timeline records. *)
Example happy_path_timeline :
  map TimelineEvent.status (Transfer.timeline (Run.stored Run.delivered))
  = [processing; processing; processing; processing; processing;
     bridging; converting; settling; completed]
  /\ Transfer.status (Run.stored Run.delivered) = completed.
Proof. vm_compute. split; reflexivity. Qed.

(** ... and the message of its last event. *)
Example happy_path_last_message :
  TimelineEvent.message <$> last (Transfer.timeline (Run.stored Run.delivered))
  = Some "✓ Transfer complete! 57286.6 PHP delivered to Ben Cruz.".
Proof. vm_compute. reflexivity. Qed.

(** With a clock that stands still, [updatedAt] is the last timestamp. *)
Example frozen_clock_agrees :
  timeline_agrees
    (Run.stored
       (exec Demo.frozen Demo.providers (OpCreateTransfer Demo.request Demo.quote)
          World.init)) = true.
Proof. vm_compute. reflexivity. Qed.

(** Under a clock that does not advance between two consecutive readings the
    invariant the code keeps is the one the specification words. *)
Lemma timeline_agrees_when_clock_stands rt x :
  (forall k, Runtime.clock rt (S k) = Runtime.clock rt k) ->
  timeline_consistent rt x -> timeline_agrees x = true.
Proof.
  intros Hclock (e & k & Hlast & Hst & Hts & Hup).
  unfold timeline_agrees. rewrite Hlast.
  rewrite !bool_decide_eq_true_2; [reflexivity | | assumption].
  by rewrite Hup, Hts, Hclock.
Qed.

(** * The operations in full *)

(** ** [createTransfer] *)

Lemma exec_create rt ad request quote w :
  exec rt ad (OpCreateTransfer request quote) w
  = snd (createTransfer rt ad request quote w).
Proof. reflexivity. Qed.

(** [createTransfer] in full: what it returns, what it stores and which
    calls it records, by the providers' answers. *)
Lemma createTransfer_outcome rt ad request quote w :
  exists r x k u,
    createTransfer rt ad request quote w
    = (r, World.mk (<[drawn_id rt w := x]> (World.transfers w)) k u
            (World.calls w ++ initiation_calls rt ad request quote w))
    /\ (World.clockReads w < k
        /\ Transfer.createdAt x = Runtime.clock rt (World.clockReads w))
    /\ World.uuidsDrawn w < u
    /\ match initiation rt ad request quote w with
       | Ok (b, p) => r = Ok x /\ created_shape rt request quote w b p x
       | Throw e => r = Throw e /\ failed_shape rt ad request quote w e x
       end.
Proof.
  unfold initiation, initiation_calls, created_shape, failed_shape,
    depositAddressCall, liquidationAddressCall, collectionCall, drawn_id.
  unfold createTransfer. run.
  destruct (Adapters.getTempoDepositAddress _ _ _ _) as [a|e]; run;
    [ rewrite length_app, Nat.add_1_r; cbn [length];
      destruct (Adapters.createBridgeLiquidationAddress _ _ _) as [b|e]; run;
      [ rewrite !length_app, !Nat.add_1_r; cbn [length Nat.add];
        destruct (Adapters.initiatePaytechTransfer _ _ _) as [p|e]; run | ] | ];
    rewrite <- ?app_assoc; cbn [app];
    (eexists _, _, _, _; split;
     [ rewrite insert_insert_eq; reflexivity |];
     split; [split; [lia | reflexivity]|]; split; [lia|];
     split; [reflexivity|]; eval_fields;
     cbn [TimelineEvent.message map app];
     repeat first
       [ split
       | reflexivity
       | eexists; split; [first [apply last_snoc | reflexivity]|] ]).
Qed.

(** ** The handlers, event by event *)

Ltac solve_frame :=
  rewrite <- ?app_assoc; cbn [app];
  eexists _, _; split; [reflexivity|]; eval_fields;
  split; [reflexivity|];
  split; [reflexivity|]; split; [reflexivity|]; split; [reflexivity|];
  split; [reflexivity|];
  split; [eexists; split; [first [reflexivity | symmetry; apply app_nil_r]
                          | reflexivity]|];
  split; [reflexivity|];
  split; [reflexivity|]; split; [reflexivity|]; split; [reflexivity|];
  split; [first [reflexivity | symmetry; apply app_nil_r]|];
  split; lia.

Lemma handlePaytechWebhook_frame rt ad id ev w x :
  World.transfers w !! id = Some x ->
  exists x' w',
    handlePaytechWebhook rt id ev w = (Ok tt, w')
    /\ World.transfers w' = <[id := x']> (World.transfers w)
    /\ webhook_frame rt ad (OpPaytechWebhook id ev) w w' x x'.
Proof.
  intros Hl. unfold handlePaytechWebhook. rewrite Hl.
  unfold webhook_frame, appended_statuses, webhook_calls.
  destruct x as [xid xst xq xr [l1 l2 l3] xtl xc xu xco].
  destruct (String.eqb (PaytechEvent.status ev) "settled");
    [| destruct (String.eqb (PaytechEvent.status ev) "failed")];
    destruct l1 as [l1|]; run; solve_frame.
Qed.

Lemma handleTempoWebhook_frame rt ad id ev w x :
  World.transfers w !! id = Some x ->
  exists x' w',
    handleTempoWebhook rt id ev w = (Ok tt, w')
    /\ World.transfers w' = <[id := x']> (World.transfers w)
    /\ webhook_frame rt ad (OpTempoWebhook id ev) w w' x x'.
Proof.
  intros Hl. unfold handleTempoWebhook. rewrite Hl.
  unfold webhook_frame, appended_statuses, webhook_calls.
  destruct x as [xid xst xq xr [l1 l2 l3] xtl xc xu xco].
  destruct (String.eqb (TempoEvent.status ev) "settled");
    [| destruct (String.eqb (TempoEvent.status ev) "completed");
       [| destruct (String.eqb (TempoEvent.status ev) "failed");
          [| destruct (String.eqb (TempoEvent.status ev) "rejected")]]];
    destruct l3 as [l3|]; run; solve_frame.
Qed.

Lemma handleBridgeWebhook_frame rt ad id ev w x :
  World.transfers w !! id = Some x ->
  exists x' w',
    handleBridgeWebhook rt ad id ev w = (Ok tt, w')
    /\ World.transfers w' = <[id := x']> (World.transfers w)
    /\ webhook_frame rt ad (OpBridgeWebhook id ev) w w' x x'.
Proof.
  intros Hl. unfold handleBridgeWebhook. rewrite Hl.
  unfold webhook_frame, appended_statuses, webhook_calls, bridge_acts,
    leg3_initiation_ok, leg3QuoteCall, leg3PaymentCall.
  destruct x as [xid xst xq xr [l1 l2 l3] xtl xc xu xco]. eval_fields.
  destruct (String.eqb (BridgeEvent.state ev) "payment_processed");
    [| run; solve_frame].
  destruct l2 as [l2|]; destruct l3 as [l3|]; run;
    (destruct (Adapters.getTempoQuote _ _ _ _ _) as [q|e]; run;
     [ rewrite length_app, Nat.add_1_r; cbn [length];
       destruct (Adapters.createTempoPayment _ _ _) as [r|e]; run |]);
    solve_frame.
Qed.

(** One delivery, for the transfer it addresses. *)
Lemma webhook_frame_exec rt ad o id w x :
  op_target o = Some id ->
  World.transfers w !! id = Some x ->
  exists x',
    World.transfers (exec rt ad o w) = <[id := x']> (World.transfers w)
    /\ webhook_frame rt ad o w (exec rt ad o w) x x'.
Proof.
  intros Ht Hl.
  destruct o as [| | tid ev | tid ev | tid ev]; try discriminate;
    injection Ht as ->; cbn [exec].
  - destruct (handlePaytechWebhook_frame rt ad id ev w x Hl)
      as (x' & w' & -> & ?); eauto.
  - destruct (handleBridgeWebhook_frame rt ad id ev w x Hl)
      as (x' & w' & -> & ?); eauto.
  - destruct (handleTempoWebhook_frame rt ad id ev w x Hl)
      as (x' & w' & -> & ?); eauto.
Qed.

Lemma handlePaytechWebhook_legs rt id ev w x :
  World.transfers w !! id = Some x ->
  exists x',
    World.transfers (snd (handlePaytechWebhook rt id ev w)) !! id = Some x'
    /\ Transfer.legs x' = paytech_legs rt ev w x.
Proof.
  intros Hl. unfold handlePaytechWebhook, paytech_legs. rewrite Hl.
  destruct x as [xid xst xq xr [l1 l2 l3] xtl xc xu xco].
  destruct (String.eqb (PaytechEvent.status ev) "settled");
    [| destruct (String.eqb (PaytechEvent.status ev) "failed")];
    destruct l1 as [l1|]; run;
    (eexists; split; [apply lookup_insert_eq | reflexivity]).
Qed.

Lemma handleTempoWebhook_legs rt id ev w x :
  World.transfers w !! id = Some x ->
  exists x',
    World.transfers (snd (handleTempoWebhook rt id ev w)) !! id = Some x'
    /\ Transfer.legs x' = tempo_legs rt ev w x.
Proof.
  intros Hl. unfold handleTempoWebhook, tempo_legs. rewrite Hl.
  destruct x as [xid xst xq xr [l1 l2 l3] xtl xc xu xco].
  destruct (String.eqb (TempoEvent.status ev) "settled");
    [| destruct (String.eqb (TempoEvent.status ev) "completed");
       [| destruct (String.eqb (TempoEvent.status ev) "failed");
          [| destruct (String.eqb (TempoEvent.status ev) "rejected")]]];
    destruct l3 as [l3|]; run;
    (eexists; split; [apply lookup_insert_eq | reflexivity]).
Qed.

Lemma handleBridgeWebhook_started rt ad id ev w x q r :
  World.transfers w !! id = Some x ->
  BridgeEvent.state ev = "payment_processed" ->
  leg3QuoteCall rt ad ev w x = Ok q ->
  leg3PaymentCall rt ad id w x q = Ok r ->
  exists x',
    World.transfers (snd (handleBridgeWebhook rt ad id ev w)) !! id = Some x'
    /\ leg3_started rt ev w r x x'.
Proof.
  intros Hl Hs. unfold handleBridgeWebhook. rewrite Hl, Hs.
  cbn [String.eqb Ascii.eqb Bool.eqb].
  unfold leg3_started, leg3QuoteCall, leg3PaymentCall.
  destruct x as [xid xst xq xr [l1 l2 l3] xtl xc xu xco]. eval_fields.
  intros Hq Hp.
  destruct l2 as [l2|]; destruct l3 as [l3|]; run; rewrite Hq; run;
    rewrite length_app, Nat.add_1_r; cbn [length]; rewrite Hp; run;
    (eexists; split; [apply lookup_insert_eq|]; eval_fields;
     split; [reflexivity|]; split; [reflexivity|]; split; [reflexivity|];
     first [exists 0%Z; reflexivity | eexists; reflexivity]).
Qed.

(** An operation leaves every entry it does not write as it was. *)
Lemma exec_other_entry rt ad o w id :
  written_key rt o w <> Some id ->
  World.transfers (exec rt ad o w) !! id = World.transfers w !! id.
Proof.
  intros Hk.
  destruct o as [request | request quote | tid ev | tid ev | tid ev];
    cbn [written_key op_target] in Hk.
  - cbn [exec].
    destruct (getTransferQuote_run rt ad request w) as (r & k & u & E & _).
    by rewrite E.
  - cbn [exec].
    destruct (createTransfer_outcome rt ad request quote w)
      as (r & x & k & u & E & _).
    rewrite E. cbn [snd World.transfers]. apply lookup_insert_ne. congruence.
  - destruct (webhook_exec rt ad (OpPaytechWebhook tid ev) tid w eq_refl)
      as [[_ ->] | (x & x' & _ & -> & _)]; [done|].
    apply lookup_insert_ne. congruence.
  - destruct (webhook_exec rt ad (OpBridgeWebhook tid ev) tid w eq_refl)
      as [[_ ->] | (x & x' & _ & -> & _)]; [done|].
    apply lookup_insert_ne. congruence.
  - destruct (webhook_exec rt ad (OpTempoWebhook tid ev) tid w eq_refl)
      as [[_ ->] | (x & x' & _ & -> & _)]; [done|].
    apply lookup_insert_ne. congruence.
Qed.


(** ** What the operations write on the legs *)

Lemma exec_paytech rt ad id ev w :
  exec rt ad (OpPaytechWebhook id ev) w = snd (handlePaytechWebhook rt id ev w).
Proof. reflexivity. Qed.

Lemma exec_bridge rt ad id ev w :
  exec rt ad (OpBridgeWebhook id ev) w = snd (handleBridgeWebhook rt ad id ev w).
Proof. reflexivity. Qed.

Lemma exec_tempo rt ad id ev w :
  exec rt ad (OpTempoWebhook id ev) w = snd (handleTempoWebhook rt id ev w).
Proof. reflexivity. Qed.

Lemma handleBridgeWebhook_legs rt ad id ev w x :
  World.transfers w !! id = Some x ->
  exists x',
    World.transfers (snd (handleBridgeWebhook rt ad id ev w)) !! id = Some x'
    /\ bridge_legs rt ad id ev w x (Transfer.legs x').
Proof.
  intros Hl. unfold handleBridgeWebhook. rewrite Hl.
  unfold bridge_legs, leg3_initiation, leg3QuoteCall, leg3PaymentCall.
  destruct x as [xid xst xq xr [l1 l2 l3] xtl xc xu xco]. eval_fields.
  destruct (String.eqb (BridgeEvent.state ev) "payment_processed");
    [| run; eexists; split; [apply lookup_insert_eq | reflexivity]].
  destruct l2 as [l2|]; destruct l3 as [l3|]; run;
    (destruct (Adapters.getTempoQuote _ _ _ _ _) as [q|e]; run;
     [ rewrite length_app, Nat.add_1_r; cbn [length];
       destruct (Adapters.createTempoPayment _ _ _) as [r|e]; run |]);
    (eexists; split; [apply lookup_insert_eq|]; eval_fields;
     split; [reflexivity|]; split; [reflexivity|];
     first [reflexivity | exists 0%Z; reflexivity | eexists; reflexivity]).
Qed.

(** One delivery, for the transfer it addresses: the frame, the statuses
    and the ids. *)
Lemma webhook_writes rt ad o id w x :
  op_target o = Some id ->
  World.transfers w !! id = Some x ->
  exists x',
    World.transfers (exec rt ad o w) = <[id := x']> (World.transfers w)
    /\ webhook_frame rt ad o w (exec rt ad o w) x x'
    /\ (status_written (leg1_written o)
          (Legs.leg1 (Transfer.legs x)) (Legs.leg1 (Transfer.legs x'))
        /\ status_written (leg2_written o)
             (Legs.leg2 (Transfer.legs x)) (Legs.leg2 (Transfer.legs x'))
        /\ status_written (leg3_written rt ad o w x)
             (Legs.leg3 (Transfer.legs x)) (Legs.leg3 (Transfer.legs x')))
    /\ (id_written None
          (Legs.leg1 (Transfer.legs x)) (Legs.leg1 (Transfer.legs x'))
        /\ id_written None
             (Legs.leg2 (Transfer.legs x)) (Legs.leg2 (Transfer.legs x'))
        /\ id_written (leg3_id_written rt ad o w x)
             (Legs.leg3 (Transfer.legs x)) (Legs.leg3 (Transfer.legs x'))).
Proof.
  intros Ht Hl.
  destruct (webhook_frame_exec rt ad o id w x Ht Hl) as (x' & Hs & Hf).
  exists x'. split; [exact Hs|]. split; [exact Hf|].
  assert (Hx' : World.transfers (exec rt ad o w) !! id = Some x')
    by (rewrite Hs; apply lookup_insert_eq).
  clear Hs Hf.
  unfold status_written, id_written.
  destruct o as [| | tid ev | tid ev | tid ev]; try discriminate;
    injection Ht as ->.
  - rewrite exec_paytech in Hx'.
    destruct (handlePaytechWebhook_legs rt id ev w x Hl) as (y & Hy & Hlegs).
    rewrite Hx' in Hy. injection Hy as <-. rewrite Hlegs.
    unfold paytech_legs, leg1_written, leg2_written, leg3_written,
      leg3_id_written.
    destruct (Transfer.legs x) as [[l1|] [l2|] [l3|]];
      destruct (String.eqb (PaytechEvent.status ev) "settled");
      try destruct (String.eqb (PaytechEvent.status ev) "failed");
      repeat split.
  - rewrite exec_bridge in Hx'.
    destruct (handleBridgeWebhook_legs rt ad id ev w x Hl) as (y & Hy & Hlegs).
    rewrite Hx' in Hy. injection Hy as <-.
    unfold bridge_legs in Hlegs.
    unfold leg1_written, leg2_written, leg3_written, leg3_id_written.
    destruct (String.eqb (BridgeEvent.state ev) "payment_processed").
    + destruct Hlegs as (-> & -> & H3).
      destruct (leg3_initiation rt ad id ev w x) as [r|e].
      * destruct H3 as [started ->].
        destruct (Transfer.legs x) as [[l1|] [l2|] [l3|]]; repeat split.
      * rewrite H3.
        destruct (Transfer.legs x) as [[l1|] [l2|] [l3|]]; repeat split.
    + rewrite Hlegs.
      destruct (Transfer.legs x) as [[l1|] [l2|] [l3|]]; repeat split.
  - rewrite exec_tempo in Hx'.
    destruct (handleTempoWebhook_legs rt id ev w x Hl) as (y & Hy & Hlegs).
    rewrite Hx' in Hy. injection Hy as <-. rewrite Hlegs.
    unfold tempo_legs, leg1_written, leg2_written, leg3_written,
      leg3_id_written.
    destruct (Transfer.legs x) as [[l1|] [l2|] [l3|]];
      destruct (String.eqb (TempoEvent.status ev) "settled");
      destruct (String.eqb (TempoEvent.status ev) "completed");
      destruct (String.eqb (TempoEvent.status ev) "failed");
      destruct (String.eqb (TempoEvent.status ev) "rejected");
      repeat split.
Qed.

(** The statuses written are among the moves of [leg_moves]. *)
Lemma status_written_moves p s old new :
  status_written s old new ->
  (forall t, s = Some t -> leg_moves p t t = true
                          /\ forall a, leg_moves p a t = true) ->
  match old, new with
  | Some l, Some l' => leg_moves p (LegStatus.status l) (LegStatus.status l')
  | None, None => true
  | _, _ => false
  end = true.
Proof.
  unfold status_written. intros H Hs.
  destruct old as [l|], new as [l'|]; try discriminate; [|reflexivity].
  injection H as ->. destruct s as [t|]; cbn.
  - apply (Hs t eq_refl).
  - unfold leg_moves. by destruct (LegStatus.status l).
Qed.

Lemma legs_written_move rt ad o w id x x' :
  legs_written rt ad o w id x x' ->
  legs_move (Transfer.legs x) (Transfer.legs x') = true.
Proof.
  unfold legs_written, legs_move. case_bool_decide.
  - intros (H1 & H2 & H3).
    rewrite (status_written_moves paytech _ _ _ H1),
      (status_written_moves bridge _ _ _ H2),
      (status_written_moves tempo _ _ _ H3); [reflexivity | | |].
    + intros t Ht. unfold leg3_written in Ht.
      repeat case_match; try discriminate; injection Ht as <-;
        (split; [reflexivity | by intros []]).
    + intros t Ht. unfold leg2_written in Ht.
      repeat case_match; try discriminate; injection Ht as <-;
        (split; [reflexivity | by intros []]).
    + intros t Ht. unfold leg1_written in Ht.
      repeat case_match; try discriminate; injection Ht as <-;
        (split; [reflexivity | by intros []]).
  - intros ->. destruct (Transfer.legs x) as [[l1|] [l2|] [l3|]]; cbn;
      unfold leg_moves;
      repeat match goal with
        | |- context [LegStatus.status ?l] => destruct (LegStatus.status l)
        end; reflexivity.
Qed.

(** A delivery seen from any stored transfer: what it writes on the legs. *)
Lemma webhook_legs_written rt ad o w id x :
  is_webhook o = true ->
  World.transfers w !! id = Some x ->
  exists x',
    World.transfers (exec rt ad o w) !! id = Some x'
    /\ legs_written rt ad o w id x x'.
Proof.
  intros Hw Hl. unfold legs_written. case_bool_decide as Ht.
  - destruct (webhook_writes rt ad o id w x Ht Hl) as (x' & Hs & _ & Hst & _).
    exists x'. split; [rewrite Hs; apply lookup_insert_eq | exact Hst].
  - exists x. split; [| reflexivity].
    rewrite exec_other_entry; [exact Hl|].
    destruct o; try discriminate; cbn [written_key]; exact Ht.
Qed.

(** ** Where the ids of the legs come from *)

(** [createTransfer]: the ids of the stored transfer are those its own calls
    returned. *)
Lemma createTransfer_ids rt ad request quote w :
  exists x,
    World.transfers (exec rt ad (OpCreateTransfer request quote) w)
    = <[drawn_id rt w := x]> (World.transfers w)
    /\ leg_ids x = created_ids rt ad request quote w.
Proof.
  rewrite exec_create.
  destruct (createTransfer_outcome rt ad request quote w)
    as (r & x & k & u & -> & _ & _ & Hshape).
  exists x. cbn [snd World.transfers]. split; [reflexivity|].
  unfold initiation, created_ids, created_shape, failed_shape, leg_ids in *.
  destruct (depositAddressCall rt ad quote w) as [a|e1].
  - destruct (liquidationAddressCall rt ad quote w a) as [b|e2].
    + destruct (collectionCall rt ad request quote w b) as [p|e3].
      * destruct Hshape as (_ & _ & _ & _ & _ & _ & _ & _ & L1 & L2 & L3).
        by rewrite L1, L2, L3.
      * destruct Hshape as (_ & _ & _ & _ & _ & _ & _ & _ & L1 & L3 & L2).
        by rewrite L1, L2, L3.
    + destruct Hshape as (_ & _ & _ & _ & _ & _ & _ & _ & L1 & L3 & L2).
      by rewrite L1, L2, L3.
  - destruct Hshape as (_ & _ & _ & _ & _ & _ & _ & _ & L1 & L3 & L2).
    by rewrite L1, L2, L3.
Qed.

(** What an operation leaves of the leg ids of a transfer found in the
    store afterwards. *)
Lemma exec_externalId_written rt ad o w id x' :
  World.transfers (exec rt ad o w) !! id = Some x' ->
  externalId_written rt ad o w id x'.
Proof.
  intros Hl. unfold externalId_written.
  destruct o as [request | request quote | tid ev | tid ev | tid ev].
  - rewrite exec_other_entry in Hl; [exact Hl | discriminate].
  - case_bool_decide as Hid.
    + subst id.
      destruct (createTransfer_ids rt ad request quote w) as (x & Hs & Hids).
      rewrite Hs, lookup_insert_eq in Hl. by injection Hl as <-.
    + rewrite exec_other_entry in Hl; [exact Hl|].
      cbn [written_key]. congruence.
  - destruct (World.transfers w !! id) as [x|] eqn:Hl0.
    + exists x. split; [reflexivity|]. case_bool_decide as Ht.
      * destruct (webhook_writes rt ad _ id w x Ht Hl0) as (y & Hs & _ & _ & Hi).
        rewrite Hs, lookup_insert_eq in Hl. by injection Hl as <-.
      * rewrite exec_other_entry in Hl; [congruence | exact Ht].
    + destruct (decide (tid = id)) as [-> | Hne].
      * rewrite exec_paytech, handlePaytechWebhook_not_found in Hl by done.
        cbn [snd] in Hl. congruence.
      * rewrite exec_other_entry in Hl; [congruence | cbn; congruence].
  - destruct (World.transfers w !! id) as [x|] eqn:Hl0.
    + exists x. split; [reflexivity|]. case_bool_decide as Ht.
      * destruct (webhook_writes rt ad _ id w x Ht Hl0) as (y & Hs & _ & _ & Hi).
        rewrite Hs, lookup_insert_eq in Hl. by injection Hl as <-.
      * rewrite exec_other_entry in Hl; [congruence | exact Ht].
    + destruct (decide (tid = id)) as [-> | Hne].
      * rewrite exec_bridge, handleBridgeWebhook_not_found in Hl by done.
        cbn [snd] in Hl. congruence.
      * rewrite exec_other_entry in Hl; [congruence | cbn; congruence].
  - destruct (World.transfers w !! id) as [x|] eqn:Hl0.
    + exists x. split; [reflexivity|]. case_bool_decide as Ht.
      * destruct (webhook_writes rt ad _ id w x Ht Hl0) as (y & Hs & _ & _ & Hi).
        rewrite Hs, lookup_insert_eq in Hl. by injection Hl as <-.
      * rewrite exec_other_entry in Hl; [congruence | exact Ht].
    + destruct (decide (tid = id)) as [-> | Hne].
      * rewrite exec_tempo, handleTempoWebhook_not_found in Hl by done.
        cbn [snd] in Hl. congruence.
      * rewrite exec_other_entry in Hl; [congruence | cbn; congruence].
Qed.

(** * The claims *)

Lemma reachable_created : reachable Demo.ticking Demo.providers Run.created.
Proof. apply reachable_step, reachable_init. Qed.

Lemma reachable_delivered : reachable Demo.ticking Demo.providers Run.delivered.
Proof.
  unfold Run.delivered, Run.collected, exec_all. cbn [fold_left].
  do 3 apply reachable_step. apply reachable_created.
Qed.

(** C1. Given the three leg quotes the adapters return, [getTransferQuote]
    returns a quote whose receive amount is the chained formula
    [((send - leg1.fee) * leg2.rate - leg2.fee - leg3.fee) * leg3.rate],
    whose platform fee is [send * PLATFORM_FEE_BPS / 10000] and is added on
    top of the three provider fees in the total, and in which rounding
    (2 decimals for amounts, 6 for rates) is applied to the reported fields
    only, never inside the chain. *)
Theorem getTransferQuote_chained_formula rt ad request w pq bq tq :
  paytechQuoteCall ad request w = Ok pq ->
  bridgeQuoteCall ad request w = Ok bq ->
  tempoQuoteCall ad request w = Ok tq ->
  exists q,
    fst (getTransferQuote rt ad request w) = Ok q
    /\ quote_follows_formula rt request pq bq tq q.
Proof.
  intros Hp Hb Ht.
  destruct (getTransferQuote_run rt ad request w) as (r & k & u & E & Hr).
  rewrite Hp, Hb, Ht in Hr. destruct Hr as (q & -> & Hq).
  exists q. rewrite E. auto.
Qed.

Lemma getTransferQuote_chained_formula_witness :
  exists q,
    fst (getTransferQuote Demo.ticking Demo.providers Demo.quoteRequest World.init)
    = Ok q
    /\ quote_follows_formula Demo.ticking Demo.quoteRequest
         (Paytech.getPaytechQuote 1000%float USD "US")
         (Bridge.getBridgeQuote 1000%float USD USDC base)
         (Tempo.getTempoQuote 1700000000002%Z 1700000000002%Z
            (1000 * 1.0)%float PHP "PH") q.
Proof.
  apply (getTransferQuote_chained_formula Demo.ticking Demo.providers
           Demo.quoteRequest World.init); reflexivity.
Defined.

(** C5. If any one of the three leg-quote calls rejects, [getTransferQuote]
    throws: it returns no quote, partial or default-filled. *)
Theorem getTransferQuote_all_or_nothing rt ad request w :
  is_ok (paytechQuoteCall ad request w)
  && is_ok (bridgeQuoteCall ad request w)
  && is_ok (tempoQuoteCall ad request w) = false ->
  exists e, fst (getTransferQuote rt ad request w) = Throw e.
Proof.
  intros H.
  destruct (getTransferQuote_run rt ad request w) as (r & k & u & E & Hr).
  rewrite E. cbn [fst].
  destruct (paytechQuoteCall ad request w); [|exact Hr].
  destruct (bridgeQuoteCall ad request w); [|exact Hr].
  destruct (tempoQuoteCall ad request w); [discriminate | exact Hr].
Qed.

Lemma getTransferQuote_all_or_nothing_witness :
  exists e,
    fst (getTransferQuote Demo.ticking Demo.bridge_quote_down Demo.quoteRequest
           World.init) = Throw e.
Proof.
  apply (getTransferQuote_all_or_nothing Demo.ticking Demo.bridge_quote_down
           Demo.quoteRequest World.init).
  reflexivity.
Defined.

(** C7. For a transfer id absent from the store, each of the three webhook
    handlers throws the not-found error and leaves the module state, the
    store included, exactly as it was. *)
Theorem webhook_unknown_transfer rt ad w id :
  World.transfers w !! id = None ->
  (forall ev, handlePaytechWebhook rt id ev w
              = (Throw (JsError ("Transfer " ++ id ++ " not found")), w))
  /\ (forall ev, handleBridgeWebhook rt ad id ev w
                 = (Throw (JsError ("Transfer " ++ id ++ " not found")), w))
  /\ (forall ev, handleTempoWebhook rt id ev w
                 = (Throw (JsError ("Transfer " ++ id ++ " not found")), w)).
Proof.
  intros H. repeat split; intros ev.
  - by apply handlePaytechWebhook_not_found.
  - by apply handleBridgeWebhook_not_found.
  - by apply handleTempoWebhook_not_found.
Qed.

Lemma webhook_unknown_transfer_witness :
  (forall ev, handlePaytechWebhook Demo.ticking "uuid-404" ev Run.created
              = (Throw (JsError "Transfer uuid-404 not found"), Run.created))
  /\ (forall ev, handleBridgeWebhook Demo.ticking Demo.providers "uuid-404" ev
                   Run.created
                 = (Throw (JsError "Transfer uuid-404 not found"), Run.created))
  /\ (forall ev, handleTempoWebhook Demo.ticking "uuid-404" ev Run.created
                 = (Throw (JsError "Transfer uuid-404 not found"), Run.created)).
Proof.
  apply (webhook_unknown_transfer Demo.ticking Demo.providers Run.created "uuid-404").
  vm_compute. reflexivity.
Defined.

(** C10. A leg-1 webhook the handler acts on ('settled' or 'failed')
    delivered for a stored transfer without a leg-1 record still appends the
    timeline event and moves the transfer: to [bridging] on 'settled', to
    [failed] on 'failed'; only the leg-1 update is skipped. *)
Theorem paytech_webhook_without_leg1 rt w id x ev :
  World.transfers w !! id = Some x ->
  Legs.leg1 (Transfer.legs x) = None ->
  paytech_acts ev = true ->
  exists x',
    fst (handlePaytechWebhook rt id ev w) = Ok tt
    /\ World.transfers (snd (handlePaytechWebhook rt id ev w)) !! id = Some x'
    /\ moved_without_leg1 ev x x'.
Proof.
  intros Hl Hleg Hacts. unfold handlePaytechWebhook. rewrite Hl.
  unfold moved_without_leg1. unfold paytech_acts in Hacts.
  destruct x as [xid xst xq xr [l1 l2 l3] xtl xc xu xco].
  cbn [Transfer.legs Legs.leg1] in Hleg. subst l1.
  destruct (String.eqb (PaytechEvent.status ev) "settled");
    [| destruct (String.eqb (PaytechEvent.status ev) "failed"); [|discriminate]];
    run;
    (eexists; split; [reflexivity|]; split; [apply lookup_insert_eq|];
     eval_fields; split; [reflexivity|]; split; [reflexivity|];
     eexists; split; reflexivity).
Qed.

Lemma paytech_webhook_without_leg1_witness :
  exists x',
    fst (handlePaytechWebhook Demo.ticking Run.transferId
           Run.settled Run.rejected) = Ok tt
    /\ World.transfers
         (snd (handlePaytechWebhook Demo.ticking Run.transferId
                 Run.settled Run.rejected))
       !! Run.transferId = Some x'
    /\ moved_without_leg1 Run.settled
         (Run.stored Run.rejected) x'.
Proof.
  apply (paytech_webhook_without_leg1 Demo.ticking Run.rejected Run.transferId
           (Run.stored Run.rejected) Run.settled).
  - vm_compute. reflexivity.
  - vm_compute. reflexivity.
  - reflexivity.
Defined.

(** C6. When a leg-2 webhook with state 'payment_processed' is handled and
    leg-3 initiation throws, the handler still returns; the transfer ends
    [failed], leg 2 (when recorded) is [completed] with the delivered txHash,
    and the leg-3 record is what it was before the handler ran. *)
Theorem bridge_webhook_leg3_initiation_throws rt ad w id x ev :
  World.transfers w !! id = Some x ->
  BridgeEvent.state ev = "payment_processed" ->
  leg3_initiation_ok rt ad id ev w x = false ->
  exists x',
    fst (handleBridgeWebhook rt ad id ev w) = Ok tt
    /\ World.transfers (snd (handleBridgeWebhook rt ad id ev w)) !! id = Some x'
    /\ leg3_failure_outcome rt w ev x x'.
Proof.
  intros Hl Hs. unfold handleBridgeWebhook. rewrite Hl, Hs.
  cbn [String.eqb Ascii.eqb Bool.eqb].
  unfold leg3_failure_outcome, leg3_initiation_ok, leg3QuoteCall, leg3PaymentCall.
  destruct x as [xid xst xq xr [l1 l2 l3] xtl xc xu xco]. eval_fields.
  destruct l2 as [l2|]; run;
    (destruct (Adapters.getTempoQuote _ _ _ _ _) as [q|e]; run;
     [ rewrite length_app, Nat.add_1_r; cbn [length];
       destruct (Adapters.createTempoPayment _ _ _) as [r|e]; run;
       [ discriminate | intros _ ]
     | intros _ ];
     (eexists; split; [reflexivity|]; split; [apply lookup_insert_eq|];
      eval_fields; split; [reflexivity|];
      split; [eexists; split; [apply last_snoc | reflexivity]|];
      repeat split)).
Qed.

Lemma bridge_webhook_leg3_initiation_throws_witness :
  exists x',
    fst (handleBridgeWebhook Demo.ticking Demo.tempo_down Run.transferId
           (BridgeEvent.mk "payment_processed" "liq_1" (Some "0xabc") "986")
           Run.collected) = Ok tt
    /\ World.transfers
         (snd (handleBridgeWebhook Demo.ticking Demo.tempo_down Run.transferId
                 (BridgeEvent.mk "payment_processed" "liq_1" (Some "0xabc") "986")
                 Run.collected))
       !! Run.transferId = Some x'
    /\ leg3_failure_outcome Demo.ticking Run.collected
         (BridgeEvent.mk "payment_processed" "liq_1" (Some "0xabc") "986")
         (Run.stored Run.collected) x'.
Proof.
  apply (bridge_webhook_leg3_initiation_throws Demo.ticking Demo.tempo_down
           Run.collected Run.transferId (Run.stored Run.collected)
           (BridgeEvent.mk "payment_processed" "liq_1" (Some "0xabc") "986")).
  - vm_compute. reflexivity.
  - reflexivity.
  - vm_compute. reflexivity.
Defined.




(** C3, as stated, fails: after leg 1 has settled ([completed]), a leg-1
    'failed' webhook turns the leg's status to [failed]. *)
Lemma leg_status_regresses :
  reachable Demo.ticking Demo.providers Run.collected
  /\ LegStatus.status <$> Legs.leg1 (Transfer.legs (Run.stored Run.collected))
     = Some leg_completed
  /\ LegStatus.status <$> Legs.leg1 (Transfer.legs (Run.stored Run.refailed))
     = Some leg_failed
  /\ legs_forward (Transfer.legs (Run.stored Run.collected))
       (Transfer.legs (Run.stored Run.refailed)) = false.
Proof.
  split; [apply reachable_step, reachable_created|]. vm_compute. repeat split.
Qed.

(** C3, amended. A webhook delivery never creates or drops a leg record
    and leaves the legs of every transfer it does not address as they were.
    On the transfer it addresses it writes the leg statuses of this table,
    whatever they were before, and no other: leg 1 becomes [completed] on a
    leg-1 'settled' and [failed] on a leg-1 'failed'; leg 2 becomes
    [completed] on a leg-2 'payment_processed'; leg 3 becomes [processing]
    on a leg-2 'payment_processed' whose leg-3 initiation goes through,
    [completed] on a leg-3 'settled' or 'completed' and [failed] on a leg-3
    'failed' or 'rejected'.  So a leg that is pending or processing only
    moves forward along [pending -> processing -> {completed|failed}]
    (possibly past [processing]) and no leg returns to pending; a leg that
    is already completed or failed is overwritten: [completed <-> failed]
    on legs 1 and 3, [failed -> completed] on leg 2, back to [processing] on
    leg 3; leg 1 never becomes [processing] and leg 2 never [processing] or
    [failed]. *)
Theorem webhook_legs_advance rt ad w o id x :
  is_webhook o = true ->
  World.transfers w !! id = Some x ->
  exists x',
    World.transfers (exec rt ad o w) !! id = Some x'
    /\ legs_written rt ad o w id x x'
    /\ legs_move (Transfer.legs x) (Transfer.legs x') = true
    /\ legs_advance (Transfer.legs x) (Transfer.legs x') = true.
Proof.
  intros Hw Hl.
  destruct (webhook_legs_written rt ad o w id x Hw Hl) as (x' & Hl' & Hlegs).
  exists x'. split; [exact Hl'|]. split; [exact Hlegs|].
  split; [exact (legs_written_move rt ad o w id x x' Hlegs)|].
  destruct (webhook_any rt ad o w id x Hw Hl) as (y & Hy & Hadv & _).
  rewrite Hl' in Hy. by injection Hy as <-.
Qed.

Lemma webhook_legs_advance_witness :
  exists x',
    World.transfers
      (exec Demo.ticking Demo.providers
         (OpPaytechWebhook Run.transferId Run.settled)
         Run.created) !! Run.transferId = Some x'
    /\ legs_written Demo.ticking Demo.providers
         (OpPaytechWebhook Run.transferId Run.settled) Run.created
         Run.transferId (Run.stored Run.created) x'
    /\ legs_move (Transfer.legs (Run.stored Run.created)) (Transfer.legs x') = true
    /\ legs_advance (Transfer.legs (Run.stored Run.created)) (Transfer.legs x')
       = true.
Proof.
  apply (webhook_legs_advance Demo.ticking Demo.providers Run.created
           (OpPaytechWebhook Run.transferId Run.settled)
           Run.transferId (Run.stored Run.created)).
  - reflexivity.
  - vm_compute. reflexivity.
Defined.

(** C4, as stated, fails: [addEvent] reads the clock once for the event's
    timestamp and once more for [updatedAt]; when the clock advances between
    the two readings, [updatedAt] differs from the last event's timestamp. *)
Lemma updatedAt_differs_from_last_timestamp :
  reachable Demo.ticking Demo.providers Run.created
  /\ World.transfers Run.created !! Run.transferId = Some (Run.stored Run.created)
  /\ timeline_agrees (Run.stored Run.created) = false.
Proof.
  split; [apply reachable_created|]. vm_compute. split; reflexivity.
Qed.

(** C4, amended. For every transfer stored in a reachable state, the timeline
    is non-empty, [status] is the status of its last event, and [updatedAt]
    is the clock reading taken right after the one stamped on that event (so
    the two are equal whenever the clock did not advance in between). *)
Theorem timeline_consistent_reachable rt ad w id x :
  reachable rt ad w ->
  World.transfers w !! id = Some x ->
  timeline_consistent rt x.
Proof. intros Hr Hl. by destruct (reachable_inv rt ad w Hr id x Hl). Qed.

Lemma timeline_consistent_reachable_witness :
  timeline_consistent Demo.ticking (Run.stored Run.delivered).
Proof.
  apply (timeline_consistent_reachable Demo.ticking Demo.providers Run.delivered
           Run.transferId).
  - apply reachable_delivered.
  - vm_compute. reflexivity.
Defined.

(** C8, as stated, fails: [createTransfer] stores a leg-3 record with the
    placeholder [externalId] "tempo_pending_<transferId>" although no Tempo
    payment call has been made yet. *)
Lemma leg3_externalId_before_initiation :
  reachable Demo.ticking Demo.providers Run.created
  /\ LegStatus.externalId <$> Legs.leg3 (Transfer.legs (Run.stored Run.created))
     = Some "tempo_pending_uuid-0"
  /\ World.calls Run.created
     = [ (CallGetTempoDepositAddress, true);
         (CallCreateBridgeLiquidationAddress, true);
         (CallInitiatePaytechTransfer, true) ]
  /\ initiated Run.created (Run.stored Run.created) = false.
Proof.
  split; [apply reachable_created|]. vm_compute. repeat split.
Qed.

(** C8, amended. Where the [externalId] of a leg record comes from, for
    every transfer found in the store after an operation.  [createTransfer]
    gives the new transfer a leg-2 record exactly if its own deposit-address
    and liquidation-address calls resolved, with the id Bridge returned; a
    leg-1 record exactly if its own Pay.tech call resolved too, with the id
    Pay.tech returned; and then also the leg-3 record, with the placeholder
    "tempo_pending_<transferId>", before any Tempo payment call.  A webhook
    never creates or drops a leg record and never writes the id of leg 1 or
    leg 2; it replaces the id of leg 3 only when its own [createTempoPayment]
    call resolved (the leg-2 handler, on 'payment_processed'), by the id
    that call returned.  A quote, and any operation on another transfer,
    leaves the transfer as it was. *)
Theorem externalId_provenance_step rt ad w o id x :
  World.transfers (exec rt ad o w) !! id = Some x ->
  externalId_written rt ad o w id x.
Proof. exact (exec_externalId_written rt ad o w id x). Qed.

Lemma externalId_provenance_step_witness :
  externalId_written Demo.ticking Demo.providers
    (OpBridgeWebhook Run.transferId Run.processed) Run.collected Run.transferId
    (Run.stored
       (exec Demo.ticking Demo.providers
          (OpBridgeWebhook Run.transferId Run.processed) Run.collected)).
Proof.
  apply (externalId_provenance_step Demo.ticking Demo.providers
           Run.collected (OpBridgeWebhook Run.transferId Run.processed)
           Run.transferId).
  vm_compute. reflexivity.
Defined.

(** C9, as stated, fails: a second leg-3 completion webhook for a transfer
    that is already [completed] overwrites [completedAt] with a new clock
    reading. *)
Lemma completedAt_restamped :
  reachable Demo.ticking Demo.providers Run.delivered
  /\ Transfer.status (Run.stored Run.delivered) = completed
  /\ Transfer.completedAt (Run.stored Run.delivered) = Some 1700000000023%Z
  /\ Transfer.completedAt (Run.stored Run.redelivered) = Some 1700000000027%Z.
Proof.
  split; [apply reachable_delivered|]. vm_compute. repeat split.
Qed.

(** C9, amended. [completedAt] is written by the leg-3 handler only, on a
    'settled' or 'completed' webhook, together with the transition to
    [completed]: every such delivery, a repeated one included, stamps it with
    the clock reading taken just before the [completed] event is appended.
    No other webhook changes it, and in every reachable state a transfer
    that has [completedAt] set has a [completed] event in its timeline. *)
Theorem completedAt_follows_completion rt ad w o id x :
  reachable rt ad w ->
  is_webhook o = true ->
  World.transfers w !! id = Some x ->
  completion_recorded x
  /\ exists x',
       World.transfers (exec rt ad o w) !! id = Some x'
       /\ completedAt_step rt o id w x x'.
Proof.
  intros Hr Hw Hl. split.
  - by destruct (reachable_inv rt ad w Hr id x Hl) as (_ & _ & ?).
  - destruct (webhook_any rt ad o w id x Hw Hl) as (x' & H1 & _ & _ & H4).
    exists x'. split; [done|]. exact H4.
Qed.

Lemma completedAt_follows_completion_witness :
  completion_recorded (Run.stored Run.delivered)
  /\ exists x',
       World.transfers
         (exec Demo.ticking Demo.providers
            (OpTempoWebhook Run.transferId Run.completion)
            Run.delivered) !! Run.transferId = Some x'
       /\ completedAt_step Demo.ticking
            (OpTempoWebhook Run.transferId Run.completion)
            Run.transferId Run.delivered (Run.stored Run.delivered) x'.
Proof.
  apply (completedAt_follows_completion Demo.ticking Demo.providers Run.delivered
           (OpTempoWebhook Run.transferId Run.completion)
           Run.transferId (Run.stored Run.delivered)).
  - apply reachable_delivered.
  - reflexivity.
  - vm_compute. reflexivity.
Defined.

(** * Further properties of the code *)

Lemma initiation_calls_resolved rt ad request quote w b p :
  initiation rt ad request quote w = Ok (b, p) ->
  initiation_calls rt ad request quote w
  = [ (CallGetTempoDepositAddress, true);
      (CallCreateBridgeLiquidationAddress, true);
      (CallInitiatePaytechTransfer, true) ].
Proof.
  unfold initiation, initiation_calls.
  destruct (depositAddressCall _ _ _ _) as [a|]; [|discriminate].
  destruct (liquidationAddressCall _ _ _ _ _) as [b'|]; [|discriminate].
  destruct (collectionCall _ _ _ _ _ _) as [p'|]; [|discriminate].
  reflexivity.
Qed.

Lemma initiation_calls_rejected rt ad request quote w e :
  initiation rt ad request quote w = Throw e ->
  exists oks c,
    initiation_calls rt ad request quote w = (oks ++ [(c, false)])%list
    /\ Forall (fun p => p.2 = true) oks.
Proof.
  unfold initiation, initiation_calls.
  destruct (depositAddressCall _ _ _ _) as [a|].
  - destruct (liquidationAddressCall _ _ _ _ _) as [b'|].
    + destruct (collectionCall _ _ _ _ _ _) as [p'|]; [discriminate|].
      intros _. eexists [_; _], _. split; [reflexivity|]. by repeat constructor.
    + intros _. eexists [_], _. split; [reflexivity|]. by repeat constructor.
  - intros _. exists [], CallGetTempoDepositAddress. split; [reflexivity|]. constructor.
Qed.

(** X1. When the three provider calls resolve, [createTransfer] returns the
    new transfer, which is the one stored under the drawn id: [processing],
    five [processing] events, leg 1 processing with Pay.tech's id, leg 2
    pending with Bridge's id, leg 3 pending with the placeholder id; exactly
    the three calls are recorded. *)
Theorem createTransfer_resolves rt ad request quote w b p :
  initiation rt ad request quote w = Ok (b, p) ->
  exists t,
    fst (createTransfer rt ad request quote w) = Ok t
    /\ getTransfer (drawn_id rt w) (snd (createTransfer rt ad request quote w))
       = Some t
    /\ created_shape rt request quote w b p t
    /\ World.calls (snd (createTransfer rt ad request quote w))
       = (World.calls w
          ++ [ (CallGetTempoDepositAddress, true);
               (CallCreateBridgeLiquidationAddress, true);
               (CallInitiatePaytechTransfer, true) ])%list.
Proof.
  intros Hi.
  destruct (createTransfer_outcome rt ad request quote w)
    as (r & x & k & u & E & _ & _ & Hr).
  rewrite Hi in Hr. destruct Hr as [-> Hshape].
  exists x. rewrite E. cbn [fst snd World.calls]. unfold getTransfer.
  cbn [World.transfers]. rewrite lookup_insert_eq.
  by rewrite (initiation_calls_resolved _ _ _ _ _ _ _ Hi).
Qed.

Lemma createTransfer_resolves_witness :
  exists t,
    fst (createTransfer Demo.ticking Demo.providers Demo.request Demo.quote
           World.init) = Ok t
    /\ getTransfer (drawn_id Demo.ticking World.init)
         (snd (createTransfer Demo.ticking Demo.providers Demo.request Demo.quote
                 World.init)) = Some t
    /\ created_shape Demo.ticking Demo.request Demo.quote World.init
         (BridgeLiquidationAddress.mk "liq_1" "base" "usdc" "0xbeef" "uuid-0"
            "sepa" "php" "0xfeed")
         (PaytechTransferResponse.mk "pt_1" "submitted" 1000%float "USD" 0%float
            "soon" None) t
    /\ World.calls
         (snd (createTransfer Demo.ticking Demo.providers Demo.request Demo.quote
                 World.init))
       = (World.calls World.init
          ++ [ (CallGetTempoDepositAddress, true);
               (CallCreateBridgeLiquidationAddress, true);
               (CallInitiatePaytechTransfer, true) ])%list.
Proof.
  apply (createTransfer_resolves Demo.ticking Demo.providers Demo.request
           Demo.quote World.init).
  vm_compute. reflexivity.
Defined.

(** X2. When one of the provider calls rejects, [createTransfer] throws that
    same error, makes no further call, and leaves under the drawn id a
    [failed] transfer whose last event carries the error message; no leg-1
    or leg-3 record exists, and a leg-2 record exists only if the Bridge
    address had been obtained. *)
Theorem createTransfer_rejects rt ad request quote w e :
  initiation rt ad request quote w = Throw e ->
  fst (createTransfer rt ad request quote w) = Throw e
  /\ (exists x,
        getTransfer (drawn_id rt w) (snd (createTransfer rt ad request quote w))
        = Some x
        /\ failed_shape rt ad request quote w e x)
  /\ (exists oks c,
        World.calls (snd (createTransfer rt ad request quote w))
        = (World.calls w ++ oks ++ [(c, false)])%list
        /\ Forall (fun p => p.2 = true) oks).
Proof.
  intros Hi.
  destruct (createTransfer_outcome rt ad request quote w)
    as (r & x & k & u & E & _ & _ & Hr).
  rewrite Hi in Hr. destruct Hr as [-> Hshape].
  rewrite E. cbn [fst snd World.calls]. split; [reflexivity|]. split.
  - exists x. unfold getTransfer. cbn [World.transfers].
    by rewrite lookup_insert_eq.
  - destruct (initiation_calls_rejected _ _ _ _ _ _ Hi) as (oks & c & -> & Hoks).
    eauto.
Qed.

Lemma createTransfer_rejects_witness :
  fst (createTransfer Demo.ticking Run.bridge_down Demo.request Demo.quote
         World.init)
  = Throw (JsError "Bridge error creating liquidation address: {}")
  /\ (exists x,
        getTransfer (drawn_id Demo.ticking World.init)
          (snd (createTransfer Demo.ticking Run.bridge_down Demo.request
                  Demo.quote World.init)) = Some x
        /\ failed_shape Demo.ticking Run.bridge_down Demo.request Demo.quote
             World.init
             (JsError "Bridge error creating liquidation address: {}") x)
  /\ (exists oks c,
        World.calls
          (snd (createTransfer Demo.ticking Run.bridge_down Demo.request
                  Demo.quote World.init))
        = (World.calls World.init ++ oks ++ [(c, false)])%list
        /\ Forall (fun p => p.2 = true) oks).
Proof.
  apply (createTransfer_rejects Demo.ticking Run.bridge_down Demo.request
           Demo.quote World.init).
  vm_compute. reflexivity.
Defined.

(** X3. Every operation writes at most one entry of the store: the drawn id
    for [createTransfer], the addressed id for a webhook, none for a quote.
    Every other stored transfer is left exactly as it was. *)
Theorem operation_writes_one_entry rt ad o w id :
  written_key rt o w <> Some id ->
  getTransfer id (exec rt ad o w) = getTransfer id w.
Proof. exact (exec_other_entry rt ad o w id). Qed.

Lemma operation_writes_one_entry_witness :
  getTransfer Run.transferId
    (exec Demo.ticking Demo.providers (OpCreateTransfer Demo.request Demo.quote)
       Run.created)
  = getTransfer Run.transferId Run.created.
Proof.
  apply (operation_writes_one_entry Demo.ticking Demo.providers
           (OpCreateTransfer Demo.request Demo.quote) Run.created Run.transferId).
  vm_compute. discriminate.
Defined.

(** X4. No operation removes a transfer: [createTransfer] adds the drawn id
    to the keys of the store, every other operation leaves the set of keys
    as it is (a webhook neither creates nor deletes a transfer). *)
Theorem store_keys rt ad o w :
  dom (World.transfers (exec rt ad o w)) = keys_after rt o w.
Proof.
  destruct o as [request | request quote | tid ev | tid ev | tid ev];
    cbn [keys_after].
  - cbn [exec].
    destruct (getTransferQuote_run rt ad request w) as (r & k & u & E & _).
    by rewrite E.
  - cbn [exec].
    destruct (createTransfer_outcome rt ad request quote w)
      as (r & x & k & u & E & _).
    rewrite E. cbn [snd World.transfers]. apply dom_insert_L.
  - destruct (webhook_exec rt ad (OpPaytechWebhook tid ev) tid w eq_refl)
      as [[_ ->] | (x & x' & Hl & -> & _)]; [done|].
    apply dom_insert_lookup_L. eauto.
  - destruct (webhook_exec rt ad (OpBridgeWebhook tid ev) tid w eq_refl)
      as [[_ ->] | (x & x' & Hl & -> & _)]; [done|].
    apply dom_insert_lookup_L. eauto.
  - destruct (webhook_exec rt ad (OpTempoWebhook tid ev) tid w eq_refl)
      as [[_ ->] | (x & x' & Hl & -> & _)]; [done|].
    apply dom_insert_lookup_L. eauto.
Qed.

Lemma observable_last rt ad o w x :
  observable_status (Transfer.status x) = true ->
  observable_status
    (List.last (appended_statuses rt ad o w x) (Transfer.status x)) = true.
Proof.
  intros Hx. destruct o as [| | tid ev | tid ev | tid ev]; cbn; try done.
  - by repeat case_match.
  - by repeat case_match.
  - by repeat case_match.
Qed.

Lemma webhook_frame_well_formed rt ad o w w' key x x' :
  webhook_frame rt ad o w w' x x' -> well_formed key x -> well_formed key x'.
Proof.
  intros (Hid & _ & _ & _ & (evs & Htl & _) & Hst & P1 & P2 & P3 & _)
         (Wid & Wst & Whd & W1 & W2 & W3).
  unfold well_formed. rewrite Hid, Hst, Htl, P1, P2, P3.
  split; [done|]. split; [by apply observable_last|].
  split; [|done].
  destruct (Transfer.timeline x); [discriminate | done].
Qed.

Ltac solve_member :=
  cbn [fmap option_fmap option_map];
  repeat first [ apply list_elem_of_here | apply list_elem_of_further ].

Lemma reachable_well_formed rt ad w :
  reachable rt ad w ->
  forall id x, World.transfers w !! id = Some x -> well_formed id x.
Proof.
  induction 1 as [| w o Hr IH]; intros id x Hl.
  - cbn in Hl. by rewrite lookup_empty in Hl.
  - destruct (decide (written_key rt o w = Some id)) as [Hk | Hk].
    + destruct o as [request | request quote | tid ev | tid ev | tid ev];
        cbn [written_key op_target] in Hk; try discriminate.
      * injection Hk as <-. rewrite exec_create in Hl.
        destruct (createTransfer_outcome rt ad request quote w)
          as (r & x' & k & u & E & _ & _ & Hr').
        rewrite E in Hl. cbn [snd World.transfers] in Hl.
        rewrite lookup_insert_eq in Hl. injection Hl as ->.
        destruct (initiation rt ad request quote w) as [[b p]|e].
        -- destruct Hr' as (_ & Hid & Hst & _ & _ & _ & _ & Htl & L1 & L2 & L3).
           unfold well_formed. rewrite Hid, Hst, Htl, L1, L2, L3.
           split; [done|]. split; [done|]. split; [done|].
           split; [solve_member|]. split; solve_member.
        -- destruct Hr' as (_ & Hid & Hst & _ & _ & _ & Hhd & _ & L1 & L3 & L2).
           unfold well_formed. rewrite Hid, Hst, Hhd, L1, L2, L3.
           split; [done|]. split; [done|]. split; [done|].
           split; [solve_member|]. split; [|solve_member].
           repeat case_match; solve_member.
      * injection Hk as ->.
        destruct (World.transfers w !! id) as [x0|] eqn:Hl0.
        -- destruct (webhook_frame_exec rt ad (OpPaytechWebhook id ev) id w x0
                       eq_refl Hl0) as (x' & Hs & Hf).
           rewrite Hs, lookup_insert_eq in Hl. injection Hl as <-.
           eapply webhook_frame_well_formed; eauto.
        -- destruct (webhook_exec rt ad (OpPaytechWebhook id ev) id w eq_refl)
             as [[_ E] | (x1 & _ & ? & _)]; [|congruence].
           rewrite E in Hl. congruence.
      * injection Hk as ->.
        destruct (World.transfers w !! id) as [x0|] eqn:Hl0.
        -- destruct (webhook_frame_exec rt ad (OpBridgeWebhook id ev) id w x0
                       eq_refl Hl0) as (x' & Hs & Hf).
           rewrite Hs, lookup_insert_eq in Hl. injection Hl as <-.
           eapply webhook_frame_well_formed; eauto.
        -- destruct (webhook_exec rt ad (OpBridgeWebhook id ev) id w eq_refl)
             as [[_ E] | (x1 & _ & ? & _)]; [|congruence].
           rewrite E in Hl. congruence.
      * injection Hk as ->.
        destruct (World.transfers w !! id) as [x0|] eqn:Hl0.
        -- destruct (webhook_frame_exec rt ad (OpTempoWebhook id ev) id w x0
                       eq_refl Hl0) as (x' & Hs & Hf).
           rewrite Hs, lookup_insert_eq in Hl. injection Hl as <-.
           eapply webhook_frame_well_formed; eauto.
        -- destruct (webhook_exec rt ad (OpTempoWebhook id ev) id w eq_refl)
             as [[_ E] | (x1 & _ & ? & _)]; [|congruence].
           rewrite E in Hl. congruence.
    + apply IH. by rewrite <- (exec_other_entry rt ad o w id Hk).
Qed.

(** X5. In every reachable state each stored transfer is filed under its own
    id, is in one of the statuses [processing], [bridging], [settling],
    [completed], [failed] (never [pending], [kyc_required], [converting] or
    [cancelled]), has the [processing] event of its creation as first
    timeline event, and each leg record is owned by that leg's provider. *)
Theorem well_formed_reachable rt ad w id x :
  reachable rt ad w ->
  getTransfer id w = Some x ->
  well_formed id x.
Proof. intros Hr Hl. exact (reachable_well_formed rt ad w Hr id x Hl). Qed.

Lemma well_formed_reachable_witness :
  well_formed Run.transferId (Run.stored Run.delivered).
Proof.
  apply (well_formed_reachable Demo.ticking Demo.providers Run.delivered
           Run.transferId).
  - apply reachable_delivered.
  - vm_compute. reflexivity.
Defined.

(** X6. A webhook delivery never rewrites what a transfer was created with:
    the id, the quote, the request and [createdAt] of the addressed transfer
    are unchanged, and its timeline only grows at the end. *)
Theorem webhook_keeps_terms rt ad o id w x :
  op_target o = Some id ->
  getTransfer id w = Some x ->
  exists x',
    getTransfer id (exec rt ad o w) = Some x'
    /\ Transfer.id x' = Transfer.id x
    /\ Transfer.quote x' = Transfer.quote x
    /\ Transfer.request x' = Transfer.request x
    /\ Transfer.createdAt x' = Transfer.createdAt x
    /\ Transfer.timeline x `prefix_of` Transfer.timeline x'.
Proof.
  intros Ht Hl.
  destruct (webhook_frame_exec rt ad o id w x Ht Hl)
    as (x' & Hs & Hid & Hq & Hr & Hc & (evs & Htl & _) & _).
  exists x'. unfold getTransfer. rewrite Hs, lookup_insert_eq.
  repeat (split; [done|]). by exists evs.
Qed.

Lemma webhook_keeps_terms_witness :
  exists x',
    getTransfer Run.transferId
      (exec Demo.ticking Demo.providers
         (OpBridgeWebhook Run.transferId Run.processed) Run.collected) = Some x'
    /\ Transfer.id x' = Transfer.id (Run.stored Run.collected)
    /\ Transfer.quote x' = Transfer.quote (Run.stored Run.collected)
    /\ Transfer.request x' = Transfer.request (Run.stored Run.collected)
    /\ Transfer.createdAt x' = Transfer.createdAt (Run.stored Run.collected)
    /\ Transfer.timeline (Run.stored Run.collected) `prefix_of` Transfer.timeline x'.
Proof.
  apply (webhook_keeps_terms Demo.ticking Demo.providers
           (OpBridgeWebhook Run.transferId Run.processed) Run.transferId
           Run.collected (Run.stored Run.collected)).
  - reflexivity.
  - vm_compute. reflexivity.
Defined.

(** X7. The transition table of the handlers.  A delivery appends to the
    addressed transfer's timeline exactly the events of [appended_statuses]
    (leg 1: [bridging] on 'settled', [failed] on 'failed'; leg 2:
    [converting], [settling] and, when leg-3 initiation throws, [failed];
    leg 3: [completed] on 'settled'/'completed', [failed] on
    'failed'/'rejected'; nothing otherwise), and [status] ends as the last of
    them, whatever it was before. *)
Theorem webhook_transition_table rt ad o id w x :
  op_target o = Some id ->
  getTransfer id w = Some x ->
  exists x',
    getTransfer id (exec rt ad o w) = Some x'
    /\ map TimelineEvent.status (Transfer.timeline x')
       = (map TimelineEvent.status (Transfer.timeline x)
          ++ appended_statuses rt ad o w x)%list
    /\ Transfer.status x'
       = List.last (appended_statuses rt ad o w x) (Transfer.status x).
Proof.
  intros Ht Hl.
  destruct (webhook_frame_exec rt ad o id w x Ht Hl)
    as (x' & Hs & _ & _ & _ & _ & (evs & Htl & Hevs) & Hst & _).
  exists x'. unfold getTransfer. rewrite Hs, lookup_insert_eq.
  split; [done|]. split; [|done]. by rewrite Htl, map_app, Hevs.
Qed.

Lemma webhook_transition_table_witness :
  exists x',
    getTransfer Run.transferId
      (exec Demo.ticking Demo.tempo_down
         (OpBridgeWebhook Run.transferId Run.processed) Run.collected) = Some x'
    /\ map TimelineEvent.status (Transfer.timeline x')
       = (map TimelineEvent.status (Transfer.timeline (Run.stored Run.collected))
          ++ appended_statuses Demo.ticking Demo.tempo_down
               (OpBridgeWebhook Run.transferId Run.processed) Run.collected
               (Run.stored Run.collected))%list
    /\ Transfer.status x'
       = List.last
           (appended_statuses Demo.ticking Demo.tempo_down
              (OpBridgeWebhook Run.transferId Run.processed) Run.collected
              (Run.stored Run.collected))
           (Transfer.status (Run.stored Run.collected)).
Proof.
  apply (webhook_transition_table Demo.ticking Demo.tempo_down
           (OpBridgeWebhook Run.transferId Run.processed) Run.transferId
           Run.collected (Run.stored Run.collected)).
  - reflexivity.
  - vm_compute. reflexivity.
Defined.

(** X8. Outbound calls of the handlers.  The leg-1 and leg-3 handlers never
    call a provider; the leg-2 handler calls Tempo only on
    'payment_processed': the quote and, if the quote resolved, the payment.
    In particular a leg-1 'failed' webhook attempts no initiation at all. *)
Theorem webhook_outbound_calls rt ad o id w x :
  op_target o = Some id ->
  getTransfer id w = Some x ->
  World.calls (exec rt ad o w) = (World.calls w ++ webhook_calls rt ad o w x)%list.
Proof.
  intros Ht Hl.
  destruct (webhook_frame_exec rt ad o id w x Ht Hl)
    as (x' & _ & _ & _ & _ & _ & _ & _ & _ & _ & _ & Hc & _).
  exact Hc.
Qed.

Lemma webhook_outbound_calls_witness :
  World.calls
    (exec Demo.ticking Demo.providers
       (OpPaytechWebhook Run.transferId (PaytechEvent.mk "failed" "pt_1"))
       Run.created)
  = (World.calls Run.created
     ++ webhook_calls Demo.ticking Demo.providers
          (OpPaytechWebhook Run.transferId (PaytechEvent.mk "failed" "pt_1"))
          Run.created (Run.stored Run.created))%list.
Proof.
  apply (webhook_outbound_calls Demo.ticking Demo.providers
           (OpPaytechWebhook Run.transferId (PaytechEvent.mk "failed" "pt_1"))
           Run.transferId Run.created (Run.stored Run.created)).
  - reflexivity.
  - vm_compute. reflexivity.
Defined.

(** X9. Leg bookkeeping of the leg-1 handler: 'settled' marks a recorded
    leg 1 [completed] and stamps its [completedAt] with the current clock
    reading, 'failed' marks it [failed] and stamps nothing; any other token
    changes nothing; legs 2 and 3 are never touched; a missing leg 1 stays
    missing. *)
Theorem paytech_webhook_legs rt id ev w x :
  getTransfer id w = Some x ->
  exists x',
    getTransfer id (snd (handlePaytechWebhook rt id ev w)) = Some x'
    /\ Transfer.legs x' = paytech_legs rt ev w x.
Proof. apply handlePaytechWebhook_legs. Qed.

Lemma paytech_webhook_legs_witness :
  exists x',
    getTransfer Run.transferId
      (snd (handlePaytechWebhook Demo.ticking Run.transferId Run.settled
              Run.created)) = Some x'
    /\ Transfer.legs x'
       = paytech_legs Demo.ticking Run.settled Run.created (Run.stored Run.created).
Proof.
  apply (paytech_webhook_legs Demo.ticking Run.transferId Run.settled Run.created
           (Run.stored Run.created)).
  vm_compute. reflexivity.
Defined.

(** X10. Leg bookkeeping of the leg-3 handler: 'settled' or 'completed'
    marks a recorded leg 3 [completed] and stamps its [completedAt],
    'failed' or 'rejected' marks it [failed]; any other token changes
    nothing; legs 1 and 2 are never touched. *)
Theorem tempo_webhook_legs rt id ev w x :
  getTransfer id w = Some x ->
  exists x',
    getTransfer id (snd (handleTempoWebhook rt id ev w)) = Some x'
    /\ Transfer.legs x' = tempo_legs rt ev w x.
Proof. apply handleTempoWebhook_legs. Qed.

Lemma tempo_webhook_legs_witness :
  exists x',
    getTransfer Run.transferId
      (snd (handleTempoWebhook Demo.ticking Run.transferId Run.completion
              Run.delivered)) = Some x'
    /\ Transfer.legs x'
       = tempo_legs Demo.ticking Run.completion Run.delivered
           (Run.stored Run.delivered).
Proof.
  apply (tempo_webhook_legs Demo.ticking Run.transferId Run.completion
           Run.delivered (Run.stored Run.delivered)).
  vm_compute. reflexivity.
Defined.

(** X11. A leg-2 'payment_processed' webhook whose Tempo quote and payment
    calls resolve leaves the transfer [settling]: leg 2 (when recorded) is
    [completed] with the delivered txHash, leg 3 (when recorded) is
    [processing] with the payment's id as [externalId] and a start time,
    leg 1 is untouched. *)
Theorem bridge_webhook_starts_leg3 rt ad id ev w x q r :
  getTransfer id w = Some x ->
  BridgeEvent.state ev = "payment_processed" ->
  leg3QuoteCall rt ad ev w x = Ok q ->
  leg3PaymentCall rt ad id w x q = Ok r ->
  exists x',
    getTransfer id (snd (handleBridgeWebhook rt ad id ev w)) = Some x'
    /\ leg3_started rt ev w r x x'.
Proof. apply handleBridgeWebhook_started. Qed.

Lemma bridge_webhook_starts_leg3_witness :
  exists x',
    getTransfer Run.transferId
      (snd (handleBridgeWebhook Demo.ticking Demo.providers Run.transferId
              Run.processed Run.collected)) = Some x'
    /\ leg3_started Demo.ticking Run.processed Run.collected
         (TempoPayment.mk "tp_1" "pending" 0%float "PHP"
            (TempoRecipient.mk "Ben Cruz" None None None)
            "Remittance from Ana Cruz" "soon" 0%float)
         (Run.stored Run.collected) x'.
Proof.
  apply (bridge_webhook_starts_leg3 Demo.ticking Demo.providers Run.transferId
           Run.processed Run.collected (Run.stored Run.collected)
           (Tempo.getTempoQuote 1700000000003%Z 1700000000003%Z 986%float PHP "PH")).
  - vm_compute. reflexivity.
  - reflexivity.
  - vm_compute. reflexivity.
  - vm_compute. reflexivity.
Defined.

(** One delivery for a stored transfer: the frame, the claim-level step and
    the legs, about the same resulting transfer. *)
Lemma webhook_delivery rt ad o id w x :
  op_target o = Some id ->
  World.transfers w !! id = Some x ->
  exists x',
    World.transfers (exec rt ad o w) !! id = Some x'
    /\ webhook_frame rt ad o w (exec rt ad o w) x x'
    /\ webhook_step rt o w x x'.
Proof.
  intros Ht Hl.
  destruct (webhook_frame_exec rt ad o id w x Ht Hl) as (x' & Hs & Hf).
  destruct (webhook_exec rt ad o id w Ht)
    as [[Hn _] | (x0 & x1 & Hl0 & Hs1 & _ & Hstep & _)]; [congruence|].
  assert (x0 = x) as -> by congruence.
  assert (x1 = x') as ->.
  { assert (<[id:=x1]> (World.transfers w) !! id
            = <[id:=x']> (World.transfers w) !! id) as E by congruence.
    rewrite !lookup_insert_eq in E. congruence. }
  exists x'. rewrite Hs, lookup_insert_eq. auto.
Qed.

Lemma settle_step rt ad w id pev x :
  World.transfers w !! id = Some x ->
  PaytechEvent.status pev = "settled" ->
  exists x',
    World.transfers (exec rt ad (OpPaytechWebhook id pev) w) !! id = Some x'
    /\ Transfer.quote x' = Transfer.quote x
    /\ Transfer.request x' = Transfer.request x
    /\ map TimelineEvent.status (Transfer.timeline x')
       = (map TimelineEvent.status (Transfer.timeline x) ++ [bridging])%list
    /\ Transfer.legs x'
       = Legs.mk
           (leg_finished leg_completed (Runtime.clock rt (World.clockReads w))
              <$> Legs.leg1 (Transfer.legs x))
           (Legs.leg2 (Transfer.legs x)) (Legs.leg3 (Transfer.legs x)).
Proof.
  intros Hl Hp.
  destruct (webhook_frame_exec rt ad (OpPaytechWebhook id pev) id w x eq_refl Hl)
    as (x' & Hs & _ & Hq & Hr & _ & (evs & Htl & Hevs) & _).
  destruct (handlePaytechWebhook_legs rt id pev w x Hl) as (x2 & Hl2 & Hlegs).
  cbn [exec]. rewrite Hl2. cbn [exec] in Hs. rewrite Hs, lookup_insert_eq in Hl2.
  injection Hl2 as ->. exists x2.
  unfold appended_statuses in Hevs. unfold paytech_legs in Hlegs.
  rewrite Hp in Hevs, Hlegs. cbn [String.eqb Ascii.eqb Bool.eqb] in Hevs, Hlegs.
  split; [done|]. split; [done|]. split; [done|].
  split; [by rewrite Htl, map_app, Hevs | done].
Qed.

Lemma process_step rt ad w id bev x :
  World.transfers w !! id = Some x ->
  BridgeEvent.state bev = "payment_processed" ->
  leg3_initiation_ok rt ad id bev w x = true ->
  exists x' r,
    World.transfers (exec rt ad (OpBridgeWebhook id bev) w) !! id = Some x'
    /\ Transfer.quote x' = Transfer.quote x
    /\ Transfer.request x' = Transfer.request x
    /\ map TimelineEvent.status (Transfer.timeline x')
       = (map TimelineEvent.status (Transfer.timeline x)
          ++ [converting; settling])%list
    /\ leg3_started rt bev w r x x'.
Proof.
  intros Hl Hb Hgo.
  destruct (webhook_frame_exec rt ad (OpBridgeWebhook id bev) id w x eq_refl Hl)
    as (x' & Hs & _ & Hq & Hr & _ & (evs & Htl & Hevs) & _).
  unfold appended_statuses, bridge_acts in Hevs. rewrite Hb, Hgo in Hevs.
  cbn [String.eqb Ascii.eqb Bool.eqb] in Hevs.
  unfold leg3_initiation_ok in Hgo.
  destruct (leg3QuoteCall rt ad bev w x) as [q|] eqn:Eq; [|discriminate].
  destruct (leg3PaymentCall rt ad id w x q) as [r|] eqn:Er; [|discriminate].
  destruct (handleBridgeWebhook_started rt ad id bev w x q r Hl Hb Eq Er)
    as (x3 & Hl3 & Hstart).
  cbn [exec]. rewrite Hl3. cbn [exec] in Hs. rewrite Hs, lookup_insert_eq in Hl3.
  injection Hl3 as ->. exists x3, r.
  split; [done|]. split; [done|]. split; [done|].
  split; [by rewrite Htl, map_app, Hevs | done].
Qed.

Lemma complete_step rt ad w id tev x :
  World.transfers w !! id = Some x ->
  String.eqb (TempoEvent.status tev) "settled"
  || String.eqb (TempoEvent.status tev) "completed" = true ->
  exists x',
    World.transfers (exec rt ad (OpTempoWebhook id tev) w) !! id = Some x'
    /\ Transfer.status x' = completed
    /\ is_Some (Transfer.completedAt x')
    /\ Transfer.quote x' = Transfer.quote x
    /\ Transfer.request x' = Transfer.request x
    /\ map TimelineEvent.status (Transfer.timeline x')
       = (map TimelineEvent.status (Transfer.timeline x) ++ [completed])%list
    /\ Transfer.legs x'
       = Legs.mk (Legs.leg1 (Transfer.legs x)) (Legs.leg2 (Transfer.legs x))
           (leg_finished leg_completed (Runtime.clock rt (World.clockReads w))
              <$> Legs.leg3 (Transfer.legs x)).
Proof.
  intros Hl Ht.
  destruct (webhook_delivery rt ad (OpTempoWebhook id tev) id w x eq_refl Hl)
    as (x' & Hl' & (_ & Hq & Hr & _ & (evs & Htl & Hevs) & Hst & _)
        & (_ & _ & _ & _ & Hc)).
  destruct (handleTempoWebhook_legs rt id tev w x Hl) as (x4 & Hl4 & Hlegs).
  cbn [exec] in Hl'. rewrite Hl' in Hl4. injection Hl4 as <-.
  cbn [exec]. rewrite Hl'. exists x'.
  unfold appended_statuses in Hevs, Hst. unfold tempo_legs in Hlegs.
  cbn [op_target completes] in Hc. rewrite String.eqb_refl in Hc.
  rewrite Ht in Hevs, Hst, Hlegs, Hc. cbn [andb] in Hc.
  destruct Hc as (_ & e & k & _ & _ & _ & _ & Hdone).
  split; [done|]. split; [done|]. split; [by rewrite Hdone|].
  split; [done|]. split; [done|].
  split; [by rewrite Htl, map_app, Hevs | done].
Qed.

Lemma commit_step rt ad w request quote :
  is_ok (initiation rt ad request quote w) = true ->
  exists b p t,
    World.transfers (exec rt ad (OpCreateTransfer request quote) w)
      !! drawn_id rt w = Some t
    /\ created_shape rt request quote w b p t.
Proof.
  intros Hinit. cbn [exec].
  destruct (createTransfer_outcome rt ad request quote w)
    as (r & x & k & u & E & _ & _ & Hr).
  destruct (initiation rt ad request quote w) as [[b p]|]; [|discriminate].
  exists b, p, x. rewrite E. cbn [snd World.transfers].
  rewrite lookup_insert_eq. by destruct Hr.
Qed.

Lemma deliver_steps rt ad w1 id request quote pev bev tev t :
  World.transfers w1 !! id = Some t ->
  Transfer.quote t = quote ->
  Transfer.request t = request ->
  map TimelineEvent.status (Transfer.timeline t)
  = [processing; processing; processing; processing; processing] ->
  LegStatus.status <$> Legs.leg1 (Transfer.legs t) = Some leg_processing ->
  is_Some (Legs.leg2 (Transfer.legs t)) ->
  is_Some (Legs.leg3 (Transfer.legs t)) ->
  PaytechEvent.status pev = "settled" ->
  BridgeEvent.state bev = "payment_processed" ->
  String.eqb (TempoEvent.status tev) "settled"
  || String.eqb (TempoEvent.status tev) "completed" = true ->
  from_option
    (leg3_initiation_ok rt ad id bev (exec rt ad (OpPaytechWebhook id pev) w1))
    false
    (World.transfers (exec rt ad (OpPaytechWebhook id pev) w1) !! id) = true ->
  exists x,
    World.transfers
      (exec rt ad (OpTempoWebhook id tev)
         (exec rt ad (OpBridgeWebhook id bev)
            (exec rt ad (OpPaytechWebhook id pev) w1))) !! id = Some x
    /\ delivered_shape request quote bev x.
Proof.
  intros Hl1 Hq1 Hr1 Htl1 L11 [l2 L12] [l3 L13] Hp Hb Ht Hgo.
  destruct (settle_step rt ad w1 id pev t Hl1 Hp)
    as (x2 & Hl2 & Hq2 & Hr2 & Htl2 & Hlegs2).
  revert Hl2 Hgo. generalize (exec rt ad (OpPaytechWebhook id pev) w1).
  intros w2 Hl2 Hgo. rewrite Hl2 in Hgo. cbn [from_option] in Hgo.
  destruct (process_step rt ad w2 id bev x2 Hl2 Hb Hgo)
    as (x3 & r & Hl3 & Hq3 & Hr3 & Htl3 & (_ & L31 & L32 & (started & L33))).
  revert Hl3. generalize (exec rt ad (OpBridgeWebhook id bev) w2). intros w3 Hl3.
  destruct (complete_step rt ad w3 id tev x3 Hl3 Ht)
    as (x4 & Hl4 & Hst4 & Hdone & Hq4 & Hr4 & Htl4 & Hlegs4).
  exists x4. split; [exact Hl4|].
  unfold delivered_shape.
  split; [exact Hst4|].
  split; [congruence|]. split; [congruence|].
  split; [exact Hdone|].
  split; [by rewrite Htl4, Htl3, Htl2, Htl1|].
  rewrite Hlegs4. cbn [Legs.leg1 Legs.leg2 Legs.leg3].
  rewrite L31, L32, L33, Hlegs2. cbn [Legs.leg1 Legs.leg2 Legs.leg3].
  rewrite L12, L13. destruct (Legs.leg1 (Transfer.legs t)); [|discriminate].
  repeat split.
Qed.

Lemma leg3_goes_through_unfold rt ad w request quote pev bev :
  leg3_goes_through rt ad w request quote pev bev
  = from_option
      (leg3_initiation_ok rt ad (drawn_id rt w) bev
         (exec rt ad (OpPaytechWebhook (drawn_id rt w) pev)
            (exec rt ad (OpCreateTransfer request quote) w)))
      false
      (World.transfers
         (exec rt ad (OpPaytechWebhook (drawn_id rt w) pev)
            (exec rt ad (OpCreateTransfer request quote) w)) !! drawn_id rt w).
Proof. reflexivity. Qed.

Lemma happy_path_run rt ad w request quote pev bev tev :
  getTransfer (drawn_id rt w)
    (exec_all rt ad (happy_path rt w request quote pev bev tev) w)
  = World.transfers
      (exec rt ad (OpTempoWebhook (drawn_id rt w) tev)
         (exec rt ad (OpBridgeWebhook (drawn_id rt w) bev)
            (exec rt ad (OpPaytechWebhook (drawn_id rt w) pev)
               (exec rt ad (OpCreateTransfer request quote) w))))
    !! drawn_id rt w.
Proof. reflexivity. Qed.

(** X12. The happy path.  If the three initiation calls of [createTransfer]
    resolve, then a leg-1 'settled' webhook, a leg-2 'payment_processed'
    webhook whose Tempo calls resolve, and a leg-3 completion webhook for
    the new transfer leave it [completed], with [completedAt] set, all three
    legs [completed], leg 2 carrying the delivered txHash, and a timeline of
    nine events: five [processing], then [bridging], [converting],
    [settling], [completed]. *)
Theorem happy_path_delivers rt ad w request quote pev bev tev :
  is_ok (initiation rt ad request quote w) = true ->
  PaytechEvent.status pev = "settled" ->
  BridgeEvent.state bev = "payment_processed" ->
  String.eqb (TempoEvent.status tev) "settled"
  || String.eqb (TempoEvent.status tev) "completed" = true ->
  leg3_goes_through rt ad w request quote pev bev = true ->
  exists x,
    getTransfer (drawn_id rt w)
      (exec_all rt ad (happy_path rt w request quote pev bev tev) w) = Some x
    /\ delivered_shape request quote bev x.
Proof.
  intros Hinit Hp Hb Ht Hgo.
  rewrite leg3_goes_through_unfold in Hgo. rewrite happy_path_run.
  destruct (commit_step rt ad w request quote Hinit)
    as (b & p & t & Hl1 & (_ & _ & Hq1 & Hr1 & _ & _ & Htl1 & L11 & L12 & L13)).
  apply (deliver_steps rt ad (exec rt ad (OpCreateTransfer request quote) w)
           (drawn_id rt w) request quote pev bev tev t Hl1 Hq1 Hr1 Htl1).
  - by rewrite L11.
  - by rewrite L12.
  - by rewrite L13.
  - exact Hp.
  - exact Hb.
  - exact Ht.
  - exact Hgo.
Qed.

Lemma happy_path_delivers_witness :
  exists x,
    getTransfer (drawn_id Demo.ticking World.init)
      (exec_all Demo.ticking Demo.providers
         (happy_path Demo.ticking World.init Demo.request Demo.quote
            Run.settled Run.processed Run.completion) World.init) = Some x
    /\ delivered_shape Demo.request Demo.quote Run.processed x.
Proof.
  apply (happy_path_delivers Demo.ticking Demo.providers World.init Demo.request
           Demo.quote Run.settled Run.processed Run.completion).
  - vm_compute. reflexivity.
  - reflexivity.
  - reflexivity.
  - reflexivity.
  - vm_compute. reflexivity.
Defined.

(** ** The provider clients *)

Lemma hex_digit_length n : n < 16 -> String.length (TempoClient.hex_digit n) = 1.
Proof.
  intros H. do 16 (destruct n as [|n]; [reflexivity|]). lia.
Qed.

Lemma append_length (s t : string) :
  String.length (s ++ t) = String.length s + String.length t.
Proof. induction s as [|c s IH]; [reflexivity|]. simpl. f_equal. exact IH. Qed.

Lemma concat_length_units {A} (f : A -> string) (l : list A) :
  (forall k, k ∈ l -> String.length (f k) = 1) ->
  String.length (String.concat "" (map f l)) = length l.
Proof.
  induction l as [|a l IH]; intros H; [reflexivity|].
  cbn [map length]. destruct l as [|b l].
  - cbn. apply H, list_elem_of_here.
  - change (String.concat "" (f a :: map f (b :: l)))
      with (f a ++ "" ++ String.concat "" (map f (b :: l))).
    rewrite !append_length, IH.
    + rewrite (H a (list_elem_of_here _ _)). reflexivity.
    + intros k Hk. apply H, list_elem_of_further, Hk.
Qed.

Lemma source_deposit_address rt h quote w :
  exists a, depositAddressCall rt (source_adapters h) quote w = Ok a.
Proof.
  unfold depositAddressCall, source_adapters, TempoClient.getTempoDepositAddress.
  cbn [Adapters.getTempoDepositAddress].
  destruct (Http.post_deposit_addresses _ _ _); eauto.
Qed.

(** When leg-3 initiation throws [e]: the handler returns, the transfer
    is [failed], leg 3 is untouched and the last event carries the message
    of [e]. *)
Lemma handleBridgeWebhook_failed rt ad id ev w x e :
  World.transfers w !! id = Some x ->
  BridgeEvent.state ev = "payment_processed" ->
  leg3_error rt ad id ev w x = Some e ->
  exists x' w',
    handleBridgeWebhook rt ad id ev w = (Ok tt, w')
    /\ World.transfers w' = <[id := x']> (World.transfers w)
    /\ Legs.leg3 (Transfer.legs x') = Legs.leg3 (Transfer.legs x)
    /\ ends_failed ("Tempo settlement failed: " ++ error_message "Unknown" e) x'.
Proof.
  intros Hl Hs. unfold handleBridgeWebhook. rewrite Hl, Hs.
  cbn [String.eqb Ascii.eqb Bool.eqb].
  unfold leg3_error, leg3QuoteCall, leg3PaymentCall, ends_failed.
  destruct x as [xid xst xq xr [l1 l2 l3] xtl xc xu xco]. eval_fields.
  destruct l2 as [l2|]; run;
    (destruct (Adapters.getTempoQuote _ _ _ _ _) as [q|e']; run;
     [ rewrite length_app, Nat.add_1_r; cbn [length];
       destruct (Adapters.createTempoPayment _ _ _) as [r|e']; run;
       [ discriminate | intros [= ->] ]
     | intros [= ->] ];
     (eexists _, _; split; [reflexivity|]; eval_fields;
      split; [reflexivity|]; split; [reflexivity|]; split; [reflexivity|];
      eexists; split; [apply last_snoc|]; split; reflexivity)).
Qed.

Lemma liquidationAddressCall_source rt h quote w a :
  liquidationAddressCall rt (source_adapters h) quote w a
  = match liquidationRequest rt h quote w a with
    | Responded data => Ok data
    | Refused _ data_json _ =>
        Throw (JsError ("Bridge error creating liquidation address: " ++ data_json))
    | Failed e => Throw e
    end.
Proof. reflexivity. Qed.

Lemma collectionCall_source rt h request quote w b :
  collectionCall rt (source_adapters h) request quote w b
  = match collectionRequest rt h request quote w b with
    | Responded data => Ok data
    | Refused data_message _ message =>
        Throw (JsError ("Pay.tech error: " ++ Js.string_or data_message message))
    | Failed e => Throw e
    end.
Proof. reflexivity. Qed.

(** X13. [getTempoDepositAddress] never rejects: when the request gets no
    2xx response it resolves to a made-up address on the requested chain,
    '0x' followed by forty characters. *)
Theorem getTempoDepositAddress_fallback h n transferId chain :
  (forall d,
     Http.post_deposit_addresses h n
       (DepositPayload.mk (Http.TEMPO_PARTNER_ID h) chain "usdc"
          [("transferId", transferId); ("leg", "3")]) <> Responded d) ->
  (forall k, Http.random16 h n k < 16) ->
  exists a,
    TempoClient.getTempoDepositAddress h n transferId chain = Ok a
    /\ TempoDepositAddress.chain a = chain
    /\ TempoDepositAddress.currency a = "usdc"
    /\ TempoDepositAddress.memo a = None
    /\ String.substring 0 2 (TempoDepositAddress.address a) = "0x"
    /\ String.length (TempoDepositAddress.address a) = 42.
Proof.
  intros Hpost Hrand. unfold TempoClient.getTempoDepositAddress.
  destruct (Http.post_deposit_addresses _ _ _) as [d| |] eqn:E;
    [ by destruct (Hpost d) | |];
    (eexists; split; [reflexivity|];
     do 3 (split; [reflexivity|]);
     cbn [TempoDepositAddress.address];
     split; [by destruct (TempoClient.random_hex h n)|];
     rewrite (append_length "0x" (TempoClient.random_hex h n));
     unfold TempoClient.random_hex; rewrite concat_length_units;
     [ reflexivity | intros k _; apply hex_digit_length, Hrand ]).
Qed.

Lemma getTempoDepositAddress_fallback_witness :
  exists a,
    TempoClient.getTempoDepositAddress Net.offline 0 "uuid-0" "base" = Ok a
    /\ TempoDepositAddress.chain a = "base"
    /\ TempoDepositAddress.currency a = "usdc"
    /\ TempoDepositAddress.memo a = None
    /\ String.substring 0 2 (TempoDepositAddress.address a) = "0x"
    /\ String.length (TempoDepositAddress.address a) = 42.
Proof.
  apply (getTempoDepositAddress_fallback Net.offline 0 "uuid-0" "base").
  - intros d. simpl. discriminate.
  - intros k. apply (Nat.mod_upper_bound (0 + 7 * k) 16). lia.
Defined.

(** X14. Over the clients of src/process a [createTransfer] never fails at
    the deposit-address step: when it rejects, the error is the one of the
    Bridge call or, Bridge having answered, the one of the Pay.tech call. *)
Theorem creation_fails_at_bridge_or_paytech rt h request quote w e :
  initiation rt (source_adapters h) request quote w = Throw e ->
  exists a,
    depositAddressCall rt (source_adapters h) quote w = Ok a
    /\ (liquidationAddressCall rt (source_adapters h) quote w a = Throw e
        \/ exists b,
             liquidationAddressCall rt (source_adapters h) quote w a = Ok b
             /\ collectionCall rt (source_adapters h) request quote w b = Throw e).
Proof.
  intros H. destruct (source_deposit_address rt h quote w) as [a Ha].
  exists a. split; [exact Ha|]. unfold initiation in H. rewrite Ha in H.
  destruct (liquidationAddressCall _ _ _ _ _) as [b|e'].
  - right. exists b. split; [reflexivity|].
    destruct (collectionCall _ _ _ _ _ _) as [p|e'']; [discriminate|].
    by injection H as ->.
  - left. by injection H as ->.
Qed.

Lemma creation_fails_at_bridge_or_paytech_witness :
  exists a,
    depositAddressCall Demo.ticking (source_adapters Net.bridge_refuses) Demo.quote
      World.init = Ok a
    /\ (liquidationAddressCall Demo.ticking (source_adapters Net.bridge_refuses)
          Demo.quote World.init a
        = Throw (JsError "Bridge error creating liquidation address: {}")
        \/ exists b,
             liquidationAddressCall Demo.ticking (source_adapters Net.bridge_refuses)
               Demo.quote World.init a = Ok b
             /\ collectionCall Demo.ticking (source_adapters Net.bridge_refuses)
                  Demo.request Demo.quote World.init b
                = Throw (JsError "Bridge error creating liquidation address: {}")).
Proof.
  apply (creation_fails_at_bridge_or_paytech Demo.ticking Net.bridge_refuses
           Demo.request Demo.quote World.init).
  vm_compute. reflexivity.
Defined.

(** X15. When Bridge answers the liquidation-address request with an error
    response, [createTransfer] rejects with 'Bridge error creating
    liquidation address: ' and the response body; the transfer is stored
    [failed] without any leg record, its last event carrying that message;
    Pay.tech is not called. *)
Theorem bridge_refusal_reported rt h request quote w a m j msg :
  depositAddressCall rt (source_adapters h) quote w = Ok a ->
  liquidationRequest rt h quote w a = Refused m j msg ->
  exists x w',
    createTransfer rt (source_adapters h) request quote w
    = (Throw (JsError ("Bridge error creating liquidation address: " ++ j)), w')
    /\ getTransfer (drawn_id rt w) w' = Some x
    /\ ends_failed
         ("Transfer failed: Bridge error creating liquidation address: " ++ j) x
    /\ Transfer.legs x = Legs.mk None None None
    /\ World.calls w'
       = (World.calls w
          ++ [(CallGetTempoDepositAddress, true);
              (CallCreateBridgeLiquidationAddress, false)])%list.
Proof.
  intros Ha Hreq.
  destruct (createTransfer_outcome rt (source_adapters h) request quote w)
    as (r & x & k & u & -> & _ & _ & Hshape).
  unfold initiation, initiation_calls in *. rewrite Ha in *.
  unfold failed_shape in Hshape. rewrite Ha in Hshape.
  rewrite liquidationAddressCall_source, Hreq in *.
  destruct Hshape as (-> & _ & Hst & _ & _ & _ & _ & (ev & Hlast & Hev & Hmsg)
                      & L1 & L3 & L2).
  exists x, (World.mk (<[drawn_id rt w := x]> (World.transfers w)) k u
               (World.calls w
                ++ [(CallGetTempoDepositAddress, true);
                    (CallCreateBridgeLiquidationAddress, false)])).
  split; [reflexivity|]. split; [apply lookup_insert_eq|].
  split; [split; [exact Hst | exists ev; auto]|].
  split; [| reflexivity].
  destruct (Transfer.legs x) as [l1 l2 l3]. cbn in L1, L2, L3. by subst.
Qed.

Lemma bridge_refusal_reported_witness :
  exists x w',
    createTransfer Demo.ticking (source_adapters Net.bridge_refuses) Demo.request
      Demo.quote World.init
    = (Throw (JsError ("Bridge error creating liquidation address: " ++ "{}")), w')
    /\ getTransfer (drawn_id Demo.ticking World.init) w' = Some x
    /\ ends_failed
         ("Transfer failed: Bridge error creating liquidation address: " ++ "{}") x
    /\ Transfer.legs x = Legs.mk None None None
    /\ World.calls w'
       = (World.calls World.init
          ++ [(CallGetTempoDepositAddress, true);
              (CallCreateBridgeLiquidationAddress, false)])%list.
Proof.
  apply (bridge_refusal_reported Demo.ticking Net.bridge_refuses Demo.request
           Demo.quote World.init
           (TempoDepositAddress.mk "0xfeed" "base" "usdc" None)
           None "{}" "Request failed with status code 422").
  - vm_compute. reflexivity.
  - reflexivity.
Defined.

(** X16. When Bridge has answered and Pay.tech answers the transfer request
    with an error response, [createTransfer] rejects with 'Pay.tech error: '
    and the response's message (the error's own message when the body has
    none); the transfer is stored [failed] with the Bridge address still
    recorded as a pending leg 2 and no leg 1 or leg 3. *)
Theorem paytech_refusal_reported rt h request quote w a b m j msg :
  depositAddressCall rt (source_adapters h) quote w = Ok a ->
  liquidationAddressCall rt (source_adapters h) quote w a = Ok b ->
  collectionRequest rt h request quote w b = Refused m j msg ->
  exists x w',
    createTransfer rt (source_adapters h) request quote w
    = (Throw (JsError ("Pay.tech error: " ++ Js.string_or m msg)), w')
    /\ getTransfer (drawn_id rt w) w' = Some x
    /\ ends_failed ("Transfer failed: Pay.tech error: " ++ Js.string_or m msg) x
    /\ Transfer.legs x
       = Legs.mk None
           (Some (LegStatus.mk bridge (BridgeLiquidationAddress.id b) leg_pending
                    None None None None))
           None
    /\ World.calls w'
       = (World.calls w
          ++ [(CallGetTempoDepositAddress, true);
              (CallCreateBridgeLiquidationAddress, true);
              (CallInitiatePaytechTransfer, false)])%list.
Proof.
  intros Ha Hb Hreq.
  destruct (createTransfer_outcome rt (source_adapters h) request quote w)
    as (r & x & k & u & -> & _ & _ & Hshape).
  unfold initiation, initiation_calls in *. rewrite Ha in *.
  unfold failed_shape in Hshape. rewrite Ha in Hshape. rewrite Hb in *.
  rewrite collectionCall_source, Hreq in *.
  destruct Hshape as (-> & _ & Hst & _ & _ & _ & _ & (ev & Hlast & Hev & Hmsg)
                      & L1 & L3 & L2).
  exists x, (World.mk (<[drawn_id rt w := x]> (World.transfers w)) k u
               (World.calls w
                ++ [(CallGetTempoDepositAddress, true);
                    (CallCreateBridgeLiquidationAddress, true);
                    (CallInitiatePaytechTransfer, false)])).
  split; [reflexivity|]. split; [apply lookup_insert_eq|].
  split; [split; [exact Hst | exists ev; auto]|].
  split; [| reflexivity].
  destruct (Transfer.legs x) as [l1 l2 l3]. cbn in L1, L2, L3. by subst.
Qed.

Lemma paytech_refusal_reported_witness :
  exists x w',
    createTransfer Demo.ticking (source_adapters Net.paytech_refuses) Demo.request
      Demo.quote World.init
    = (Throw (JsError ("Pay.tech error: "
                       ++ Js.string_or (Some "insufficient funds")
                            "Request failed with status code 402")), w')
    /\ getTransfer (drawn_id Demo.ticking World.init) w' = Some x
    /\ ends_failed
         ("Transfer failed: Pay.tech error: "
          ++ Js.string_or (Some "insufficient funds")
               "Request failed with status code 402") x
    /\ Transfer.legs x
       = Legs.mk None
           (Some (LegStatus.mk bridge
                    (BridgeLiquidationAddress.id
                       (BridgeLiquidationAddress.mk "liq_1" "base" "usdc" "0xbeef"
                          "uuid-0" "sepa" "php" "0xfeed"))
                    leg_pending None None None None))
           None
    /\ World.calls w'
       = (World.calls World.init
          ++ [(CallGetTempoDepositAddress, true);
              (CallCreateBridgeLiquidationAddress, true);
              (CallInitiatePaytechTransfer, false)])%list.
Proof.
  apply (paytech_refusal_reported Demo.ticking Net.paytech_refuses Demo.request
           Demo.quote World.init
           (TempoDepositAddress.mk "0xfeed" "base" "usdc" None)
           (BridgeLiquidationAddress.mk "liq_1" "base" "usdc" "0xbeef"
              "uuid-0" "sepa" "php" "0xfeed")
           (Some "insufficient funds") "{}" "Request failed with status code 402").
  - vm_compute. reflexivity.
  - vm_compute. reflexivity.
  - reflexivity.
Defined.

(** X17. A recipient with neither a bank account nor a mobile wallet passes
    the route's schema, and the transfer is committed; when Bridge reports
    'payment_processed', [createTempoPayment] throws on the missing account
    before any request is sent, whatever the network: the Tempo quote is
    taken, the payment call fails, the transfer ends [failed] and leg 3 is
    left as it was. *)
Theorem payout_without_instrument_fails rt h id ev w x :
  World.transfers w !! id = Some x ->
  BridgeEvent.state ev = "payment_processed" ->
  Recipient.bankAccount (TransferRequest.recipient (Transfer.request x)) = None ->
  Recipient.mobileWallet (TransferRequest.recipient (Transfer.request x)) = None ->
  exists x',
    getTransfer id (exec rt (source_adapters h) (OpBridgeWebhook id ev) w) = Some x'
    /\ ends_failed
         ("Tempo settlement failed: "
          ++ "Cannot use 'in' operator to search for 'accountName' in undefined") x'
    /\ Legs.leg3 (Transfer.legs x') = Legs.leg3 (Transfer.legs x)
    /\ World.calls (exec rt (source_adapters h) (OpBridgeWebhook id ev) w)
       = (World.calls w
          ++ [(CallGetTempoQuote, true); (CallCreateTempoPayment, false)])%list.
Proof.
  intros Hl Hs Hb Hm.
  assert (Herr : leg3_error rt (source_adapters h) id ev w x
                 = Some TempoClient.in_undefined).
  { unfold leg3_error, leg3QuoteCall, leg3PaymentCall, tempoPaymentParams,
      source_adapters, TempoClient.createTempoPayment.
    cbn [Adapters.getTempoQuote Adapters.createTempoPayment
         TempoPaymentParams.recipientAccount].
    by rewrite Hb, Hm. }
  destruct (handleBridgeWebhook_failed rt (source_adapters h) id ev w x _ Hl Hs Herr)
    as (x' & w' & Hrun & Hstore & L3 & Hend).
  destruct (handleBridgeWebhook_frame rt (source_adapters h) id ev w x Hl)
    as (y & v & Hrun' & _ & Hframe).
  rewrite Hrun in Hrun'. injection Hrun' as <-.
  destruct Hframe as (_ & _ & _ & _ & _ & _ & _ & _ & _ & Hcalls & _).
  exists x'. cbn [exec]. rewrite Hrun. cbn [snd].
  split; [unfold getTransfer; rewrite Hstore; apply lookup_insert_eq|].
  split; [exact Hend|]. split; [exact L3|].
  rewrite Hcalls. f_equal.
  unfold webhook_calls, bridge_acts. rewrite Hs.
  cbn [String.eqb Ascii.eqb Bool.eqb].
  unfold leg3_error in Herr.
  assert (exists q, leg3QuoteCall rt (source_adapters h) ev w x = Ok q)
    as [q Hq] by (eexists; reflexivity).
  rewrite Hq in *.
  destruct (leg3PaymentCall _ _ _ _ _ _); [discriminate | reflexivity].
Qed.

Lemma payout_without_instrument_fails_witness :
  exists x',
    getTransfer Run.transferId
      (exec Demo.ticking (source_adapters Net.up)
         (OpBridgeWebhook Run.transferId Run.processed) Net.collected) = Some x'
    /\ ends_failed
         ("Tempo settlement failed: "
          ++ "Cannot use 'in' operator to search for 'accountName' in undefined") x'
    /\ Legs.leg3 (Transfer.legs x')
       = Legs.leg3 (Transfer.legs (Run.stored Net.collected))
    /\ World.calls
         (exec Demo.ticking (source_adapters Net.up)
            (OpBridgeWebhook Run.transferId Run.processed) Net.collected)
       = (World.calls Net.collected
          ++ [(CallGetTempoQuote, true); (CallCreateTempoPayment, false)])%list.
Proof.
  apply (payout_without_instrument_fails Demo.ticking Net.up Run.transferId
           Run.processed Net.collected (Run.stored Net.collected)).
  - vm_compute. reflexivity.
  - reflexivity.
  - vm_compute. reflexivity.
  - vm_compute. reflexivity.
Defined.

(** X18. The Pay.tech request [createTransfer] sends: the transfer id is the
    idempotency key, the funds go to the Bridge liquidation address, and the
    source is a bank account unless the sender's account came without an
    accountNumber (an IBAN alone, say): then it is sent as a card without a
    token and none of the bank details. *)
Theorem collection_request_source rt h id request quote b :
  PaytechPayload.idempotencyKey
    (PaytechClient.payload h (paytechTransferParams rt id request quote b)) = id
  /\ PaytechPayload.destinationWallet
       (PaytechClient.payload h (paytechTransferParams rt id request quote b))
     = BridgeLiquidationAddress.address b
  /\ PaytechPayload.amount
       (PaytechClient.payload h (paytechTransferParams rt id request quote b))
     = TransferQuote.sendAmount quote
  /\ (PaytechPayload.sourceType
        (PaytechClient.payload h (paytechTransferParams rt id request quote b)),
      PaytechPayload.sourceDetails
        (PaytechClient.payload h (paytechTransferParams rt id request quote b)))
     = match Sender.bankAccount (TransferRequest.sender request) with
       | Some account =>
           match BankAccount.accountNumber account with
           | Some number =>
               ("bank",
                [ ("accountName", Some (BankAccount.accountName account));
                  ("accountNumber", Some number);
                  ("routingNumber",
                   Some (Js.string_or (BankAccount.routingNumber account) ""));
                  ("iban", Some (Js.string_or (BankAccount.iban account) ""));
                  ("swiftCode",
                   Some (Js.string_or (BankAccount.swiftCode account) ""));
                  ("bankName", Some (BankAccount.bankName account)) ])
           | None => ("card", [("token", None)])
           end
       | None =>
           ("bank",
            [ ("accountName", Some (Sender.name (TransferRequest.sender request)));
              ("accountNumber", Some "000000000");
              ("routingNumber", Some "021000021");
              ("iban", Some ""); ("swiftCode", Some "");
              ("bankName", Some "Demo Bank") ])
       end.
Proof.
  unfold PaytechClient.payload, paytechTransferParams.
  cbn [PaytechTransferParams.transferId PaytechTransferParams.senderAccount
       PaytechTransferParams.amount PaytechTransferParams.currency
       PaytechTransferParams.bridgeLiquidationAddress
       PaytechTransferParams.webhookUrl].
  destruct (Sender.bankAccount _) as [account|].
  - destruct (BankAccount.accountNumber account) as [number|] eqn:E.
    + repeat split. cbn [PaytechPayload.sourceType PaytechPayload.sourceDetails].
      do 3 f_equal. unfold PaytechClient.or_empty, Js.string_or.
      destruct (String.eqb number "") eqn:E'; [| reflexivity].
      by apply String.eqb_eq in E' as ->.
    + repeat split.
  - repeat split.
Qed.

(** ** Quotes *)

(** X19. The quote [getTransferQuote] returns: the route id and the quote
    id are the two ids drawn, in that order; it expires five minutes after
    the first clock reading and is created at the second; the route carries
    the request's corridor, collects by bank transfer, and moves USDC over
    Polygon for MXN, BRL and NGN and over Base for any other currency. *)
Theorem getTransferQuote_shape rt ad request w q :
  fst (getTransferQuote rt ad request w) = Ok q ->
  quote_shape rt request w q.
Proof.
  unfold getTransferQuote, bind, promise_all3, call. eval_fields.
  destruct (Adapters.getPaytechQuote _ _ _ _ _) as [pq|e1];
    destruct (Adapters.getBridgeQuote _ _ _ _ _ _) as [bq|e2];
    destruct (Adapters.getTempoQuote _ _ _ _ _) as [tq|e3];
    eval_fields; try discriminate.
  unfold uuidv4, newDate, ret. eval_fields. intros [= <-].
  unfold quote_shape.
  cbn [TransferQuote.route TransferRoute.id TransferQuote.quoteId
       TransferQuote.expiresAt TransferQuote.createdAt
       TransferRoute.sourceCurrency TransferRoute.destinationCurrency
       TransferRoute.sourceCountry TransferRoute.destinationCountry
       TransferRoute.leg1 TransferRoute.leg2 Leg1Route.method
       Leg2Route.stablecoin Leg2Route.network].
  repeat (split; [reflexivity|]).
  by destruct (QuoteRequest.sendCurrency request).
Qed.

Lemma getTransferQuote_shape_witness :
  quote_shape Demo.ticking Demo.quoteRequest World.init Demo.quote.
Proof.
  apply (getTransferQuote_shape Demo.ticking Demo.providers Demo.quoteRequest
           World.init Demo.quote).
  vm_compute. reflexivity.
Defined.

(** X20. [getTransferQuote] never reads the request's [paymentMethod]: the
    result and the state it leaves are the same whatever method is asked
    for. *)
Theorem getTransferQuote_ignores_paymentMethod rt ad request m w :
  getTransferQuote rt ad (with_paymentMethod m request) w
  = getTransferQuote rt ad request w.
Proof. reflexivity. Qed.

Lemma source_quote_resolves rt h request w :
  exists q, fst (getTransferQuote rt (source_adapters h) request w) = Ok q.
Proof. eexists. reflexivity. Qed.

(** X21. Over the quotes of src/process, [getTransferQuote] always
    resolves, and the Tempo leg is quoted on the send amount itself, not on
    its USDC value: leg 3 of the route is the same for every send currency. *)
Theorem leg3_quote_ignores_send_currency rt h request c w :
  exists q q',
    fst (getTransferQuote rt (source_adapters h) request w) = Ok q
    /\ fst (getTransferQuote rt (source_adapters h) (with_sendCurrency c request) w)
       = Ok q'
    /\ TransferRoute.leg3 (TransferQuote.route q')
       = TransferRoute.leg3 (TransferQuote.route q)
    /\ Leg3Route.fee (TransferRoute.leg3 (TransferQuote.route q))
       = Js.parseFloat_toFixed 4
           (Js.Math_max 0.5
              (QuoteRequest.sendAmount request * 1.0
               * match Leg3Route.method (TransferRoute.leg3 (TransferQuote.route q))
                 with swift => 0.015 | _ => 0.008 end))%float.
Proof.
  eexists _, _. split; [reflexivity|]. split; [reflexivity|].
  split; reflexivity.
Qed.

(** X22. The corridors [getTempoSupportedCorridors] lists and the rail
    [getTempoQuote] picks: the rail of a quote for a listed country is one
    the list gives for it, except for GB, which the list serves by local
    rails and the quote by SWIFT; every listed currency has a rate. *)
Theorem corridors_and_quoted_rail now stamp amount currency country listed rails :
  (country, listed, rails) ∈ getTempoSupportedCorridors ->
  is_Some (Tempo.usdToDestRates listed)
  /\ if String.eqb country "GB"
     then TempoQuote.paymentRail
            (Tempo.getTempoQuote now stamp amount currency country) = swift
          /\ rails = [local_rails]
     else TempoQuote.paymentRail
            (Tempo.getTempoQuote now stamp amount currency country) ∈ rails.
Proof.
  intros H. unfold getTempoSupportedCorridors in H.
  repeat (apply elem_of_cons in H as [[= -> -> ->] | H];
          [ split; [eexists; reflexivity|]; vm_compute;
            first [ split; reflexivity | apply list_elem_of_here ] |]).
  by apply elem_of_nil in H.
Qed.

Lemma corridors_and_quoted_rail_witness :
  is_Some (Tempo.usdToDestRates PHP)
  /\ if String.eqb "PH" "GB"
     then TempoQuote.paymentRail
            (Tempo.getTempoQuote 0%Z 0%Z 986%float PHP "PH") = swift
          /\ [local_rails] = [local_rails]
     else TempoQuote.paymentRail
            (Tempo.getTempoQuote 0%Z 0%Z 986%float PHP "PH") ∈ [local_rails].
Proof.
  apply (corridors_and_quoted_rail 0%Z 0%Z 986%float PHP "PH" PHP [local_rails]).
  vm_compute. do 8 apply list_elem_of_further. apply list_elem_of_here.
Defined.

(** ** Listing the store *)

Lemma Array_insert_perm {A} (cmp : A -> A -> Z) x l :
  Array_insert cmp x l ≡ₚ x :: l.
Proof.
  induction l as [|y l IH]; [reflexivity|]. cbn.
  destruct (cmp x y <=? 0)%Z; [reflexivity|].
  rewrite IH. apply Permutation_swap.
Qed.

Lemma Array_sort_perm {A} (cmp : A -> A -> Z) l : Array_sort cmp l ≡ₚ l.
Proof.
  induction l as [|x l IH]; [reflexivity|].
  cbn. rewrite Array_insert_perm. by rewrite IH.
Qed.

Lemma Array_insert_newest_first x l :
  newest_first l ->
  newest_first
    (Array_insert (fun a b => (Transfer.createdAt b - Transfer.createdAt a)%Z) x l).
Proof.
  unfold newest_first. induction 1 as [|y l Hs IH Hall]; cbn.
  - repeat constructor.
  - destruct (Z.leb_spec (Transfer.createdAt y - Transfer.createdAt x) 0).
    + constructor; [by constructor|].
      constructor; [lia|].
      eapply Forall_impl; [exact Hall|]. cbn. intros; lia.
    + constructor; [exact IH|].
      rewrite Array_insert_perm. constructor; [lia | exact Hall].
Qed.

Lemma getAllTransfers_sorted order w : newest_first (getAllTransfers order w).
Proof.
  unfold getAllTransfers, Array_sort.
  induction (values order w) as [|x l IH]; cbn.
  - constructor.
  - by apply Array_insert_newest_first.
Qed.

Lemma exec_clock_monotone rt ad o w :
  World.clockReads w <= World.clockReads (exec rt ad o w).
Proof.
  destruct o as [request | request quote | tid ev | tid ev | tid ev].
  - cbn [exec]. unfold getTransferQuote, bind, promise_all3, call. eval_fields.
    destruct (Adapters.getPaytechQuote _ _ _ _ _);
      destruct (Adapters.getBridgeQuote _ _ _ _ _ _);
      destruct (Adapters.getTempoQuote _ _ _ _ _); eval_fields;
      unfold uuidv4, newDate, ret; eval_fields; lia.
  - rewrite exec_create.
    destruct (createTransfer_outcome rt ad request quote w)
      as (r & x & k & u & E & [Hk _] & _).
    rewrite E. cbn [snd World.clockReads]. lia.
  - destruct (World.transfers w !! tid) as [x|] eqn:Hl.
    + destruct (webhook_frame_exec rt ad (OpPaytechWebhook tid ev) tid w x
                  eq_refl Hl) as (x' & _ & Hf).
      apply Hf.
    + cbn [exec]. by rewrite handlePaytechWebhook_not_found.
  - destruct (World.transfers w !! tid) as [x|] eqn:Hl.
    + destruct (webhook_frame_exec rt ad (OpBridgeWebhook tid ev) tid w x
                  eq_refl Hl) as (x' & _ & Hf).
      apply Hf.
    + cbn [exec]. by rewrite handleBridgeWebhook_not_found.
  - destruct (World.transfers w !! tid) as [x|] eqn:Hl.
    + destruct (webhook_frame_exec rt ad (OpTempoWebhook tid ev) tid w x
                  eq_refl Hl) as (x' & _ & Hf).
      apply Hf.
    + cbn [exec]. by rewrite handleTempoWebhook_not_found.
Qed.

(** Where a transfer found in the store after an operation comes from: it
    was just created, or it was there, unchanged or moved by a webhook
    addressed to it. *)
Lemma exec_stored rt ad o w id x' :
  World.transfers (exec rt ad o w) !! id = Some x' ->
  (id = drawn_id rt w
   /\ World.clockReads w < World.clockReads (exec rt ad o w)
   /\ Transfer.createdAt x' = Runtime.clock rt (World.clockReads w))
  \/ exists x,
       World.transfers w !! id = Some x
       /\ (x' = x \/ webhook_frame rt ad o w (exec rt ad o w) x x').
Proof.
  intros Hl.
  destruct (decide (written_key rt o w = Some id)) as [Hk | Hk].
  - destruct o as [request | request quote | tid ev | tid ev | tid ev];
      cbn [written_key op_target] in Hk; try discriminate; injection Hk as <-.
    + left. rewrite exec_create in *.
      destruct (createTransfer_outcome rt ad request quote w)
        as (r & x & k & u & E & [Hk Hc] & _).
      rewrite E in *. cbn [snd World.transfers World.clockReads] in *.
      rewrite lookup_insert_eq in Hl. injection Hl as <-.
      split; [reflexivity|]. split; [exact Hk | exact Hc].
    + right. destruct (World.transfers w !! tid) as [x|] eqn:Hl0.
      * destruct (webhook_frame_exec rt ad (OpPaytechWebhook tid ev) tid w x
                    eq_refl Hl0) as (y & Hs & Hf).
        rewrite Hs, lookup_insert_eq in Hl. injection Hl as ->. eauto.
      * cbn [exec] in Hl. rewrite handlePaytechWebhook_not_found in Hl by done.
        cbn in Hl. congruence.
    + right. destruct (World.transfers w !! tid) as [x|] eqn:Hl0.
      * destruct (webhook_frame_exec rt ad (OpBridgeWebhook tid ev) tid w x
                    eq_refl Hl0) as (y & Hs & Hf).
        rewrite Hs, lookup_insert_eq in Hl. injection Hl as ->. eauto.
      * cbn [exec] in Hl. rewrite handleBridgeWebhook_not_found in Hl by done.
        cbn in Hl. congruence.
    + right. destruct (World.transfers w !! tid) as [x|] eqn:Hl0.
      * destruct (webhook_frame_exec rt ad (OpTempoWebhook tid ev) tid w x
                    eq_refl Hl0) as (y & Hs & Hf).
        rewrite Hs, lookup_insert_eq in Hl. injection Hl as ->. eauto.
      * cbn [exec] in Hl. rewrite handleTempoWebhook_not_found in Hl by done.
        cbn in Hl. congruence.
  - right. exists x'. split; [| by left].
    by rewrite <- (exec_other_entry rt ad o w id Hk).
Qed.

Lemma reachable_created_before rt ad w :
  reachable rt ad w ->
  forall id x, World.transfers w !! id = Some x -> created_before rt w x.
Proof.
  induction 1 as [| w o Hr IH]; intros id x' Hl.
  - cbn in Hl. by rewrite lookup_empty in Hl.
  - pose proof (exec_clock_monotone rt ad o w) as Hmono.
    destruct (exec_stored rt ad o w id x' Hl)
      as [(_ & Hlt & Hc) | (x & Hl0 & [-> | Hf])].
    + exists (World.clockReads w). done.
    + destruct (IH id x Hl0) as (k & Hk & Hc). exists k. split; [lia | done].
    + destruct (IH id x Hl0) as (k & Hk & Hc). exists k. split; [lia|].
      destruct Hf as (_ & _ & _ & -> & _). done.
Qed.

(** X23. [getAllTransfers] returns the stored transfers, each as often as
    the store holds it, ordered by creation time, newest first. *)
Theorem getAllTransfers_newest_first order w :
  newest_first (getAllTransfers order w)
  /\ getAllTransfers order w ≡ₚ values order w.
Proof.
  split; [apply getAllTransfers_sorted | apply Array_sort_perm].
Qed.

(** X24. Under a clock that advances between readings, every stored
    transfer was created at an earlier reading than the current one; so the
    transfer a [createTransfer] stores, committed or failed, is the first of
    [getAllTransfers] right after. *)
Theorem created_transfer_listed_first rt ad w request quote order :
  (forall i j, i < j -> (Runtime.clock rt i < Runtime.clock rt j)%Z) ->
  reachable rt ad w ->
  enumerates order (exec rt ad (OpCreateTransfer request quote) w) ->
  exists x,
    getTransfer (drawn_id rt w) (exec rt ad (OpCreateTransfer request quote) w)
    = Some x
    /\ head (getAllTransfers order (exec rt ad (OpCreateTransfer request quote) w))
       = Some x.
Proof.
  intros Hclock Hr [Hnd Hkeys].
  destruct (createTransfer_outcome rt ad request quote w)
    as (r & x & k & u & E & [Hk Hc] & _).
  assert (Hx : World.transfers (exec rt ad (OpCreateTransfer request quote) w)
               !! drawn_id rt w = Some x).
  { rewrite exec_create, E. cbn [snd World.transfers]. apply lookup_insert_eq. }
  exists x. split; [exact Hx|].
  pose proof (getAllTransfers_sorted order
                (exec rt ad (OpCreateTransfer request quote) w)) as Hs.
  pose proof (Array_sort_perm
                (fun a b => (Transfer.createdAt b - Transfer.createdAt a)%Z)
                (values order (exec rt ad (OpCreateTransfer request quote) w)))
    as Hp.
  change (getAllTransfers order (exec rt ad (OpCreateTransfer request quote) w)
          ≡ₚ values order (exec rt ad (OpCreateTransfer request quote) w)) in Hp.
  assert (Hin : x ∈ values order (exec rt ad (OpCreateTransfer request quote) w)).
  { apply list_elem_of_omap. exists (drawn_id rt w). split; [|exact Hx].
    apply (elem_of_list_to_set (C := gset string)). rewrite Hkeys.
    apply elem_of_dom. eauto. }
  assert (Hmax : forall y,
             y ∈ values order (exec rt ad (OpCreateTransfer request quote) w) ->
             y = x \/ (Transfer.createdAt y < Transfer.createdAt x)%Z).
  { intros y Hy. apply list_elem_of_omap in Hy as (key & _ & Hy).
    destruct (exec_stored rt ad _ w key y Hy)
      as [(-> & _) | (y0 & Hl0 & [-> | Hf])].
    - left. congruence.
    - right. destruct (reachable_created_before rt ad w Hr key y0 Hl0)
        as (j & Hj & ->). rewrite Hc. by apply Hclock.
    - destruct Hf as (_ & _ & _ & _ & _ & _ & _ & _ & _ & _ & _ & _).
      destruct (decide (key = drawn_id rt w)) as [-> | Hne].
      + left. congruence.
      + right.
        assert (y = y0) as ->.
        { rewrite exec_create, E in Hy. cbn [snd World.transfers] in Hy.
          rewrite lookup_insert_ne in Hy by done. congruence. }
        destruct (reachable_created_before rt ad w Hr key y0 Hl0)
          as (j & Hj & ->). rewrite Hc. by apply Hclock. }
  rewrite <- Hp in Hin. setoid_rewrite <- Hp in Hmax.
  unfold newest_first in Hs.
  destruct (getAllTransfers order _) as [|h l]; [by apply elem_of_nil in Hin|].
  cbn. f_equal.
  destruct (Hmax h (list_elem_of_here _ _)) as [-> | Hlt]; [done|].
  apply elem_of_cons in Hin as [-> | Hin]; [done|].
  apply StronglySorted_inv in Hs as [_ Hall].
  rewrite Forall_forall in Hall. specialize (Hall x Hin). cbn in Hall. lia.
Qed.

Lemma created_transfer_listed_first_witness :
  exists x,
    getTransfer (drawn_id Demo.ticking Run.created)
      (exec Demo.ticking Demo.providers
         (OpCreateTransfer Demo.request Demo.quote) Run.created)
    = Some x
    /\ head (getAllTransfers ["uuid-0"; "uuid-6"]
               (exec Demo.ticking Demo.providers
                  (OpCreateTransfer Demo.request Demo.quote) Run.created))
       = Some x.
Proof.
  apply (created_transfer_listed_first Demo.ticking Demo.providers Run.created
           Demo.request Demo.quote ["uuid-0"; "uuid-6"]).
  - intros i j Hij. simpl. lia.
  - exact reachable_created.
  - split.
    + apply NoDup_cons. split; [|apply NoDup_singleton].
      intros Hin. apply list_elem_of_singleton in Hin. discriminate.
    + vm_compute. reflexivity.
Defined.

(** ** The quote route *)

Lemma Zod_currency_fiat v c :
  Zod.currency v = Some c -> c ∈ [USD; EUR; GBP; MXN; BRL; NGN; KES; INR; PHP].
Proof.
  unfold Zod.currency. destruct v as [[| | |s| |]|]; try discriminate.
  repeat (case_match; [intros [= <-]; solve_member |]). discriminate.
Qed.

Lemma Zod_string_length n v s :
  Zod.string_length n v = Some s -> Js.length s = n.
Proof.
  unfold Zod.string_length. destruct v as [[| | |s'| |]|]; try discriminate.
  destruct (Nat.eqb_spec (Js.length s') n); [|discriminate].
  by intros [= <-].
Qed.

Lemma QuoteSchema_parse_within body r :
  QuoteSchema_parse body = Some r -> within_schema r.
Proof.
  unfold QuoteSchema_parse. destruct body as [| | | | |members]; try discriminate.
  destruct (Zod.number_positive_max _ _) as [a|] eqn:Ea; [|discriminate].
  destruct (Zod.currency (property "sendCurrency" _)) as [sc|] eqn:Esc;
    [|discriminate].
  destruct (Zod.currency (property "receiveCurrency" _)) as [rc|] eqn:Erc;
    [|discriminate].
  destruct (Zod.string_length _ (property "sendCountry" _)) as [sn|] eqn:Esn;
    [|discriminate].
  destruct (Zod.string_length _ (property "receiveCountry" _)) as [rn|] eqn:Ern;
    [|discriminate].
  destruct (Zod.optional_method _) as [pm|]; [|discriminate].
  intros [= <-]. unfold within_schema. cbn.
  unfold Zod.number_positive_max in Ea.
  destruct (property "sendAmount" members) as [[| |x| | |]|]; try discriminate.
  destruct (is_nan x); [discriminate|].
  destruct (0 <? x)%float eqn:E0; [|discriminate].
  destruct (x <=? 100000)%float eqn:E1; [|discriminate].
  injection Ea as <-.
  split; [exact E0|]. split; [exact E1|].
  split; [exact (Zod_currency_fiat _ _ Esc)|].
  split; [exact (Zod_currency_fiat _ _ Erc)|].
  split; [exact (Zod_string_length _ _ _ Esn) | exact (Zod_string_length _ _ _ Ern)].
Qed.

(** The schema measures a country code in code units: 'é' has one, not the
    two bytes of its encoding, and is refused; 'éa' has two and passes. *)
Example schema_counts_code_units :
  QuoteSchema_parse
    (JObject [ ("sendAmount", JNumber 1000%float);
               ("sendCurrency", JString "EUR");
               ("receiveCurrency", JString "PHP");
               ("sendCountry", JString "é");
               ("receiveCountry", JString "PH") ]) = None
  /\ QuoteSchema_parse
       (JObject [ ("sendAmount", JNumber 1000%float);
                  ("sendCurrency", JString "EUR");
                  ("receiveCurrency", JString "PHP");
                  ("sendCountry", JString "éa");
                  ("receiveCountry", JString "PH") ])
     = Some (QuoteRequest.mk 1000%float EUR PHP "éa" "PH" None).
Proof. split; reflexivity. Qed.

(** X25. The quote route answers 200, 400 or 500 and nothing else;
    [success] is set and [data] is there exactly on a 200, the error code
    is VALIDATION_ERROR on a 400 and QUOTE_ERROR on a 500; a body that is
    not JSON gets the 500, not a 400; and whatever the answer, the store of
    transfers is left as it was. *)
Theorem quote_route_classification rt ad body w :
  ApiResponse.status (QuoteRoute.POST rt ad body w).1 ∈ [200; 400; 500]
  /\ ApiResponse.success (QuoteRoute.POST rt ad body w).1
     = Nat.eqb (ApiResponse.status (QuoteRoute.POST rt ad body w).1) 200
  /\ (if ApiResponse.data (QuoteRoute.POST rt ad body w).1 is Some _
      then true else false)
     = Nat.eqb (ApiResponse.status (QuoteRoute.POST rt ad body w).1) 200
  /\ fst <$> ApiResponse.error (QuoteRoute.POST rt ad body w).1
     = match ApiResponse.status (QuoteRoute.POST rt ad body w).1 with
       | 200 => None
       | 400 => Some "VALIDATION_ERROR"
       | _ => Some "QUOTE_ERROR"
       end
  /\ QuoteRoute.POST rt ad None w = (QuoteRoute.quote_error, w)
  /\ World.transfers (QuoteRoute.POST rt ad body w).2 = World.transfers w.
Proof.
  unfold QuoteRoute.POST. destruct body as [json|];
    [| repeat split; solve_member].
  destruct (QuoteSchema_parse json) as [validated|];
    [| repeat split; solve_member].
  destruct (getTransferQuote_run rt ad validated w) as (r & k & u & -> & _).
  destruct r as [q|e]; (split; [cbn; solve_member | repeat split]).
Qed.

(** X26. When the quote route answers 200, the body was JSON that passed
    the schema, the quote returned is the one of [getTransferQuote] for the
    validated request, and that request is within the schema's bounds: an
    amount above 0 and at most 100000, one of the nine fiat currencies on
    each side, country codes of two UTF-16 code units. *)
Theorem quote_route_ok rt ad body w :
  ApiResponse.status (QuoteRoute.POST rt ad body w).1 = 200 ->
  exists json validated q,
    body = Some json
    /\ QuoteSchema_parse json = Some validated
    /\ within_schema validated
    /\ getTransferQuote rt ad validated w = (Ok q, (QuoteRoute.POST rt ad body w).2)
    /\ ApiResponse.data (QuoteRoute.POST rt ad body w).1 = Some q
    /\ TransferQuote.sendAmount q = QuoteRequest.sendAmount validated.
Proof.
  unfold QuoteRoute.POST. destruct body as [json|]; [|discriminate].
  destruct (QuoteSchema_parse json) as [validated|] eqn:Hp; [|discriminate].
  destruct (getTransferQuote rt ad validated w) as [[q|e] w'] eqn:Hq;
    [|discriminate].
  intros _. exists json, validated, q. cbn [fst snd ApiResponse.data].
  split; [reflexivity|]. split; [exact Hp|].
  split; [exact (QuoteSchema_parse_within json validated Hp)|].
  split; [exact Hq|]. split; [reflexivity|].
  destruct (getTransferQuote_run rt ad validated w) as (r & k & u & E & Hr).
  rewrite Hq in E. injection E as <- _.
  destruct (paytechQuoteCall ad validated w) as [pq|];
    [| destruct Hr as [? [=]]].
  destruct (bridgeQuoteCall ad validated w) as [bq|];
    [| destruct Hr as [? [=]]].
  destruct (tempoQuoteCall ad validated w) as [tq|];
    [| destruct Hr as [? [=]]].
  destruct Hr as (q' & [= <-] & Hf). apply Hf.
Qed.

Lemma quote_route_ok_witness :
  exists json validated q,
    Some demo_body = Some json
    /\ QuoteSchema_parse json = Some validated
    /\ within_schema validated
    /\ getTransferQuote Demo.ticking Demo.providers validated World.init
       = (Ok q, (QuoteRoute.POST Demo.ticking Demo.providers (Some demo_body)
                   World.init).2)
    /\ ApiResponse.data
         (QuoteRoute.POST Demo.ticking Demo.providers (Some demo_body)
            World.init).1 = Some q
    /\ TransferQuote.sendAmount q = QuoteRequest.sendAmount validated.
Proof.
  apply (quote_route_ok Demo.ticking Demo.providers (Some demo_body) World.init).
  vm_compute. reflexivity.
Defined.

(** X27. When the quote route answers 400, the body was JSON that the
    schema refused, and nothing happened: no provider was asked, no id
    drawn, no clock read. *)
Theorem quote_route_bad_request rt ad body w :
  ApiResponse.status (QuoteRoute.POST rt ad body w).1 = 400 ->
  exists json,
    body = Some json
    /\ QuoteSchema_parse json = None
    /\ QuoteRoute.POST rt ad body w = (QuoteRoute.validation_error, w).
Proof.
  unfold QuoteRoute.POST. destruct body as [json|]; [|discriminate].
  destruct (QuoteSchema_parse json) as [validated|] eqn:Hp.
  - destruct (getTransferQuote rt ad validated w) as [[q|e] w']; discriminate.
  - intros _. exists json. done.
Qed.

Lemma quote_route_bad_request_witness :
  exists json,
    Some (JObject [("sendAmount", JNumber 250000%float);
                   ("sendCurrency", JString "USD");
                   ("receiveCurrency", JString "PHP");
                   ("sendCountry", JString "US");
                   ("receiveCountry", JString "PH")]) = Some json
    /\ QuoteSchema_parse json = None
    /\ QuoteRoute.POST Demo.ticking Demo.providers
         (Some (JObject [("sendAmount", JNumber 250000%float);
                         ("sendCurrency", JString "USD");
                         ("receiveCurrency", JString "PHP");
                         ("sendCountry", JString "US");
                         ("receiveCountry", JString "PH")])) World.init
       = (QuoteRoute.validation_error, World.init).
Proof.
  apply (quote_route_bad_request Demo.ticking Demo.providers
           (Some (JObject [("sendAmount", JNumber 250000%float);
                           ("sendCurrency", JString "USD");
                           ("receiveCurrency", JString "PHP");
                           ("sendCountry", JString "US");
                           ("receiveCountry", JString "PH")])) World.init).
  vm_compute. reflexivity.
Defined.

(** X28. Over the quotes of src/process, which are computed locally and
    never reject, the quote route answers 200 to every JSON body that passes
    the schema: a 500 can only come from a body that is not JSON. *)
Theorem quote_route_source rt h body w :
  ApiResponse.status (QuoteRoute.POST rt (source_adapters h) body w).1
  = match body with
    | None => 500
    | Some json =>
        match QuoteSchema_parse json with
        | Some _ => 200
        | None => 400
        end
    end.
Proof.
  unfold QuoteRoute.POST. destruct body as [json|]; [|reflexivity].
  destruct (QuoteSchema_parse json) as [validated|]; [|reflexivity].
  destruct (source_quote_resolves rt h validated w) as [q Hq].
  destruct (getTransferQuote rt (source_adapters h) validated w) as [r w'].
  cbn in Hq. by rewrite Hq.
Qed.
